(** * fitness_advisor: circles, ranks and contextual notifications

    A shallow embedding of [app/fitness_advisor/models.py] and of the
    decision logic of [app/fitness_advisor/service.py], followed by the
    properties of the notification selector and of the circle registry.

    Conventions of the embedding.
    - Python [int] is [Z]; [float] is an IEEE binary64 value ([spec_float]
      at precision 53); [str] is [string] (UTF-8 bytes); [List[T]] is
      [list T]; [Dict] is a [gmap] with string keys; [Optional[T]] is
      [option T].
    - The functions of [service.py] are coroutines that await one another
      in sequence; each is embedded as a computation in the monad [Py],
      which threads the ambient runtime ([World]) and may raise.
    - Objects that a function mutates in place (the profile, the circle and
      the members it holds) are returned next to the Python return value.
      Every member object is stored once in its circle, as the code
      constructs them, so updating the member found at index [i] is a list
      update at [i].
    - A [time] value carries the UTC offset that its tzinfo reports, if
      any: [time(12, 0)] and [datetime.now().time()] are naive, the
      [current_time] of a snapshot need not be.
    - [str] of an [int] is the full decimal expansion. *)

From Stdlib Require Import ZArith String Ascii List Lia DecimalString.
From Stdlib Require Import Floats.SpecFloat.
From stdpp Require Import base gmap strings list sorting.

Open Scope Z_scope.

(** ** Python values *)

Definition PyFloat : Type := spec_float.

(** [str(n)] and [f"{n}"] for an [int]. *)
Definition str_int (n : Z) : string := NilZero.string_of_int (Z.to_int n).

(** Exceptions that the modelled code can raise. *)
Inductive PyError : Type :=
  | OverflowError
  | TypeError
  | AgentFailure.

Inductive Exc (A : Type) : Type :=
  | Ok (a : A)
  | Raise (e : PyError).
Arguments Ok {A} a.
Arguments Raise {A} e.

#[global] Instance PyError_eq_dec : EqDecision PyError.
Proof. solve_decision. Defined.

#[global] Instance Exc_eq_dec {A : Type} `{EqDecision A} : EqDecision (Exc A).
Proof. solve_decision. Defined.

(** Values stored in the free-form [context] dictionary of a notification. *)
Inductive PyValue : Type :=
  | PyInt (n : Z)
  | PyStr (s : string)
  | PyStrList (l : list string).

(** ** datetime *)

Module time.
(** A [time] object: its four fields and [utcoffset()], the offset from UTC
    in microseconds that its tzinfo reports. The offset is [None] for a
    naive time, one without tzinfo or whose tzinfo reports no offset; a
    time with an offset is aware. *)
Record t : Type := make {
  hour : Z;
  minute : Z;
  second : Z;
  microsecond : Z;
  utcoffset : option Z
}.

(** [time(hour, minute, second, microsecond)]: tzinfo defaults to None. *)
Definition mk (hour minute second microsecond : Z) : t :=
  make hour minute second microsecond None.

(** [x.replace(tzinfo=None)] *)
Definition naive (x : t) : t :=
  make (hour x) (minute x) (second x) (microsecond x) None.

(** [a < b] on the tuples (hour, minute, second, microsecond). *)
Definition ltb (a b : t) : bool :=
  (hour a <? hour b)
  || ((hour a =? hour b)
      && ((minute a <? minute b)
          || ((minute a =? minute b)
              && ((second a <? second b)
                  || ((second a =? second b)
                      && (microsecond a <? microsecond b)))))).

(** [a >= b] on the tuples of fields. *)
Definition geb (a b : t) : bool := negb (ltb a b).

(** Seconds since midnight UTC of an aware time; the offset counts by its
    whole seconds (days and seconds of the timedelta), rounded down. *)
Definition utc_second (x : t) (offset : Z) : Z :=
  hour x * 3600 + minute x * 60 + second x - offset / 1000000.

(** [a >= b]. Two naive times, and two aware times of equal offset, compare
    by their fields; two aware times of different offsets compare by
    (seconds since midnight UTC, microsecond); a naive and an aware time do
    not compare: TypeError. *)
Definition ge (a b : t) : Exc bool :=
  match utcoffset a, utcoffset b with
  | None, None => Ok (geb a b)
  | Some oa, Some ob =>
      if oa =? ob then Ok (geb a b)
      else
        Ok (negb ((utc_second a oa <? utc_second b ob)
                  || ((utc_second a oa =? utc_second b ob)
                      && (microsecond a <? microsecond b))))
  | _, _ => Raise TypeError
  end.

(** Zero-padded decimal of a non-negative field, as [%02d], [%06d]. *)
Fixpoint zeros (n : nat) : string :=
  match n with O => "" | S n' => "0" +:+ zeros n' end.

Definition pad (width : nat) (n : Z) : string :=
  let s := str_int n in zeros (width - String.length s) +:+ s.

(** The offset as isoformat writes it: sign, HH:MM, then :SS when the
    offset has seconds or microseconds, then .ffffff when it has
    microseconds; nothing for a naive time. *)
Definition format_offset (offset : option Z) : string :=
  match offset with
  | None => ""
  | Some off =>
      let sign := if off <? 0 then "-" else "+" in
      let rest := Z.abs off mod 3600000000 in
      let under_minute := rest mod 60000000 in
      sign +:+ pad 2 (Z.abs off / 3600000000) +:+ ":" +:+ pad 2 (rest / 60000000)
      +:+ (if under_minute =? 0 then ""
           else ":" +:+ pad 2 (under_minute / 1000000)
                +:+ (if under_minute mod 1000000 =? 0 then ""
                     else "." +:+ pad 6 (under_minute mod 1000000)))
  end.

(** [str(t)]: HH:MM:SS, followed by .ffffff when microsecond is not 0, and
    by the offset of an aware time. *)
Definition str (x : t) : string :=
  pad 2 (hour x) +:+ ":" +:+ pad 2 (minute x) +:+ ":" +:+ pad 2 (second x)
  +:+ (if microsecond x =? 0 then "" else "." +:+ pad 6 (microsecond x))
  +:+ format_offset (utcoffset x).
End time.

Module timedelta.
(** Only [timedelta(days=d)] occurs: the day count is the whole value. *)
Record t : Type := mk { days : Z }.

Definition max_days : Z := 999999999.

(** [timedelta(days=d)] raises OverflowError beyond [max_days]. *)
Definition of_days (d : Z) : Exc t :=
  if bool_decide (Z.abs d <= max_days) then Ok (mk d) else Raise OverflowError.
End timedelta.

Module datetime.
(** A datetime: the proleptic Gregorian ordinal of its date
    (0001-01-01 is day 1) and its time of day. *)
Record t : Type := mk { ordinal : Z; time_of_day : time.t }.

(** The ordinal of 9999-12-31, [date.max.toordinal()]. *)
Definition max_ordinal : Z := 3652059.

(** [dt.time()]: the time of day, without tzinfo. *)
Definition time (dt : t) : time.t := time.naive (time_of_day dt).

(** [dt + delta] for a whole number of days: the date moves, the time of
    day stays; OverflowError when the date leaves 0001..9999. *)
Definition add (dt : t) (delta : timedelta.t) : Exc t :=
  let o := ordinal dt + timedelta.days delta in
  if bool_decide (1 <= o <= max_ordinal)
  then Ok (mk o (time_of_day dt))
  else Raise OverflowError.
End datetime.

(** ** Enumerations of models.py *)

Inductive ActivityLevel : Type :=
  | SEDENTARY | LIGHT | MODERATE | VERY_ACTIVE | ATHLETE.

Inductive CookingSkillLevel : Type :=
  | BEGINNER | INTERMEDIATE | ADVANCED.

Inductive FitnessGoal : Type :=
  | HEALTHY_LIVING | WEIGHT_GAIN | WEIGHT_LOSS | MUSCLE_GAIN | STRENGTH.

Inductive CircleRank : Type :=
  | FOLLOWER | MEMBER | LEADER | INFLUENCER | COMMUNITY_INFLUENCER | BIG_INFLUENCER.

Inductive NotificationType : Type :=
  | STEP_REMINDER | MEAL_REMINDER | WORKOUT_REMINDER | PROGRESS_CELEBRATION
  | CALORIE_WARNING | HYDRATION_REMINDER | CIRCLE_CHALLENGE
  | ACCOUNTABILITY_CHECK | INFLUENCER_MOTIVATION.

Inductive SkippedMeal : Type :=
  | SKIP_BREAKFAST | SKIP_LUNCH | SKIP_DINNER | SKIP_SNACK
  | SKIP_BREAKFAST_LUNCH | SKIP_LUNCH_DINNER | SKIP_DINNER_SNACK
  | SKIP_BREAKFAST_DINNER | SKIP_BREAKFAST_LUNCH_DINNER
  | SKIP_BREAKFAST_LUNCH_DINNER_SNACK.

#[global] Instance FitnessGoal_eq_dec : EqDecision FitnessGoal.
Proof. solve_decision. Defined.

#[global] Instance CircleRank_eq_dec : EqDecision CircleRank.
Proof. solve_decision. Defined.

#[global] Instance NotificationType_eq_dec : EqDecision NotificationType.
Proof. solve_decision. Defined.

(** ** Models of models.py *)

Module CircleMember.
Record t : Type := mk {
  user_id : string;
  name : string;
  rank : CircleRank;
  fitness_goal : FitnessGoal;
  current_streak : Z;
  total_points : Z;
  followers_count : Z;
  following_count : Z;
  last_active : datetime.t;
  profile_picture : option string;
  bio : option string;
  location : string;
  is_online : bool
}.

(** [m.rank = r] *)
Definition set_rank (r : CircleRank) (m : t) : t :=
  mk (user_id m) (name m) r (fitness_goal m) (current_streak m)
     (total_points m) (followers_count m) (following_count m)
     (last_active m) (profile_picture m) (bio m) (location m) (is_online m).

(** [m.last_active = d] *)
Definition set_last_active (d : datetime.t) (m : t) : t :=
  mk (user_id m) (name m) (rank m) (fitness_goal m) (current_streak m)
     (total_points m) (followers_count m) (following_count m)
     d (profile_picture m) (bio m) (location m) (is_online m).

(** [m.is_online = b] *)
Definition set_is_online (b : bool) (m : t) : t :=
  mk (user_id m) (name m) (rank m) (fitness_goal m) (current_streak m)
     (total_points m) (followers_count m) (following_count m)
     (last_active m) (profile_picture m) (bio m) (location m) b.
End CircleMember.

Module FitnessCircle.
Record t : Type := mk {
  circle_id : string;
  name : string;
  description : string;
  created_by : string;
  members : list CircleMember.t;
  max_members : Z;
  is_public : bool;
  tags : list string;
  created_at : datetime.t;
  last_activity : datetime.t;
  total_challenges_completed : Z;
  circle_goal : FitnessGoal;
  circle_theme : option string
}.

(** The member list after an in-place change ([append], or a field
    assignment on one of its members). *)
Definition set_members (ms : list CircleMember.t) (c : t) : t :=
  mk (circle_id c) (name c) (description c) (created_by c) ms
     (max_members c) (is_public c) (tags c) (created_at c)
     (last_activity c) (total_challenges_completed c) (circle_goal c)
     (circle_theme c).

(** [c.last_activity = d] *)
Definition set_last_activity (d : datetime.t) (c : t) : t :=
  mk (circle_id c) (name c) (description c) (created_by c) (members c)
     (max_members c) (is_public c) (tags c) (created_at c)
     d (total_challenges_completed c) (circle_goal c) (circle_theme c).
End FitnessCircle.

Module CircleChallenge.
Record t : Type := mk {
  challenge_id : string;
  circle_id : string;
  title : string;
  description : string;
  challenge_type : string;
  target_value : Z;
  duration_days : Z;
  points_reward : Z;
  created_by : string;
  participants : list string;
  completed_by : list string;
  start_date : datetime.t;
  end_date : datetime.t;
  is_active : bool
}.

(** [ch.participants = ids] *)
Definition set_participants (ids : list string) (ch : t) : t :=
  mk (challenge_id ch) (circle_id ch) (title ch) (description ch)
     (challenge_type ch) (target_value ch) (duration_days ch)
     (points_reward ch) (created_by ch) ids (completed_by ch)
     (start_date ch) (end_date ch) (is_active ch).
End CircleChallenge.

Module AccountabilityCheck.
Record t : Type := mk {
  check_id : string;
  circle_id : string;
  initiated_by : string;
  target_members : list string;
  message : string;
  check_type : string;
  created_at : datetime.t;
  responses : gmap string string;
  is_completed : bool
}.
End AccountabilityCheck.

Module InfluencerPost.
Record t : Type := mk {
  post_id : string;
  influencer_id : string;
  circle_id : string;
  content : string;
  post_type : string;
  media_urls : list string;
  likes : Z;
  comments : list string;
  created_at : datetime.t;
  is_featured : bool
}.
End InfluencerPost.

Module DailyTracking.
Record t : Type := mk {
  date : datetime.t;
  steps_taken : Z;
  steps_goal : Z;
  calories_consumed : Z;
  calories_goal : Z;
  meals_logged : list string;
  workouts_completed : list string;
  water_intake : PyFloat;
  water_goal : PyFloat;
  current_time : option time.t
}.
End DailyTracking.

Module FitnessProfile.
Record t : Type := mk {
  age : Z;
  weight : PyFloat;
  height : PyFloat;
  name : string;
  location : string;
  gender : string;
  desired_weight : PyFloat;
  activity_level : ActivityLevel;
  fitness_goal : FitnessGoal;
  health_conditions : list string;
  dietary_restrictions : list string;
  cooking_skill_level : CookingSkillLevel;
  intermittent_fasting : bool;
  skipped_meals : list SkippedMeal;
  fasting_threshold : Z;
  allergies : list string;
  cuisine_preferences : list string;
  injuries : list string;
  preferred_workout_time : string;
  available_equipment : list string;
  workout_days_per_week : Z;
  daily_calorie_deficit : Z;
  daily_calorie_surplus : Z;
  step_goal : Z;
  water_goal : PyFloat;
  circle_rank : CircleRank;
  circles_joined : list string;
  followers : list string;
  following : list string
}.

(** The profile after [p.circles_joined.append(..)]. *)
Definition set_circles_joined (ids : list string) (p : t) : t :=
  mk (age p) (weight p) (height p) (name p) (location p) (gender p)
     (desired_weight p) (activity_level p) (fitness_goal p)
     (health_conditions p) (dietary_restrictions p)
     (cooking_skill_level p) (intermittent_fasting p) (skipped_meals p)
     (fasting_threshold p) (allergies p) (cuisine_preferences p)
     (injuries p) (preferred_workout_time p) (available_equipment p)
     (workout_days_per_week p) (daily_calorie_deficit p)
     (daily_calorie_surplus p) (step_goal p) (water_goal p)
     (circle_rank p) ids (followers p) (following p).
End FitnessProfile.

Module BehavioralNotification.
Record t : Type := mk {
  notification_type : NotificationType;
  message : string;
  urgency : string;
  context : gmap string PyValue;
  suggested_action : option string
}.
End BehavioralNotification.

(** ** The ambient runtime *)

(** What the code reads from outside its arguments: the wall clock, the
    UUID generator and the generative agent. Each is an oracle, indexed by
    how often it has been consulted; the calls made to the agent are
    logged. *)
Record World : Type := mkWorld {
  wall_clock : nat -> datetime.t;
  clock_reads : nat;
  uuid_source : nat -> string;
  uuids_drawn : nat;
  agent_reply : nat -> FitnessProfile.t -> DailyTracking.t -> Exc BehavioralNotification.t;
  agent_calls : list (FitnessProfile.t * DailyTracking.t)
}.

Definition Py (A : Type) : Type := World -> Exc A * World.

Definition ret {A : Type} (a : A) : Py A := fun w => (Ok a, w).

Definition bind {A B : Type} (m : Py A) (k : A -> Py B) : Py B :=
  fun w =>
    match m w with
    | (Ok a, w') => k a w'
    | (Raise e, w') => (Raise e, w')
    end.

(** A pure step that may raise. *)
Definition lift {A : Type} (r : Exc A) : Py A := fun w => (r, w).

Declare Scope py_scope.
Delimit Scope py_scope with py.
Notation "x <- m ;; k" := (bind m (fun x => k))
  (at level 100, m at next level, right associativity) : py_scope.
Open Scope py_scope.

(** [datetime.now()] *)
Definition datetime_now : Py datetime.t :=
  fun w =>
    (Ok (wall_clock w (clock_reads w)),
     mkWorld (wall_clock w) (S (clock_reads w)) (uuid_source w) (uuids_drawn w)
             (agent_reply w) (agent_calls w)).

(** [str(uuid.uuid4())] *)
Definition uuid4_str : Py string :=
  fun w =>
    (Ok (uuid_source w (uuids_drawn w)),
     mkWorld (wall_clock w) (clock_reads w) (uuid_source w) (S (uuids_drawn w))
             (agent_reply w) (agent_calls w)).

(** [(await behavioral_agent.run(.., deps=(profile, tracking))).output]:
    the call is logged and the agent's reply, or its failure, comes back. *)
Definition behavioral_agent_run (profile : FitnessProfile.t) (tracking : DailyTracking.t)
  : Py BehavioralNotification.t :=
  fun w =>
    (agent_reply w (length (agent_calls w)) profile tracking,
     mkWorld (wall_clock w) (clock_reads w) (uuid_source w) (uuids_drawn w)
             (agent_reply w) (agent_calls w ++ [(profile, tracking)])).

(** ** binary64 arithmetic used by the calorie rule *)

Module pyfloat.
Definition prec : Z := 53.
Definition emax : Z := 1024.

(** [float(n)] for an [int]: the nearest binary64 (ties to even);
    OverflowError when [n] is too large to convert. *)
Definition of_int (n : Z) : Exc PyFloat :=
  match binary_normalize prec emax n 0 false with
  | S754_infinity _ => Raise OverflowError
  | f => Ok f
  end.

(** The literal [0.8]: the binary64 nearest to 4/5. *)
Definition lit_0_8 : PyFloat := S754_finite false 7205759403792794 (-53).

(** [n * x] for an [int] n and a [float] x: n is converted, then the
    product is rounded. *)
Definition int_mul (n : Z) (x : PyFloat) : Exc PyFloat :=
  match of_int n with
  | Ok f => Ok (SFmul prec emax f x)
  | Raise e => Raise e
  end.

(** [c > x] for an [int] c and a [float] x: Python compares the exact
    values, without converting c. *)
Definition int_gt (c : Z) (x : PyFloat) : bool :=
  match x with
  | S754_zero _ => 0 <? c
  | S754_infinity s => s
  | S754_nan => false
  | S754_finite s m e =>
      let v := if s then Z.neg m else Z.pos m in
      if 0 <=? e then v * 2 ^ e <? c else v <? c * 2 ^ (- e)
  end.

(** The largest integer not above a finite [x]. *)
Definition floor (x : PyFloat) : Z :=
  match x with
  | S754_finite s m e =>
      let v := if s then Z.neg m else Z.pos m in
      if 0 <=? e then v * 2 ^ e else v / 2 ^ (- e)
  | _ => 0
  end.

Definition is_finite (x : PyFloat) : bool :=
  match x with
  | S754_zero _ | S754_finite _ _ _ => true
  | _ => false
  end.
End pyfloat.

(** ** service.py: circle management *)

(** The rank lists that the gates test membership in. *)
Definition influencer_ranks : list CircleRank :=
  [INFLUENCER; COMMUNITY_INFLUENCER; BIG_INFLUENCER].

Definition privileged_ranks : list CircleRank :=
  [LEADER; INFLUENCER; COMMUNITY_INFLUENCER; BIG_INFLUENCER].

(** [next((m for m in members if m.user_id == uid), None)]: the first
    member with that id, with its position in the list. *)
Definition find_member (members : list CircleMember.t) (uid : string)
  : option (nat * CircleMember.t) :=
  list_find (λ m, CircleMember.user_id m = uid) members.

(** [[member.user_id for member in members]] *)
Definition member_ids (members : list CircleMember.t) : list string :=
  CircleMember.user_id <$> members.

Definition create_fitness_circle
    (creator_profile : FitnessProfile.t) (name description : string)
    (circle_goal : FitnessGoal) (max_members : Z) (is_public : bool)
    (tags : list string)
  : Py (FitnessCircle.t * FitnessProfile.t) :=
  cid <- uuid4_str ;;
  created <- datetime_now ;;
  activity <- datetime_now ;;
  let circle :=
    FitnessCircle.mk cid name description (FitnessProfile.name creator_profile)
      [] max_members is_public tags created activity 0 circle_goal None in
  let creator_rank :=
    if bool_decide (FitnessProfile.circle_rank creator_profile ∈ influencer_ranks)
    then LEADER else MEMBER in
  active <- datetime_now ;;
  let creator_member :=
    CircleMember.mk (FitnessProfile.name creator_profile)
      (FitnessProfile.name creator_profile) creator_rank
      (FitnessProfile.fitness_goal creator_profile) 0 0 0 0 active None None
      (FitnessProfile.location creator_profile) true in
  let circle :=
    FitnessCircle.set_members (FitnessCircle.members circle ++ [creator_member]) circle in
  let creator_profile :=
    FitnessProfile.set_circles_joined
      (FitnessProfile.circles_joined creator_profile ++ [FitnessCircle.circle_id circle])
      creator_profile in
  ret (circle, creator_profile).

Definition join_circle (profile : FitnessProfile.t) (circle : FitnessCircle.t)
  : Py (bool * FitnessProfile.t * FitnessCircle.t) :=
  if bool_decide (FitnessCircle.max_members circle
                  <= Z.of_nat (length (FitnessCircle.members circle)))
  then ret (false, profile, circle)
  else if bool_decide (FitnessProfile.name profile
                       ∈ member_ids (FitnessCircle.members circle))
  then ret (false, profile, circle)
  else
    let initial_rank :=
      if bool_decide (FitnessProfile.circle_rank profile ∈ influencer_ranks)
      then MEMBER else FOLLOWER in
    active <- datetime_now ;;
    let new_member :=
      CircleMember.mk (FitnessProfile.name profile) (FitnessProfile.name profile)
        initial_rank (FitnessProfile.fitness_goal profile) 0 0 0 0 active None None
        (FitnessProfile.location profile) true in
    let circle :=
      FitnessCircle.set_members (FitnessCircle.members circle ++ [new_member]) circle in
    let profile :=
      FitnessProfile.set_circles_joined
        (FitnessProfile.circles_joined profile ++ [FitnessCircle.circle_id circle])
        profile in
    activity <- datetime_now ;;
    let circle := FitnessCircle.set_last_activity activity circle in
    ret (true, profile, circle).

Definition create_circle_challenge
    (creator_profile : FitnessProfile.t) (circle : FitnessCircle.t)
    (title description challenge_type : string)
    (target_value duration_days points_reward : Z)
  : Py (option CircleChallenge.t) :=
  let creator_member :=
    find_member (FitnessCircle.members circle) (FitnessProfile.name creator_profile) in
  match creator_member with
  | None => ret None
  | Some (_, m) =>
      if bool_decide (CircleMember.rank m ∉ privileged_ranks) then ret None
      else
        cid <- uuid4_str ;;
        start <- datetime_now ;;
        base <- datetime_now ;;
        delta <- lift (timedelta.of_days duration_days) ;;
        finish <- lift (datetime.add base delta) ;;
        let challenge :=
          CircleChallenge.mk cid (FitnessCircle.circle_id circle) title description
            challenge_type target_value duration_days points_reward
            (FitnessProfile.name creator_profile) [] [] start finish true in
        let challenge :=
          CircleChallenge.set_participants
            (member_ids (FitnessCircle.members circle)) challenge in
        ret (Some challenge)
  end.

Definition initiate_accountability_check
    (initiator_profile : FitnessProfile.t) (circle : FitnessCircle.t)
    (target_members : list string) (message check_type : string)
  : Py (option AccountabilityCheck.t) :=
  let initiator_member :=
    find_member (FitnessCircle.members circle) (FitnessProfile.name initiator_profile) in
  match initiator_member with
  | None => ret None
  | Some (_, m) =>
      if bool_decide (CircleMember.rank m ∉ privileged_ranks) then ret None
      else
        let valid_targets :=
          CircleMember.user_id
            <$> filter (λ member, CircleMember.user_id member ∈ target_members)
                       (FitnessCircle.members circle) in
        cid <- uuid4_str ;;
        created <- datetime_now ;;
        ret (Some (AccountabilityCheck.mk cid (FitnessCircle.circle_id circle)
                     (FitnessProfile.name initiator_profile) valid_targets
                     message check_type created ∅ false))
  end.

Definition create_influencer_post
    (influencer_profile : FitnessProfile.t) (circle : FitnessCircle.t)
    (content post_type : string) (media_urls : list string)
  : Py (option InfluencerPost.t) :=
  if bool_decide (FitnessProfile.circle_rank influencer_profile ∉ influencer_ranks)
  then ret None
  else
    pid <- uuid4_str ;;
    created <- datetime_now ;;
    ret (Some (InfluencerPost.mk pid (FitnessProfile.name influencer_profile)
                 (FitnessCircle.circle_id circle) content post_type media_urls
                 0 [] created false)).

Definition promote_member_rank
    (circle : FitnessCircle.t) (member_id : string) (new_rank : CircleRank)
  : Py (bool * FitnessCircle.t) :=
  match find_member (FitnessCircle.members circle) member_id with
  | None => ret (false, circle)
  | Some (i, member) =>
      let member := CircleMember.set_rank new_rank member in
      let circle :=
        FitnessCircle.set_members (<[i := member]> (FitnessCircle.members circle)) circle in
      activity <- datetime_now ;;
      ret (true, FitnessCircle.set_last_activity activity circle)
  end.

Definition update_member_progress
    (circle : FitnessCircle.t) (member_id : string)
    (steps_taken calories_consumed workouts_completed : Z)
  : Py (bool * FitnessCircle.t) :=
  match find_member (FitnessCircle.members circle) member_id with
  | None => ret (false, circle)
  | Some (i, member) =>
      active <- datetime_now ;;
      let member := CircleMember.set_last_active active member in
      let member := CircleMember.set_is_online true member in
      let member :=
        if bool_decide (7 <= CircleMember.current_streak member)
           && bool_decide (CircleMember.rank member = FOLLOWER)
        then CircleMember.set_rank MEMBER member
        else if bool_decide (1000 <= CircleMember.total_points member)
                && bool_decide (CircleMember.rank member = MEMBER)
        then CircleMember.set_rank LEADER member
        else member in
      let circle :=
        FitnessCircle.set_members (<[i := member]> (FitnessCircle.members circle)) circle in
      activity <- datetime_now ;;
      ret (true, FitnessCircle.set_last_activity activity circle)
  end.

(** The sort key of the leaderboard, [(x.total_points, x.current_streak)];
    tuples compare lexicographically. *)
Definition leaderboard_key (x : CircleMember.t) : Z * Z :=
  (CircleMember.total_points x, CircleMember.current_streak x).

Definition key_ltb (a b : Z * Z) : bool :=
  (a.1 <? b.1) || ((a.1 =? b.1) && (a.2 <? b.2)).

(** [sorted(l, key=.., reverse=True)]. Python's sort is stable, also with
    [reverse=True]: the result is in descending key order and elements with
    equal keys keep the order they had in [l]. That result is unique; it is
    computed here by insertion, each element going behind the elements with
    a strictly greater key and in front of the rest. *)
Fixpoint insert_desc {A : Type} (key : A -> Z * Z) (x : A) (l : list A) : list A :=
  match l with
  | [] => [x]
  | y :: l' =>
      if key_ltb (key x) (key y) then y :: insert_desc key x l' else x :: y :: l'
  end.

Definition sorted_desc {A : Type} (key : A -> Z * Z) (l : list A) : list A :=
  foldr (insert_desc key) [] l.

Definition get_circle_leaderboard (circle : FitnessCircle.t) : list CircleMember.t :=
  sorted_desc leaderboard_key (FitnessCircle.members circle).

(** ** service.py: behavioural notifications *)

Definition generate_behavioral_notification
    (profile : FitnessProfile.t) (tracking : DailyTracking.t)
  : Py BehavioralNotification.t :=
  behavioral_agent_run profile tracking.

(** [tracking.current_time or datetime.now().time()]: the clock is read
    only when the snapshot carries no time (a [time] object is never
    false). *)
Definition effective_time (tracking : DailyTracking.t) : Py time.t :=
  match DailyTracking.current_time tracking with
  | Some t => ret t
  | None => now <- datetime_now ;; ret (datetime.time now)
  end.

Definition step_message (steps_taken steps_remaining steps_goal : Z) : string :=
  "🚶‍♂️ Only " +:+ str_int steps_taken +:+ " steps by noon! You need "
  +:+ str_int steps_remaining +:+ " more steps to reach your "
  +:+ str_int steps_goal +:+ " goal. A 30-minute walk could add ~3,000 steps!".

Definition check_step_progress
    (profile : FitnessProfile.t) (tracking : DailyTracking.t)
  : Py (option BehavioralNotification.t) :=
  current_time <- effective_time tracking ;;
  let steps_remaining :=
    DailyTracking.steps_goal tracking - DailyTracking.steps_taken tracking in
  past_noon <- lift (time.ge current_time (time.mk 12 0 0 0)) ;;
  if past_noon && bool_decide (DailyTracking.steps_taken tracking < 2000)
  then
    ret (Some (BehavioralNotification.mk STEP_REMINDER
                 (step_message (DailyTracking.steps_taken tracking) steps_remaining
                    (DailyTracking.steps_goal tracking))
                 "high"
                 {[ "steps_taken" := PyInt (DailyTracking.steps_taken tracking);
                    "steps_goal" := PyInt (DailyTracking.steps_goal tracking);
                    "time" := PyStr (time.str current_time) ]}
                 (Some "Take a 30-minute walk or break up movement throughout the day")))
  else ret None.

Definition breakfast_message : string :=
  "🍳 Haven't logged breakfast yet? Starting your day with a balanced meal helps maintain your metabolism and energy levels!".

Definition lunch_message : string :=
  "🥗 Time for lunch! Don't skip meals - it can lead to overeating later. Aim for protein and veggies to stay on track with your goals.".

Definition check_meal_logging
    (profile : FitnessProfile.t) (tracking : DailyTracking.t)
  : Py (option BehavioralNotification.t) :=
  current_time <- effective_time tracking ;;
  past_ten <- lift (time.ge current_time (time.mk 10 0 0 0)) ;;
  if past_ten && bool_decide ("breakfast" ∉ DailyTracking.meals_logged tracking)
  then
    ret (Some (BehavioralNotification.mk MEAL_REMINDER breakfast_message "medium"
                 {[ "meals_logged" := PyStrList (DailyTracking.meals_logged tracking);
                    "time" := PyStr (time.str current_time) ]}
                 (Some "Log your breakfast or plan your next meal")))
  else
    past_two <- lift (time.ge current_time (time.mk 14 0 0 0)) ;;
    if past_two && bool_decide ("lunch" ∉ DailyTracking.meals_logged tracking)
    then
      ret (Some (BehavioralNotification.mk MEAL_REMINDER lunch_message "medium"
                   {[ "meals_logged" := PyStrList (DailyTracking.meals_logged tracking);
                      "time" := PyStr (time.str current_time) ]}
                   (Some "Log your lunch or plan a healthy meal")))
    else ret None.

Definition calorie_message (calories_consumed calories_remaining : Z) : string :=
  "⚠️ You've consumed " +:+ str_int calories_consumed +:+ " calories today. Only "
  +:+ str_int calories_remaining +:+ " calories left to stay within your weight loss target!".

Definition check_calorie_progress
    (profile : FitnessProfile.t) (tracking : DailyTracking.t)
  : Py (option BehavioralNotification.t) :=
  if bool_decide (FitnessProfile.fitness_goal profile = WEIGHT_LOSS) then
    let calories_remaining :=
      DailyTracking.calories_goal tracking - DailyTracking.calories_consumed tracking in
    threshold <- lift (pyfloat.int_mul (DailyTracking.calories_goal tracking) pyfloat.lit_0_8) ;;
    if pyfloat.int_gt (DailyTracking.calories_consumed tracking) threshold
    then
      ret (Some (BehavioralNotification.mk CALORIE_WARNING
                   (calorie_message (DailyTracking.calories_consumed tracking)
                      calories_remaining)
                   "high"
                   {[ "calories_consumed" := PyInt (DailyTracking.calories_consumed tracking);
                      "calories_goal" := PyInt (DailyTracking.calories_goal tracking) ]}
                   (Some "Choose lower-calorie options for remaining meals")))
    else ret None
  else ret None.

Definition get_contextual_notification
    (profile : FitnessProfile.t) (tracking : DailyTracking.t)
  : Py (option BehavioralNotification.t) :=
  step_notification <- check_step_progress profile tracking ;;
  match step_notification with
  | Some n => ret (Some n)
  | None =>
      meal_notification <- check_meal_logging profile tracking ;;
      match meal_notification with
      | Some n => ret (Some n)
      | None =>
          calorie_notification <- check_calorie_progress profile tracking ;;
          match calorie_notification with
          | Some n => ret (Some n)
          | None =>
              n <- generate_behavioral_notification profile tracking ;;
              ret (Some n)
          end
      end
  end.

(** ** Example data

    The profile and the three tracking snapshots of
    [test_utils.example_usage], a runtime to run them in, and a few small
    circles. *)

Definition float_of_Z (n : Z) : PyFloat := binary_normalize 53 1024 n 0 false.

Definition tunde : FitnessProfile.t :=
  FitnessProfile.mk 30 (float_of_Z 80) (float_of_Z 170) "Tunde" "Lagos, Nigeria" "male"
    (float_of_Z 75) MODERATE WEIGHT_LOSS ["none"] ["none"] BEGINNER false [] 12
    ["none"] ["Nigerian"] ["none"] "morning" [] 4 500 0 10000
    (binary_normalize 53 1024 5 (-1) false) FOLLOWER [] [] [].

Definition example_day : datetime.t := datetime.mk 739000 (time.mk 8 30 0 0).

Definition example_tracking
    (steps_taken calories_consumed : Z) (meals_logged : list string) (now : time.t)
  : DailyTracking.t :=
  DailyTracking.mk example_day steps_taken 10000 calories_consumed 1500 meals_logged []
    (float_of_Z 0) (binary_normalize 53 1024 5 (-1) false) (Some now).

Definition tracking_1 : DailyTracking.t :=
  example_tracking 200 800 ["breakfast"] (time.mk 12 0 0 0).

Definition tracking_2 : DailyTracking.t :=
  example_tracking 5000 600 ["breakfast"] (time.mk 14 0 0 0).

Definition tracking_3 : DailyTracking.t :=
  example_tracking 8000 1300 ["breakfast"; "lunch"] (time.mk 16 0 0 0).

(** A snapshot whose time of day is aware,
    [time(14, 0, tzinfo=timezone.utc)]: 5000 steps, both meals logged. *)
Definition tracking_utc : DailyTracking.t :=
  example_tracking 5000 600 ["breakfast"; "lunch"] (time.make 14 0 0 0 (Some 0)).

Definition example_reply : BehavioralNotification.t :=
  BehavioralNotification.mk HYDRATION_REMINDER "Remember to drink water." "low" ∅ None.

(** A runtime whose clock advances one second per reading from 09:00:00,
    whose n-th UUID is "uuid-n" and whose agent always answers
    [example_reply]. *)
Definition example_world : World :=
  mkWorld (λ n, datetime.mk 739000 (time.mk 9 0 (Z.of_nat n) 0)) 0
          (λ n, "uuid-" +:+ str_int (Z.of_nat n)) 0
          (λ _ _ _, Ok example_reply) [].

Definition example_member (uid : string) (rank : CircleRank) (streak points : Z)
  : CircleMember.t :=
  CircleMember.mk uid uid rank HEALTHY_LIVING streak points 0 0 example_day None None
    "Lagos, Nigeria" false.

Definition example_circle (members : list CircleMember.t) (max_members : Z)
  : FitnessCircle.t :=
  FitnessCircle.mk "circle-1" "Morning walkers" "Daily steps together" "Ada"
    members max_members true [] example_day example_day 0 HEALTHY_LIVING None.

(** [tunde] with another name and standing. *)
Definition example_profile (name : string) (rank : CircleRank) : FitnessProfile.t :=
  FitnessProfile.mk 30 (float_of_Z 80) (float_of_Z 170) name "Lagos, Nigeria" "male"
    (float_of_Z 75) MODERATE WEIGHT_LOSS ["none"] ["none"] BEGINNER false [] 12
    ["none"] ["Nigerian"] ["none"] "morning" [] 4 500 0 10000
    (binary_normalize 53 1024 5 (-1) false) rank [] [] [].

(** ** Vocabulary of the properties *)

(** The acting profile has a member record in the circle and that record's
    rank is privileged. *)
Definition actor_privileged (profile : FitnessProfile.t) (circle : FitnessCircle.t) : Prop :=
  exists i m,
    find_member (FitnessCircle.members circle) (FitnessProfile.name profile) = Some (i, m)
    /\ CircleMember.rank m ∈ privileged_ranks.

#[global] Instance actor_privileged_dec profile circle :
  Decision (actor_privileged profile circle).
Proof.
  unfold actor_privileged.
  destruct (find_member (FitnessCircle.members circle) (FitnessProfile.name profile))
    as [[i m]|] eqn:Hfind.
  - destruct (decide (CircleMember.rank m ∈ privileged_ranks)) as [Hin|Hout].
    + left. by exists i, m.
    + right. intros (i' & m' & Heq & Hin). congruence.
  - right. intros (i' & m' & Heq & _). discriminate.
Defined.

(** The end date of a challenge of [duration_days] days created in [w] is a
    date that [datetime] can hold: the day count is a valid [timedelta] and
    the second clock reading of the call, moved by it, stays within the
    years 1..9999. *)
Definition end_date_representable (w : World) (duration_days : Z) : Prop :=
  Z.abs duration_days <= timedelta.max_days
  /\ 1 <= datetime.ordinal (wall_clock w (S (clock_reads w))) + duration_days
       <= datetime.max_ordinal.

(** The Rank Policy as the specification words it: the transition rules in
    their fixed order, first match wins, no match leaves the rank. *)
Definition next_rank (current_rank : CircleRank) (current_streak total_points : Z)
  : CircleRank :=
  if bool_decide (current_rank = FOLLOWER /\ 7 <= current_streak) then MEMBER
  else if bool_decide (current_rank = MEMBER /\ 1000 <= total_points) then LEADER
  else current_rank.

(** The tiers in the order [CircleRank] declares them, Follower lowest. *)
Definition rank_level (r : CircleRank) : nat :=
  match r with
  | FOLLOWER => 0
  | MEMBER => 1
  | LEADER => 2
  | INFLUENCER => 3
  | COMMUNITY_INFLUENCER => 4
  | BIG_INFLUENCER => 5
  end.

(** [n] calls of [update_member_progress] in a row on the same circle. *)
Fixpoint repeat_update_progress (n : nat) (circle : FitnessCircle.t) (member_id : string)
    (steps_taken calories_consumed workouts_completed : Z) : Py FitnessCircle.t :=
  match n with
  | O => ret circle
  | S n' =>
      r <- update_member_progress circle member_id steps_taken calories_consumed
             workouts_completed ;;
      repeat_update_progress n' r.2 member_id steps_taken calories_consumed
        workouts_completed
  end.

(** The registry operations that mutate a circle, and a caller that
    performs a sequence of them on the same circle. *)
Inductive RegistryOp : Type :=
  | Join (profile : FitnessProfile.t)
  | Promote (member_id : string) (new_rank : CircleRank)
  | UpdateProgress (member_id : string)
      (steps_taken calories_consumed workouts_completed : Z).

Definition is_promote (op : RegistryOp) : bool :=
  match op with Promote _ _ => true | _ => false end.

Definition run_op (op : RegistryOp) (circle : FitnessCircle.t) : Py FitnessCircle.t :=
  match op with
  | Join profile => r <- join_circle profile circle ;; ret r.2
  | Promote member_id new_rank =>
      r <- promote_member_rank circle member_id new_rank ;; ret r.2
  | UpdateProgress member_id steps_taken calories_consumed workouts_completed =>
      r <- update_member_progress circle member_id steps_taken calories_consumed
             workouts_completed ;;
      ret r.2
  end.

Fixpoint run_ops (ops : list RegistryOp) (circle : FitnessCircle.t) : Py FitnessCircle.t :=
  match ops with
  | [] => ret circle
  | op :: ops' => c <- run_op op circle ;; run_ops ops' c
  end.

(** Every member of [before] is still at its place in [after], under the
    same user id, with a rank at least as high. *)
Definition ranks_never_decreased (before after : FitnessCircle.t) : Prop :=
  forall i m,
    FitnessCircle.members before !! i = Some m ->
    exists m',
      FitnessCircle.members after !! i = Some m'
      /\ CircleMember.user_id m' = CircleMember.user_id m
      /\ (rank_level (CircleMember.rank m) <= rank_level (CircleMember.rank m'))%nat.

(** Every member of [before] is still at its place in [after] and its rank
    is either untouched or the one the Rank Policy assigns. *)
Definition ranks_follow_policy (before after : FitnessCircle.t) : Prop :=
  forall i m,
    FitnessCircle.members before !! i = Some m ->
    exists m',
      FitnessCircle.members after !! i = Some m'
      /\ (CircleMember.rank m' = CircleMember.rank m
          \/ CircleMember.rank m' =
               next_rank (CircleMember.rank m) (CircleMember.current_streak m)
                 (CircleMember.total_points m)).

(** [needle in hay] for two strings. *)
Fixpoint contains (needle hay : string) : bool :=
  String.prefix needle hay
  || match hay with
     | EmptyString => false
     | String _ hay' => contains needle hay'
     end.

(** The time of day that a rule starting in [w] works with. *)
Definition seen_time (tracking : DailyTracking.t) (w : World) : time.t :=
  match DailyTracking.current_time tracking with
  | Some t => t
  | None => datetime.time (wall_clock w (clock_reads w))
  end.

(** The UTC offset of the snapshot's own [current_time]: [None] when the
    snapshot carries no time or a naive one. *)
Definition snapshot_offset (tracking : DailyTracking.t) : option Z :=
  match DailyTracking.current_time tracking with
  | Some t => time.utcoffset t
  | None => None
  end.

(** The runtime after [k] more readings of the clock. *)
Definition after_clock_reads (k : nat) (w : World) : World :=
  mkWorld (wall_clock w) (k + clock_reads w) (uuid_source w) (uuids_drawn w)
          (agent_reply w) (agent_calls w).

(** The member record that [update_member_progress] leaves behind when it
    ran at clock reading [active], in the specification's terms. *)
Definition progressed (active : datetime.t) (m : CircleMember.t) : CircleMember.t :=
  CircleMember.set_rank
    (next_rank (CircleMember.rank m) (CircleMember.current_streak m)
       (CircleMember.total_points m))
    (CircleMember.set_is_online true (CircleMember.set_last_active active m)).

(** [a] may stand before [b] on the leaderboard: more points, or as many
    points and a streak at least as long. *)
Definition ranks_before (a b : CircleMember.t) : Prop :=
  CircleMember.total_points b < CircleMember.total_points a
  \/ (CircleMember.total_points a = CircleMember.total_points b
      /\ CircleMember.current_streak b <= CircleMember.current_streak a).

(** Descending order of the sort keys: [a] before [b] when its key is not
    below that of [b]. *)
Definition desc_by {A : Type} (key : A -> Z * Z) (a b : A) : Prop :=
  key_ltb (key a) (key b) = false.

(** The runtime after a rule starting in [w] has fixed its time of day: the
    clock is read once when the snapshot carries no time. *)
Definition after_time_read (tracking : DailyTracking.t) (w : World) : World :=
  match DailyTracking.current_time tracking with
  | Some _ => w
  | None => after_clock_reads 1 w
  end.

(** The rounded product [g * 0.8] is finite and has the same integers above
    it as the exact 4g/5. *)
Definition threshold_exact (g : Z) : bool :=
  match pyfloat.int_mul g pyfloat.lit_0_8 with
  | Ok f => pyfloat.is_finite f && (pyfloat.floor f =? 4 * g / 5)
  | Raise _ => false
  end.

Fixpoint threshold_exact_from (n : nat) (g : Z) : bool :=
  match n with
  | O => true
  | S n' => threshold_exact g && threshold_exact_from n' (g + 1)
  end.

(** Ada holds an influencer profile and leads her circle, as a circle made
    by [create_fitness_circle] has it; Bola follows with a streak of 9 days
    and 1200 points; Zed is an influencer who is in no circle. *)
Definition ada : FitnessProfile.t := example_profile "Ada" INFLUENCER.

Definition zed : FitnessProfile.t := example_profile "Zed" INFLUENCER.

Definition ada_member : CircleMember.t := example_member "Ada" LEADER 12 1500.

Definition bola_member : CircleMember.t := example_member "Bola" FOLLOWER 9 1200.

Definition ada_circle : FitnessCircle.t := example_circle [ada_member; bola_member] 10.

(** Two members with the same points and streak. *)
Definition chi_member : CircleMember.t := example_member "Chi" FOLLOWER 3 100.

Definition dayo_member : CircleMember.t := example_member "Dayo" FOLLOWER 3 100.

(** ** models.py: the values of the enumerations

    Every enumeration is a [str] enumeration: a member carries a string,
    [member.value], and [Enum(value)] finds the member that carries a given
    string or fails. *)

Definition ActivityLevel_value (x : ActivityLevel) : string :=
  match x with
  | SEDENTARY => "sedentary"
  | LIGHT => "light"
  | MODERATE => "moderate"
  | VERY_ACTIVE => "very_active"
  | ATHLETE => "athlete"
  end.

Definition CookingSkillLevel_value (x : CookingSkillLevel) : string :=
  match x with
  | BEGINNER => "beginner"
  | INTERMEDIATE => "intermediate"
  | ADVANCED => "expert"
  end.

Definition FitnessGoal_value (x : FitnessGoal) : string :=
  match x with
  | HEALTHY_LIVING => "healthy_living"
  | WEIGHT_GAIN => "weight_gain"
  | WEIGHT_LOSS => "weight_loss"
  | MUSCLE_GAIN => "muscle_gain"
  | STRENGTH => "strength"
  end.

Definition CircleRank_value (x : CircleRank) : string :=
  match x with
  | FOLLOWER => "follower"
  | MEMBER => "member"
  | LEADER => "leader"
  | INFLUENCER => "influencer"
  | COMMUNITY_INFLUENCER => "community_influencer"
  | BIG_INFLUENCER => "big_influencer"
  end.

Definition NotificationType_value (x : NotificationType) : string :=
  match x with
  | STEP_REMINDER => "step_reminder"
  | MEAL_REMINDER => "meal_reminder"
  | WORKOUT_REMINDER => "workout_reminder"
  | PROGRESS_CELEBRATION => "progress_celebration"
  | CALORIE_WARNING => "calorie_warning"
  | HYDRATION_REMINDER => "hydration_reminder"
  | CIRCLE_CHALLENGE => "circle_challenge"
  | ACCOUNTABILITY_CHECK => "accountability_check"
  | INFLUENCER_MOTIVATION => "influencer_motivation"
  end.

Definition SkippedMeal_value (x : SkippedMeal) : string :=
  match x with
  | SKIP_BREAKFAST => "breakfast"
  | SKIP_LUNCH => "lunch"
  | SKIP_DINNER => "dinner"
  | SKIP_SNACK => "snack"
  | SKIP_BREAKFAST_LUNCH => "breakfast_lunch"
  | SKIP_LUNCH_DINNER => "lunch_dinner"
  | SKIP_DINNER_SNACK => "dinner_snack"
  | SKIP_BREAKFAST_DINNER => "breakfast_dinner"
  | SKIP_BREAKFAST_LUNCH_DINNER => "breakfast_lunch_dinner"
  | SKIP_BREAKFAST_LUNCH_DINNER_SNACK => "breakfast_lunch_dinner_snack"
  end.

(** The members of each enumeration, in the order of their declaration. *)
Definition ActivityLevel_members : list ActivityLevel :=
  [SEDENTARY; LIGHT; MODERATE; VERY_ACTIVE; ATHLETE].

Definition CookingSkillLevel_members : list CookingSkillLevel :=
  [BEGINNER; INTERMEDIATE; ADVANCED].

Definition FitnessGoal_members : list FitnessGoal :=
  [HEALTHY_LIVING; WEIGHT_GAIN; WEIGHT_LOSS; MUSCLE_GAIN; STRENGTH].

Definition CircleRank_members : list CircleRank :=
  [FOLLOWER; MEMBER; LEADER; INFLUENCER; COMMUNITY_INFLUENCER; BIG_INFLUENCER].

Definition NotificationType_members : list NotificationType :=
  [STEP_REMINDER; MEAL_REMINDER; WORKOUT_REMINDER; PROGRESS_CELEBRATION;
   CALORIE_WARNING; HYDRATION_REMINDER; CIRCLE_CHALLENGE; ACCOUNTABILITY_CHECK;
   INFLUENCER_MOTIVATION].

Definition SkippedMeal_members : list SkippedMeal :=
  [SKIP_BREAKFAST; SKIP_LUNCH; SKIP_DINNER; SKIP_SNACK; SKIP_BREAKFAST_LUNCH;
   SKIP_LUNCH_DINNER; SKIP_DINNER_SNACK; SKIP_BREAKFAST_DINNER;
   SKIP_BREAKFAST_LUNCH_DINNER; SKIP_BREAKFAST_LUNCH_DINNER_SNACK].

(** [E(s)]: the first member whose value is [s]; None stands for the
    ValueError of a string that no member carries. *)
Definition enum_of_value {E : Type} (members : list E) (value : E -> string) (s : string)
  : option E :=
  snd <$> list_find (λ m, value m = s) members.

(** ** service.py: the circle-aware notification *)

(** [n.message = s] *)
Definition set_notification_message (s : string) (n : BehavioralNotification.t)
  : BehavioralNotification.t :=
  BehavioralNotification.mk (BehavioralNotification.notification_type n) s
    (BehavioralNotification.urgency n) (BehavioralNotification.context n)
    (BehavioralNotification.suggested_action n).

(** The escape [\n]. *)
Definition newline : string := String "010"%char EmptyString.

Definition influencer_line (rank_value : string) (followers : nat) : string :=
  newline +:+ newline +:+ "💪 As a " +:+ rank_value +:+ ", your progress inspires "
  +:+ str_int (Z.of_nat followers) +:+ " followers!".

Definition streak_line (current_streak : Z) : string :=
  newline +:+ newline +:+ "🔥 You're on a " +:+ str_int current_streak +:+ "-day streak! Keep it up!".

Definition get_contextual_notification_with_circle
    (profile : FitnessProfile.t) (tracking : DailyTracking.t)
    (circle : option FitnessCircle.t)
  : Py (option BehavioralNotification.t) :=
  base_notification <- get_contextual_notification profile tracking ;;
  match circle, base_notification with
  | Some circle, Some base =>
      match find_member (FitnessCircle.members circle) (FitnessProfile.name profile) with
      | Some (_, member) =>
          if bool_decide (CircleMember.rank member ∈ influencer_ranks)
          then
            ret (Some (set_notification_message
                         (BehavioralNotification.message base
                          +:+ influencer_line (CircleRank_value (CircleMember.rank member))
                                (length (FitnessProfile.followers profile)))
                         base))
          else if bool_decide (0 < CircleMember.current_streak member)
          then
            ret (Some (set_notification_message
                         (BehavioralNotification.message base
                          +:+ streak_line (CircleMember.current_streak member))
                         base))
          else ret (Some base)
      | None => ret (Some base)
      end
  | _, _ => ret base_notification
  end.

(** ** test_utils.py *)

(** The snapshots of [example_usage], which differ in five fields; [date]
    is the clock reading taken when the snapshot is built. *)
Definition scenario_tracking (date : datetime.t)
    (steps_taken calories_consumed : Z) (meals_logged : list string) (now : time.t)
  : DailyTracking.t :=
  DailyTracking.mk date steps_taken 10000 calories_consumed 1500 meals_logged []
    (float_of_Z 0) (binary_normalize 53 1024 5 (-1) false) (Some now).

(** [example_usage()]; the result is the lines it prints. *)
Definition example_usage : Py (list string) :=
  let profile := tunde in
  date_1 <- datetime_now ;;
  let tracking_1 := scenario_tracking date_1 200 800 ["breakfast"] (time.mk 12 0 0 0) in
  notification_1 <- get_contextual_notification profile tracking_1 ;;
  let printed_1 :=
    match notification_1 with
    | Some n => ["Scenario 1 - Low steps by noon: " +:+ BehavioralNotification.message n]
    | None => []
    end in
  date_2 <- datetime_now ;;
  let tracking_2 := scenario_tracking date_2 5000 600 ["breakfast"] (time.mk 14 0 0 0) in
  notification_2 <- get_contextual_notification profile tracking_2 ;;
  let printed_2 :=
    match notification_2 with
    | Some n => ["Scenario 2 - No lunch logged: " +:+ BehavioralNotification.message n]
    | None => []
    end in
  date_3 <- datetime_now ;;
  let tracking_3 :=
    scenario_tracking date_3 8000 1300 ["breakfast"; "lunch"] (time.mk 16 0 0 0) in
  notification_3 <- get_contextual_notification profile tracking_3 ;;
  let printed_3 :=
    match notification_3 with
    | Some n => ["Scenario 3 - High calorie intake: " +:+ BehavioralNotification.message n]
    | None => []
    end in
  ret (printed_1 ++ printed_2 ++ printed_3).

(** ** Vocabulary of the further properties *)

(** The invariants of a circle: user ids pairwise distinct, and no more
    members than [max_members]. *)
Definition circle_wf (circle : FitnessCircle.t) : Prop :=
  NoDup (member_ids (FitnessCircle.members circle))
  /\ Z.of_nat (length (FitnessCircle.members circle)) <= FitnessCircle.max_members circle.

(** The record that [join_circle] appends for [profile] at clock reading
    [active]. *)
Definition joined_member (profile : FitnessProfile.t) (active : datetime.t)
  : CircleMember.t :=
  CircleMember.mk (FitnessProfile.name profile) (FitnessProfile.name profile)
    (if bool_decide (FitnessProfile.circle_rank profile ∈ influencer_ranks)
     then MEMBER else FOLLOWER)
    (FitnessProfile.fitness_goal profile) 0 0 0 0 active None None
    (FitnessProfile.location profile) true.

(** The snapshot with another count of calories consumed. *)
Definition with_calories_consumed (calories_consumed : Z) (t : DailyTracking.t)
  : DailyTracking.t :=
  DailyTracking.mk (DailyTracking.date t) (DailyTracking.steps_taken t)
    (DailyTracking.steps_goal t) calories_consumed (DailyTracking.calories_goal t)
    (DailyTracking.meals_logged t) (DailyTracking.workouts_completed t)
    (DailyTracking.water_intake t) (DailyTracking.water_goal t)
    (DailyTracking.current_time t).

(** The rank after [n] applications of the Rank Policy with the same streak
    and points. *)
Definition rank_after (n : nat) (r : CircleRank) (streak points : Z) : CircleRank :=
  Nat.iter n (λ r', next_rank r' streak points) r.

(** A time of day whose minute, second and microsecond are not negative,
    as every [time] object's are. *)
Definition time_fields_nonneg (t : time.t) : Prop :=
  0 <= time.minute t /\ 0 <= time.second t /\ 0 <= time.microsecond t.

(** Two member lists of the same length whose members agree, place by
    place, in user id, streak and points. *)
Definition same_counters (before after : list CircleMember.t) : Prop :=
  Forall2 (λ m m',
             CircleMember.user_id m' = CircleMember.user_id m
             /\ CircleMember.current_streak m' = CircleMember.current_streak m
             /\ CircleMember.total_points m' = CircleMember.total_points m)
          before after.

Definition is_join (op : RegistryOp) : bool :=
  match op with Join _ => true | _ => false end.

(** A member whose counters do not meet either promotion rule. *)
Definition idle (m : CircleMember.t) : Prop :=
  CircleMember.current_streak m < 7 /\ CircleMember.total_points m < 1000.

(** What a sequence of joins and progress updates does to a circle of idle
    members: members stay idle; the members there were keep place, rank,
    user id and counters; the members that came are Followers or Members
    with no streak and no points. *)
Definition idle_step (circle circle' : FitnessCircle.t) : Prop :=
  Forall idle (FitnessCircle.members circle')
  /\ (forall i m, FitnessCircle.members circle !! i = Some m ->
        exists m', FitnessCircle.members circle' !! i = Some m'
                   /\ CircleMember.rank m' = CircleMember.rank m
                   /\ CircleMember.user_id m' = CircleMember.user_id m
                   /\ CircleMember.current_streak m' = CircleMember.current_streak m
                   /\ CircleMember.total_points m' = CircleMember.total_points m)
  /\ (forall i m', FitnessCircle.members circle' !! i = Some m' ->
        (length (FitnessCircle.members circle) <= i)%nat ->
        (CircleMember.rank m' = FOLLOWER \/ CircleMember.rank m' = MEMBER)
        /\ CircleMember.current_streak m' = 0 /\ CircleMember.total_points m' = 0).

(** * Properties *)

(** ** Running computations *)

Ltac py_unfold :=
  unfold bind, ret, lift, datetime_now, uuid4_str, behavioral_agent_run,
    generate_behavioral_notification, effective_time.

Ltac py_simpl := py_unfold; simpl.

(** ** Times of day *)

Lemma time_geb_two_ten (t : time.t) :
  time.geb t (time.mk 14 0 0 0) = true -> time.geb t (time.mk 10 0 0 0) = true.
Proof.
  unfold time.geb, time.ltb; destruct t as [h m s u]; simpl.
  rewrite !negb_true_iff, !orb_false_iff, !andb_false_iff, !orb_false_iff,
    !andb_false_iff, !orb_false_iff, !andb_false_iff.
  rewrite !Z.ltb_ge, !Z.eqb_neq. lia.
Qed.

(** ** Member lookup *)

Lemma find_member_Some members uid i m :
  find_member members uid = Some (i, m) ->
  members !! i = Some m /\ CircleMember.user_id m = uid.
Proof.
  unfold find_member; intros H.
  apply list_find_Some in H. tauto.
Qed.

Lemma find_member_None members uid :
  find_member members uid = None <-> uid ∉ member_ids members.
Proof.
  unfold find_member, member_ids. rewrite list_find_None, Forall_forall.
  rewrite list_elem_of_fmap. split.
  - intros H [m [-> Hm]]. by apply (H m).
  - intros H m Hm Heq. apply H. by exists m.
Qed.

Lemma find_member_is_Some members uid :
  is_Some (find_member members uid) <-> uid ∈ member_ids members.
Proof.
  rewrite <- not_eq_None_Some, find_member_None.
  split; [apply dec_stable | by intros ? ?].
Qed.

(** In a circle whose user ids are pairwise distinct, every member present
    is the one its id finds. *)
Lemma find_member_present members j m :
  NoDup (member_ids members) ->
  members !! j = Some m ->
  find_member members (CircleMember.user_id m) = Some (j, m).
Proof.
  intros Hdistinct Hj. unfold find_member. apply list_find_Some.
  split; [exact Hj|]. split; [reflexivity|].
  intros i y Hi Hlt Hid.
  assert (i = j); [|lia].
  eapply NoDup_lookup; [exact Hdistinct| |]; unfold member_ids;
    rewrite list_lookup_fmap; [by rewrite Hi|rewrite Hj; simpl; by rewrite Hid].
Qed.

(** Replacing the member found by one of the same id leaves it found. *)
Lemma find_member_insert_same_id members uid i m m' :
  find_member members uid = Some (i, m) ->
  CircleMember.user_id m' = CircleMember.user_id m ->
  find_member (<[i := m']> members) uid = Some (i, m').
Proof.
  unfold find_member; intros H Hid.
  apply list_find_Some in H as (Hi & Hm & Hbefore).
  apply list_find_Some. split; [|split].
  - apply list_lookup_insert_eq. by eapply lookup_lt_Some.
  - congruence.
  - intros j y Hj Hlt. rewrite list_lookup_insert_ne in Hj by lia.
    by eapply Hbefore.
Qed.

(** ** Authorization gates *)

(** C1, as amended. Influencer post creation consults the acting profile's
    own [circle_rank] and nothing of the circle's member list: it returns
    None, with nothing drawn from the runtime, exactly when that rank is not
    in {Influencer, CommunityInfluencer, BigInfluencer}, and otherwise
    returns a post for the circle; a profile whose rank is Leader never
    obtains a post; two circles with the same id give the same outcome
    whatever their members. *)
Theorem create_influencer_post_gate
    (profile : FitnessProfile.t) (circle : FitnessCircle.t)
    (content post_type : string) (media_urls : list string) (w : World) :
  (FitnessProfile.circle_rank profile ∉ influencer_ranks ->
     create_influencer_post profile circle content post_type media_urls w = (Ok None, w))
  /\ (FitnessProfile.circle_rank profile ∈ influencer_ranks ->
        exists post w',
          create_influencer_post profile circle content post_type media_urls w
            = (Ok (Some post), w')
          /\ InfluencerPost.influencer_id post = FitnessProfile.name profile
          /\ InfluencerPost.circle_id post = FitnessCircle.circle_id circle
          /\ InfluencerPost.content post = content
          /\ InfluencerPost.post_type post = post_type
          /\ InfluencerPost.media_urls post = media_urls)
  /\ (FitnessProfile.circle_rank profile = LEADER ->
        create_influencer_post profile circle content post_type media_urls w = (Ok None, w))
  /\ (forall circle' : FitnessCircle.t,
        FitnessCircle.circle_id circle' = FitnessCircle.circle_id circle ->
        create_influencer_post profile circle' content post_type media_urls w
          = create_influencer_post profile circle content post_type media_urls w).
Proof.
  unfold create_influencer_post. repeat split.
  - intros Hout. rewrite bool_decide_eq_true_2 by done. reflexivity.
  - intros Hin. rewrite bool_decide_eq_false_2 by (intros Hout; by apply Hout).
    py_simpl. eexists _, _. repeat split; reflexivity.
  - intros Hrank. rewrite Hrank. reflexivity.
  - intros circle' Hid. rewrite Hid. reflexivity.
Qed.

(** C6. Join fails, leaving the circle (its member list and last_activity
    included), the profile and the runtime as they were, when the member
    list has reached [max_members] or the profile's name is already among
    the member ids. Otherwise it succeeds and appends exactly one member:
    user id and name the profile's name, rank Member for a profile of an
    influencer tier and Follower otherwise, last_active the clock reading
    of the call, online; the circle's last_activity becomes the next clock
    reading. *)
Theorem join_circle_spec (profile : FitnessProfile.t) (circle : FitnessCircle.t) (w : World) :
  let at_capacity :=
    FitnessCircle.max_members circle <= Z.of_nat (length (FitnessCircle.members circle)) in
  let already_member :=
    FitnessProfile.name profile ∈ member_ids (FitnessCircle.members circle) in
  (at_capacity \/ already_member ->
     join_circle profile circle w = (Ok (false, profile, circle), w))
  /\ (~ (at_capacity \/ already_member) ->
        exists profile' circle' w' new_member,
          join_circle profile circle w = (Ok (true, profile', circle'), w')
          /\ FitnessCircle.members circle' = FitnessCircle.members circle ++ [new_member]
          /\ CircleMember.user_id new_member = FitnessProfile.name profile
          /\ CircleMember.name new_member = FitnessProfile.name profile
          /\ CircleMember.rank new_member =
               (if bool_decide (FitnessProfile.circle_rank profile ∈ influencer_ranks)
                then MEMBER else FOLLOWER)
          /\ CircleMember.last_active new_member = wall_clock w (clock_reads w)
          /\ CircleMember.is_online new_member = true
          /\ FitnessCircle.last_activity circle' = wall_clock w (S (clock_reads w))
          /\ FitnessCircle.max_members circle' = FitnessCircle.max_members circle
          /\ FitnessCircle.circle_id circle' = FitnessCircle.circle_id circle).
Proof.
  intros at_capacity already_member. unfold join_circle. split.
  - intros [Hcap|Hmem].
    + rewrite bool_decide_eq_true_2 by exact Hcap. reflexivity.
    + case_bool_decide; [reflexivity|].
      rewrite bool_decide_eq_true_2 by exact Hmem. reflexivity.
  - intros Hnot.
    rewrite bool_decide_eq_false_2 by (intros H; apply Hnot; by left).
    rewrite bool_decide_eq_false_2 by (intros H; apply Hnot; by right).
    py_simpl. eexists _, _, _, _. repeat split; reflexivity.
Qed.

(** Within its capacity, a circle has reached [max_members] exactly when
    it holds [max_members] members. *)
Lemma at_capacity_within_invariant (circle : FitnessCircle.t) :
  Z.of_nat (length (FitnessCircle.members circle)) <= FitnessCircle.max_members circle ->
  (FitnessCircle.max_members circle <= Z.of_nat (length (FitnessCircle.members circle))
   <-> Z.of_nat (length (FitnessCircle.members circle)) = FitnessCircle.max_members circle).
Proof. lia. Qed.

Lemma not_privileged_cases profile circle :
  ~ actor_privileged profile circle <->
  find_member (FitnessCircle.members circle) (FitnessProfile.name profile) = None
  \/ exists i m,
       find_member (FitnessCircle.members circle) (FitnessProfile.name profile) = Some (i, m)
       /\ CircleMember.rank m ∉ privileged_ranks.
Proof.
  unfold actor_privileged.
  destruct (find_member _ _) as [[i m]|] eqn:Hfind; split.
  - intros Hnot. right. exists i, m. split; [done|].
    intros Hin. apply Hnot. by exists i, m.
  - intros [?|(i' & m' & Heq & Hout)] (i'' & m'' & Heq' & Hin); [done|].
    congruence.
  - by left.
  - intros _ (i & m & Heq & _). discriminate.
Qed.

Lemma create_circle_challenge_unauthorized
    profile circle title description challenge_type target_value duration_days points_reward w :
  ~ actor_privileged profile circle ->
  create_circle_challenge profile circle title description challenge_type
    target_value duration_days points_reward w = (Ok None, w).
Proof.
  intros Hnot. apply not_privileged_cases in Hnot. unfold create_circle_challenge.
  destruct Hnot as [->|(i & m & -> & Hout)]; [reflexivity|].
  by rewrite bool_decide_eq_true_2.
Qed.

Lemma initiate_accountability_check_unauthorized
    profile circle target_members message check_type w :
  ~ actor_privileged profile circle ->
  initiate_accountability_check profile circle target_members message check_type w
    = (Ok None, w).
Proof.
  intros Hnot. apply not_privileged_cases in Hnot. unfold initiate_accountability_check.
  destruct Hnot as [->|(i & m & -> & Hout)]; [reflexivity|].
  by rewrite bool_decide_eq_true_2.
Qed.

Lemma create_circle_challenge_authorized
    profile circle title description challenge_type target_value duration_days points_reward w :
  actor_privileged profile circle ->
  create_circle_challenge profile circle title description challenge_type
    target_value duration_days points_reward w
  = bind uuid4_str (fun cid =>
    bind datetime_now (fun start =>
    bind datetime_now (fun base =>
    bind (lift (timedelta.of_days duration_days)) (fun delta =>
    bind (lift (datetime.add base delta)) (fun finish =>
    ret (Some (CircleChallenge.mk cid (FitnessCircle.circle_id circle) title description
                 challenge_type target_value duration_days points_reward
                 (FitnessProfile.name profile)
                 (member_ids (FitnessCircle.members circle)) [] start finish true))))))) w.
Proof.
  intros (i & m & Hfind & Hin). unfold create_circle_challenge. rewrite Hfind.
  rewrite bool_decide_eq_false_2 by (intros Hout; by apply Hout). reflexivity.
Qed.

Lemma valid_targets_spec (members : list CircleMember.t) (target_members : list string) (x : string) :
  x ∈ CircleMember.user_id
        <$> filter (λ member, CircleMember.user_id member ∈ target_members) members
  <-> x ∈ target_members /\ x ∈ member_ids members.
Proof.
  unfold member_ids. rewrite !list_elem_of_fmap. split.
  - intros (m & -> & Hm). apply list_elem_of_filter in Hm as [Hin Hm].
    split; [done|]. by exists m.
  - intros (Hin & m & -> & Hm). exists m. split; [done|].
    by apply list_elem_of_filter.
Qed.

(** C7, as amended. Challenge creation and accountability-check initiation
    return None exactly when the acting profile has no member record in the
    circle or that record's rank is not in {Leader, Influencer,
    CommunityInfluencer, BigInfluencer}; a Follower or Member actor always
    gets None. A privileged member always gets an accountability check,
    whose target_members are exactly the requested targets that are member
    ids of the circle; a privileged member gets a challenge, with every
    member id as participant, whenever the end date (the creation time
    plus duration_days days) is a representable date. *)
Theorem privileged_gates
    (profile : FitnessProfile.t) (circle : FitnessCircle.t)
    (title description challenge_type : string)
    (target_value duration_days points_reward : Z)
    (target_members : list string) (message check_type : string) (w : World) :
  let challenge :=
    create_circle_challenge profile circle title description challenge_type
      target_value duration_days points_reward w in
  let check :=
    initiate_accountability_check profile circle target_members message check_type w in
  (challenge.1 = Ok None <-> ~ actor_privileged profile circle)
  /\ (check.1 = Ok None <-> ~ actor_privileged profile circle)
  /\ (~ actor_privileged profile circle ->
        challenge = (Ok None, w) /\ check = (Ok None, w))
  /\ (forall i m,
        find_member (FitnessCircle.members circle) (FitnessProfile.name profile) = Some (i, m) ->
        CircleMember.rank m = FOLLOWER \/ CircleMember.rank m = MEMBER ->
        challenge = (Ok None, w) /\ check = (Ok None, w))
  /\ (actor_privileged profile circle ->
        exists chk w',
          check = (Ok (Some chk), w')
          /\ AccountabilityCheck.initiated_by chk = FitnessProfile.name profile
          /\ AccountabilityCheck.circle_id chk = FitnessCircle.circle_id circle
          /\ forall x, x ∈ AccountabilityCheck.target_members chk
                       <-> x ∈ target_members /\ x ∈ member_ids (FitnessCircle.members circle))
  /\ (actor_privileged profile circle ->
      end_date_representable w duration_days ->
        exists ch w',
          challenge = (Ok (Some ch), w')
          /\ CircleChallenge.created_by ch = FitnessProfile.name profile
          /\ CircleChallenge.circle_id ch = FitnessCircle.circle_id circle
          /\ CircleChallenge.participants ch = member_ids (FitnessCircle.members circle)).
Proof.
  intros challenge check.
  assert (Hchk : actor_privileged profile circle ->
            exists chk w',
              check = (Ok (Some chk), w')
              /\ AccountabilityCheck.initiated_by chk = FitnessProfile.name profile
              /\ AccountabilityCheck.circle_id chk = FitnessCircle.circle_id circle
              /\ forall x, x ∈ AccountabilityCheck.target_members chk
                   <-> x ∈ target_members /\ x ∈ member_ids (FitnessCircle.members circle)).
  { intros (i & m & Hfind & Hin). subst check. unfold initiate_accountability_check.
    rewrite Hfind. rewrite bool_decide_eq_false_2 by (intros Hout; by apply Hout).
    py_simpl. eexists _, _. split; [reflexivity|]. simpl.
    split; [reflexivity|]. split; [reflexivity|].
    intros x. apply valid_targets_spec. }
  assert (Hch : actor_privileged profile circle -> challenge.1 <> Ok None).
  { intros Hpriv. subst challenge.
    rewrite create_circle_challenge_authorized by done. py_simpl.
    destruct (timedelta.of_days duration_days) as [delta|e]; simpl; [|done].
    destruct (datetime.add _ delta) as [finish|e]; simpl; done. }
  assert (Hno : ~ actor_privileged profile circle ->
            challenge = (Ok None, w) /\ check = (Ok None, w)).
  { intros Hnot. split.
    - by apply create_circle_challenge_unauthorized.
    - by apply initiate_accountability_check_unauthorized. }
  split; [|split; [|split; [|split; [|split]]]].
  - split.
    + intros Hnone Hpriv. by apply Hch.
    + intros Hnot. by rewrite (proj1 (Hno Hnot)).
  - split.
    + intros Hnone Hpriv. destruct (Hchk Hpriv) as (chk & w' & Heq & _).
      rewrite Heq in Hnone. discriminate.
    + intros Hnot. by rewrite (proj2 (Hno Hnot)).
  - exact Hno.
  - intros i m Hfind Hrank. apply Hno. intros (i' & m' & Hfind' & Hin).
    rewrite Hfind in Hfind'. injection Hfind' as <- <-.
    revert Hin. destruct Hrank as [-> | ->]; compute_done.
  - exact Hchk.
  - intros Hpriv [Hdays Hdate]. subst challenge.
    rewrite create_circle_challenge_authorized by done. py_simpl.
    unfold timedelta.of_days. rewrite bool_decide_eq_true_2 by exact Hdays. simpl.
    unfold datetime.add. simpl. rewrite bool_decide_eq_true_2 by exact Hdate.
    eexists _, _. repeat split; reflexivity.
Qed.

(** ** Rank policy and progress updates *)

Lemma next_rank_level (r : CircleRank) (streak points : Z) :
  (rank_level r <= rank_level (next_rank r streak points))%nat.
Proof.
  unfold next_rank. repeat case_bool_decide; destruct r; simpl; try lia;
    match goal with H : _ = _ /\ _ |- _ => destruct H; discriminate end.
Qed.

Lemma next_rank_leader (streak points : Z) : next_rank LEADER streak points = LEADER.
Proof.
  unfold next_rank. rewrite !bool_decide_eq_false_2; [done| |]; by intros [? _].
Qed.

Lemma update_member_progress_found circle member_id steps cal workouts w i m :
  find_member (FitnessCircle.members circle) member_id = Some (i, m) ->
  update_member_progress circle member_id steps cal workouts w
  = (Ok (true,
         FitnessCircle.set_last_activity (wall_clock w (S (clock_reads w)))
           (FitnessCircle.set_members
              (<[i := progressed (wall_clock w (clock_reads w)) m]>
                 (FitnessCircle.members circle))
              circle)),
     after_clock_reads 2 w).
Proof.
  intros Hfind. unfold update_member_progress. rewrite Hfind. py_simpl.
  unfold after_clock_reads. simpl. do 4 f_equal.
  unfold progressed, next_rank. destruct m as [uid nm rk goal streak points f1 f2 la pp bio loc on].
  simpl. repeat case_bool_decide; simpl; try reflexivity; try tauto; destruct rk; tauto.
Qed.

Lemma update_member_progress_missing circle member_id steps cal workouts w :
  find_member (FitnessCircle.members circle) member_id = None ->
  update_member_progress circle member_id steps cal workouts w = (Ok (false, circle), w).
Proof. intros Hfind. unfold update_member_progress. by rewrite Hfind. Qed.

Lemma repeat_update_progress_leader n :
  forall circle member_id steps cal workouts w i m,
    find_member (FitnessCircle.members circle) member_id = Some (i, m) ->
    CircleMember.rank m = LEADER ->
    exists circle' w' m',
      repeat_update_progress n circle member_id steps cal workouts w = (Ok circle', w')
      /\ find_member (FitnessCircle.members circle') member_id = Some (i, m')
      /\ CircleMember.rank m' = LEADER.
Proof.
  induction n as [|n IH]; intros circle member_id steps cal workouts w i m Hfind Hrank.
  - exists circle, w, m. by repeat split.
  - simpl. unfold bind at 1.
    rewrite (update_member_progress_found _ _ _ _ _ _ _ _ Hfind). simpl.
    eapply IH.
    + simpl. eapply find_member_insert_same_id; [exact Hfind|]. reflexivity.
    + simpl. rewrite Hrank. apply next_rank_leader.
Qed.

(** C5. For a member found in the circle, [update_member_progress] succeeds
    and leaves in its place a record whose rank is what the Rank Policy
    assigns: Member for a Follower with a streak of at least 7 (also when
    its points are 1000 or more), else Leader for a Member with at least
    1000 points, else the rank it had; streak, points and user id are not
    touched. Any number of calls on a Leader leaves it a Leader. *)
Theorem update_member_progress_rank_policy
    (circle : FitnessCircle.t) (member_id : string) (steps cal workouts : Z)
    (w : World) (i : nat) (m : CircleMember.t)
    (Hfind : find_member (FitnessCircle.members circle) member_id = Some (i, m)) :
  exists circle' w' m',
    update_member_progress circle member_id steps cal workouts w = (Ok (true, circle'), w')
    /\ FitnessCircle.members circle' = <[i := m']> (FitnessCircle.members circle)
    /\ find_member (FitnessCircle.members circle') member_id = Some (i, m')
    /\ CircleMember.rank m' =
         next_rank (CircleMember.rank m) (CircleMember.current_streak m)
           (CircleMember.total_points m)
    /\ (CircleMember.rank m = FOLLOWER -> 7 <= CircleMember.current_streak m ->
          CircleMember.rank m' = MEMBER)
    /\ (CircleMember.rank m = MEMBER -> 1000 <= CircleMember.total_points m ->
          CircleMember.rank m' = LEADER)
    /\ (~ (CircleMember.rank m = FOLLOWER /\ 7 <= CircleMember.current_streak m) ->
        ~ (CircleMember.rank m = MEMBER /\ 1000 <= CircleMember.total_points m) ->
          CircleMember.rank m' = CircleMember.rank m)
    /\ CircleMember.current_streak m' = CircleMember.current_streak m
    /\ CircleMember.total_points m' = CircleMember.total_points m
    /\ CircleMember.user_id m' = CircleMember.user_id m
    /\ (CircleMember.rank m = LEADER ->
          forall n, exists circle_n w_n m_n,
            repeat_update_progress n circle member_id steps cal workouts w
              = (Ok circle_n, w_n)
            /\ find_member (FitnessCircle.members circle_n) member_id = Some (i, m_n)
            /\ CircleMember.rank m_n = LEADER).
Proof.
  eexists _, _, (progressed (wall_clock w (clock_reads w)) m).
  split; [by apply update_member_progress_found|]. simpl.
  split; [reflexivity|].
  split; [by eapply find_member_insert_same_id|].
  split; [reflexivity|].
  unfold next_rank.
  split; [intros Hr Hs; by rewrite bool_decide_eq_true_2|].
  split.
  { intros Hr Hp. rewrite bool_decide_eq_false_2 by (intros [? _]; congruence).
    by rewrite bool_decide_eq_true_2. }
  split; [intros H1 H2; by rewrite !bool_decide_eq_false_2|].
  do 3 (split; [reflexivity|]).
  intros Hrank n. by eapply repeat_update_progress_leader.
Qed.

(** ** Sequences of registry operations *)

Lemma ranks_never_decreased_refl circle : ranks_never_decreased circle circle.
Proof. intros i m Hm. exists m. by repeat split. Qed.

Lemma ranks_never_decreased_trans c1 c2 c3 :
  ranks_never_decreased c1 c2 -> ranks_never_decreased c2 c3 ->
  ranks_never_decreased c1 c3.
Proof.
  intros H12 H23 i m Hm.
  destruct (H12 i m Hm) as (m2 & Hm2 & Hid2 & Hle2).
  destruct (H23 i m2 Hm2) as (m3 & Hm3 & Hid3 & Hle3).
  exists m3. split; [done|]. split; [congruence|lia].
Qed.

Lemma ranks_follow_policy_refl circle : ranks_follow_policy circle circle.
Proof. intros i m Hm. exists m. split; [done|by left]. Qed.

Lemma join_circle_outcome profile circle w :
  join_circle profile circle w = (Ok (false, profile, circle), w)
  \/ exists new_member w',
       join_circle profile circle w
       = (Ok (true,
              FitnessProfile.set_circles_joined
                (FitnessProfile.circles_joined profile ++ [FitnessCircle.circle_id circle])
                profile,
              FitnessCircle.set_last_activity (wall_clock w (S (clock_reads w)))
                (FitnessCircle.set_members
                   (FitnessCircle.members circle ++ [new_member]) circle)),
          w')
       /\ w' = after_clock_reads 2 w.
Proof.
  unfold join_circle. case_bool_decide; [by left|].
  case_bool_decide; [by left|]. right. py_simpl. by eexists _, _.
Qed.

Lemma promote_member_rank_found circle member_id new_rank w i m :
  find_member (FitnessCircle.members circle) member_id = Some (i, m) ->
  promote_member_rank circle member_id new_rank w
  = (Ok (true,
         FitnessCircle.set_last_activity (wall_clock w (clock_reads w))
           (FitnessCircle.set_members
              (<[i := CircleMember.set_rank new_rank m]> (FitnessCircle.members circle))
              circle)),
     after_clock_reads 1 w).
Proof. intros Hfind. unfold promote_member_rank. by rewrite Hfind. Qed.

Lemma promote_member_rank_missing circle member_id new_rank w :
  find_member (FitnessCircle.members circle) member_id = None ->
  promote_member_rank circle member_id new_rank w = (Ok (false, circle), w).
Proof. intros Hfind. unfold promote_member_rank. by rewrite Hfind. Qed.

Lemma run_op_without_promote op circle w :
  is_promote op = false ->
  exists circle' w',
    run_op op circle w = (Ok circle', w')
    /\ ranks_never_decreased circle circle'
    /\ ranks_follow_policy circle circle'.
Proof.
  destruct op as [profile|member_id new_rank|member_id steps cal workouts];
    intros Hop; [|discriminate|]; simpl; unfold bind.
  - destruct (join_circle_outcome profile circle w) as [->|(new & w' & -> & _)]; simpl.
    + eexists _, _. split; [reflexivity|].
      split; [apply ranks_never_decreased_refl|apply ranks_follow_policy_refl].
    + eexists _, _. split; [reflexivity|]. split.
      * intros i m Hm. exists m. simpl. split; [by apply lookup_app_l_Some|]. by split.
      * intros i m Hm. exists m. simpl. split; [by apply lookup_app_l_Some|]. by left.
  - destruct (find_member (FitnessCircle.members circle) member_id) as [[i m]|] eqn:Hfind.
    + rewrite (update_member_progress_found _ _ _ _ _ _ _ _ Hfind). simpl.
      apply find_member_Some in Hfind as [Hi _].
      eexists _, _. split; [reflexivity|]. split.
      * intros j mj Hj. simpl. destruct (decide (j = i)) as [->|Hne].
        -- rewrite Hi in Hj. injection Hj as <-. eexists. split.
           { apply list_lookup_insert_eq. by eapply lookup_lt_Some. }
           split; [reflexivity|]. simpl. apply next_rank_level.
        -- exists mj. rewrite list_lookup_insert_ne by done. by repeat split.
      * intros j mj Hj. simpl. destruct (decide (j = i)) as [->|Hne].
        -- rewrite Hi in Hj. injection Hj as <-. eexists. split.
           { apply list_lookup_insert_eq. by eapply lookup_lt_Some. }
           by right.
        -- exists mj. rewrite list_lookup_insert_ne by done. split; [done|by left].
    + rewrite (update_member_progress_missing _ _ _ _ _ _ Hfind). simpl.
      eexists _, _. split; [reflexivity|].
      split; [apply ranks_never_decreased_refl|apply ranks_follow_policy_refl].
Qed.

(** C9, as amended. Across every sequence of join and update_progress
    operations on a circle no member's rank ever decreases, and each such
    operation leaves every rank untouched or moves it as the Rank Policy
    says. Promote is not bound by this: it overwrites the rank of the member
    it finds with whatever rank it is given. *)
Theorem ranks_monotone_without_promote
    (ops : list RegistryOp) (circle : FitnessCircle.t) (w : World)
    (Hops : Forall (λ op, is_promote op = false) ops) :
  (exists circle' w',
     run_ops ops circle w = (Ok circle', w') /\ ranks_never_decreased circle circle')
  /\ (forall op, op ∈ ops ->
      forall c v, exists c' v',
        run_op op c v = (Ok c', v')
        /\ ranks_never_decreased c c' /\ ranks_follow_policy c c')
  /\ (forall member_id new_rank i m,
        find_member (FitnessCircle.members circle) member_id = Some (i, m) ->
        exists circle' w',
          promote_member_rank circle member_id new_rank w = (Ok (true, circle'), w')
          /\ find_member (FitnessCircle.members circle') member_id
             = Some (i, CircleMember.set_rank new_rank m)).
Proof.
  split; [|split].
  - revert circle w. induction Hops as [|op ops Hop Hops IH]; intros circle w.
    + exists circle, w. split; [reflexivity|apply ranks_never_decreased_refl].
    + destruct (run_op_without_promote op circle w Hop) as (c1 & w1 & Hrun & Hmono & _).
      destruct (IH c1 w1) as (c2 & w2 & Hrest & Hmono').
      exists c2, w2. split.
      * simpl. unfold bind. by rewrite Hrun.
      * by eapply ranks_never_decreased_trans.
  - intros op Hin c v. rewrite Forall_forall in Hops.
    by apply run_op_without_promote, Hops.
  - intros member_id new_rank i m Hfind. eexists _, _.
    split; [by apply promote_member_rank_found|]. simpl.
    by eapply find_member_insert_same_id.
Qed.

(** ** What the operations write *)

Lemma create_fitness_circle_outcome
    profile name description circle_goal max_members is_public tags w :
  exists circle,
    create_fitness_circle profile name description circle_goal max_members is_public tags w
    = (Ok (circle,
           FitnessProfile.set_circles_joined
             (FitnessProfile.circles_joined profile ++ [FitnessCircle.circle_id circle])
             profile),
       mkWorld (wall_clock w) (3 + clock_reads w) (uuid_source w) (S (uuids_drawn w))
               (agent_reply w) (agent_calls w))
    /\ FitnessCircle.circle_id circle = uuid_source w (uuids_drawn w)
    /\ FitnessCircle.max_members circle = max_members
    /\ exists creator,
         FitnessCircle.members circle = [creator]
         /\ CircleMember.user_id creator = FitnessProfile.name profile
         /\ CircleMember.rank creator =
              (if bool_decide (FitnessProfile.circle_rank profile ∈ influencer_ranks)
               then LEADER else MEMBER).
Proof.
  unfold create_fitness_circle. py_simpl.
  match goal with |- exists c, (Ok (?x, _), _) = _ /\ _ => exists x end.
  split; [reflexivity|]. simpl.
  split; [reflexivity|]. split; [reflexivity|]. eexists. by repeat split.
Qed.

(** C10, as amended. Join and circle creation do write to the profile they
    are given, in one place: a successful join, and every circle creation,
    appends the circle's id to [circles_joined] and leaves every other
    field of the profile alone; a failed join leaves profile, circle and
    runtime unchanged. In the circle, a successful join changes the member
    list (one append) and last_activity; promote and update_progress change
    the record of the member they find (its rank; for update_progress also
    last_active and is_online) and last_activity, and nothing at all when
    the member is missing. *)
Theorem mutation_frame (profile : FitnessProfile.t) (circle : FitnessCircle.t) (w : World) :
  (exists ok profile' circle' w',
     join_circle profile circle w = (Ok (ok, profile', circle'), w')
     /\ (ok = false -> profile' = profile /\ circle' = circle /\ w' = w)
     /\ (ok = true ->
           profile' =
             FitnessProfile.set_circles_joined
               (FitnessProfile.circles_joined profile ++ [FitnessCircle.circle_id circle])
               profile
           /\ exists new_member,
                circle' =
                  FitnessCircle.set_last_activity (wall_clock w (S (clock_reads w)))
                    (FitnessCircle.set_members
                       (FitnessCircle.members circle ++ [new_member]) circle)))
  /\ (forall name description circle_goal max_members is_public tags,
      exists created profile' w',
        create_fitness_circle profile name description circle_goal max_members
          is_public tags w = (Ok (created, profile'), w')
        /\ profile' =
             FitnessProfile.set_circles_joined
               (FitnessProfile.circles_joined profile ++ [FitnessCircle.circle_id created])
               profile)
  /\ (forall ids,
        let profile' := FitnessProfile.set_circles_joined ids profile in
        FitnessProfile.circles_joined profile' = ids
        /\ FitnessProfile.name profile' = FitnessProfile.name profile
        /\ FitnessProfile.location profile' = FitnessProfile.location profile
        /\ FitnessProfile.fitness_goal profile' = FitnessProfile.fitness_goal profile
        /\ FitnessProfile.circle_rank profile' = FitnessProfile.circle_rank profile
        /\ FitnessProfile.followers profile' = FitnessProfile.followers profile
        /\ FitnessProfile.following profile' = FitnessProfile.following profile
        /\ FitnessProfile.set_circles_joined (FitnessProfile.circles_joined profile) profile'
           = profile)
  /\ (forall member_id new_rank,
      exists ok circle' w',
        promote_member_rank circle member_id new_rank w = (Ok (ok, circle'), w')
        /\ (ok = false -> circle' = circle /\ w' = w)
        /\ (ok = true ->
              exists i m,
                find_member (FitnessCircle.members circle) member_id = Some (i, m)
                /\ circle' =
                     FitnessCircle.set_last_activity (wall_clock w (clock_reads w))
                       (FitnessCircle.set_members
                          (<[i := CircleMember.set_rank new_rank m]>
                             (FitnessCircle.members circle))
                          circle)))
  /\ (forall member_id steps cal workouts,
      exists ok circle' w',
        update_member_progress circle member_id steps cal workouts w
          = (Ok (ok, circle'), w')
        /\ (ok = false -> circle' = circle /\ w' = w)
        /\ (ok = true ->
              exists i m,
                find_member (FitnessCircle.members circle) member_id = Some (i, m)
                /\ circle' =
                     FitnessCircle.set_last_activity (wall_clock w (S (clock_reads w)))
                       (FitnessCircle.set_members
                          (<[i := progressed (wall_clock w (clock_reads w)) m]>
                             (FitnessCircle.members circle))
                          circle))).
Proof.
  split; [|split; [|split; [|split]]].
  - destruct (join_circle_outcome profile circle w) as [Heq|(new & w' & Heq & _)];
      rewrite Heq; eexists _, _, _, _; (split; [reflexivity|]); split; try discriminate.
    + by intros _.
    + intros _. split; [reflexivity|]. by exists new.
  - intros name description circle_goal max_members is_public tags.
    destruct (create_fitness_circle_outcome profile name description circle_goal
                max_members is_public tags w) as (created & Heq & _).
    eexists _, _, _. split; [exact Heq|reflexivity].
  - intros ids. simpl. repeat split. by destruct profile.
  - intros member_id new_rank.
    destruct (find_member (FitnessCircle.members circle) member_id) as [[i m]|] eqn:Hfind.
    + rewrite (promote_member_rank_found _ _ _ _ _ _ Hfind).
      eexists _, _, _. split; [reflexivity|]. split; [discriminate|].
      intros _. by exists i, m.
    + rewrite (promote_member_rank_missing _ _ _ _ Hfind).
      eexists _, _, _. split; [reflexivity|]. split; [done|discriminate].
  - intros member_id steps cal workouts.
    destruct (find_member (FitnessCircle.members circle) member_id) as [[i m]|] eqn:Hfind.
    + rewrite (update_member_progress_found _ _ _ _ _ _ _ _ Hfind).
      eexists _, _, _. split; [reflexivity|]. split; [discriminate|].
      intros _. by exists i, m.
    + rewrite (update_member_progress_missing _ _ _ _ _ _ Hfind).
      eexists _, _, _. split; [reflexivity|]. split; [done|discriminate].
Qed.

(** ** The leaderboard *)

Lemma key_ltb_true (a b : Z * Z) :
  key_ltb a b = true <-> a.1 < b.1 \/ (a.1 = b.1 /\ a.2 < b.2).
Proof.
  unfold key_ltb. rewrite orb_true_iff, andb_true_iff, !Z.ltb_lt, Z.eqb_eq. tauto.
Qed.

Lemma key_ltb_false (a b : Z * Z) :
  key_ltb a b = false <-> b.1 < a.1 \/ (a.1 = b.1 /\ b.2 <= a.2).
Proof.
  rewrite <- not_true_iff_false, key_ltb_true. lia.
Qed.

Lemma key_ltb_antisym (a b : Z * Z) :
  key_ltb a b = false -> key_ltb b a = false -> a = b.
Proof.
  rewrite !key_ltb_false. destruct a, b; simpl. intros ? ?. f_equal; lia.
Qed.

Lemma ranks_before_desc (a b : CircleMember.t) :
  desc_by leaderboard_key a b <-> ranks_before a b.
Proof. unfold desc_by, ranks_before. by rewrite key_ltb_false. Qed.

Section sorted_desc_facts.
Context {A : Type} (key : A -> Z * Z).

#[local] Instance desc_by_trans : Transitive (desc_by key).
Proof.
  intros a b c. unfold desc_by. rewrite !key_ltb_false.
  destruct (key a), (key b), (key c); simpl. lia.
Qed.

Lemma desc_by_total a b : key_ltb (key a) (key b) = true -> desc_by key b a.
Proof. unfold desc_by. rewrite key_ltb_true, key_ltb_false. lia. Qed.

Lemma insert_desc_perm x l : insert_desc key x l ≡ₚ x :: l.
Proof.
  induction l as [|y l IH]; simpl; [done|].
  destruct (key_ltb (key x) (key y)); [|done].
  rewrite IH. apply Permutation_swap.
Qed.

Lemma sorted_desc_perm l : sorted_desc key l ≡ₚ l.
Proof.
  induction l as [|x l IH]; simpl; [done|].
  change (foldr (insert_desc key) [] l) with (sorted_desc key l).
  by rewrite insert_desc_perm, IH.
Qed.

Lemma insert_desc_sorted x l :
  StronglySorted (desc_by key) l -> StronglySorted (desc_by key) (insert_desc key x l).
Proof.
  induction 1 as [|y l Hl IH Hy]; simpl.
  - repeat constructor.
  - destruct (key_ltb (key x) (key y)) eqn:Hxy.
    + constructor; [exact IH|].
      rewrite insert_desc_perm. constructor; [by apply desc_by_total|exact Hy].
    + constructor; [by constructor|].
      constructor; [exact Hxy|].
      eapply Forall_impl; [exact Hy|]. intros z Hz. by transitivity y.
Qed.

Lemma sorted_desc_sorted l : StronglySorted (desc_by key) (sorted_desc key l).
Proof.
  induction l as [|x l IH]; simpl; [constructor|].
  by apply insert_desc_sorted.
Qed.

(** Stability: among the elements that share a key, the order of the
    input is kept. *)
Lemma insert_desc_stable k x l :
  filter (λ y, key y = k) (insert_desc key x l) = filter (λ y, key y = k) (x :: l).
Proof.
  induction l as [|y l IH]; simpl; [done|].
  destruct (key_ltb (key x) (key y)) eqn:Hxy; [|done].
  rewrite !filter_cons in *. rewrite IH.
  destruct (decide (key x = k)) as [Hx|Hx], (decide (key y = k)) as [Hy|Hy];
    try done.
  rewrite Hx, Hy in Hxy. apply key_ltb_true in Hxy. lia.
Qed.

Lemma sorted_desc_stable k l :
  filter (λ y, key y = k) (sorted_desc key l) = filter (λ y, key y = k) l.
Proof.
  induction l as [|x l IH]; simpl; [done|].
  change (foldr (insert_desc key) [] l) with (sorted_desc key l).
  by rewrite insert_desc_stable, !filter_cons, IH.
Qed.

Lemma insert_desc_keys x l :
  key <$> insert_desc key x l = insert_desc id (key x) (key <$> l).
Proof.
  induction l as [|y l IH]; csimpl; [done|].
  destruct (key_ltb (key x) (key y)); csimpl; [by rewrite IH|done].
Qed.

Lemma sorted_desc_keys l : key <$> sorted_desc key l = sorted_desc id (key <$> l).
Proof.
  induction l as [|x l IH]; csimpl; [done|].
  change (foldr (insert_desc key) [] l) with (sorted_desc key l).
  change (foldr (insert_desc id) [] (key <$> l)) with (sorted_desc id (key <$> l)).
  by rewrite insert_desc_keys, IH.
Qed.

(** With pairwise distinct keys the result does not depend on the order
    of the input. *)
Lemma sorted_desc_perm_distinct l l' :
  l' ≡ₚ l -> NoDup (key <$> l) -> sorted_desc key l' = sorted_desc key l.
Proof.
  intros Hperm Hdistinct.
  apply (StronglySorted_unique_strong (desc_by key)).
  - intros a b Ha Hb Hab Hba.
    rewrite sorted_desc_perm, Hperm in Ha. rewrite sorted_desc_perm in Hb.
    pose proof (key_ltb_antisym _ _ Hab Hba) as Hkey.
    apply list_elem_of_lookup in Ha as [i Hi], Hb as [j Hj].
    assert (i = j) as ->.
    { eapply NoDup_lookup; [exact Hdistinct| |];
        rewrite list_lookup_fmap; [by rewrite Hi|rewrite Hj; simpl; by rewrite Hkey]. }
    congruence.
  - apply sorted_desc_sorted.
  - apply sorted_desc_sorted.
  - by rewrite !sorted_desc_perm.
Qed.
End sorted_desc_facts.

Lemma StronglySorted_weaken {A : Type} (R R' : relation A) (l : list A) :
  (forall a b, R a b -> R' a b) -> StronglySorted R l -> StronglySorted R' l.
Proof.
  intros Himpl. induction 1 as [|x l Hl IH Hx]; constructor; [exact IH|].
  eapply Forall_impl; [exact Hx|]. intros y. apply Himpl.
Qed.

(** The keys of the result depend on the input as a multiset only. *)
Lemma sorted_desc_keys_perm {A : Type} (key : A -> Z * Z) (l l' : list A) :
  l' ≡ₚ l -> key <$> sorted_desc key l' = key <$> sorted_desc key l.
Proof.
  intros Hperm. rewrite !sorted_desc_keys.
  apply (StronglySorted_unique_strong (desc_by id)).
  - intros a b _ _. apply key_ltb_antisym.
  - apply sorted_desc_sorted.
  - apply sorted_desc_sorted.
  - by rewrite !sorted_desc_perm, Hperm.
Qed.

(** C8, as amended. The leaderboard is a rearrangement of the circle's
    members in which every member stands before all members with fewer
    points, or with as many points and a shorter or equal streak; members
    with the same points and streak keep the order of the stored list. For
    every permutation of the stored list the leaderboard shows the same
    sequence of (points, streak) pairs, and it is the same sequence of
    members when no two members share their points and streak. *)
Theorem leaderboard_order (circle : FitnessCircle.t) :
  let board := get_circle_leaderboard circle in
  board ≡ₚ FitnessCircle.members circle
  /\ StronglySorted ranks_before board
  /\ (forall k,
        filter (λ x, leaderboard_key x = k) board
        = filter (λ x, leaderboard_key x = k) (FitnessCircle.members circle))
  /\ (forall circle' : FitnessCircle.t,
        FitnessCircle.members circle' ≡ₚ FitnessCircle.members circle ->
        leaderboard_key <$> get_circle_leaderboard circle' = leaderboard_key <$> board
        /\ (NoDup (leaderboard_key <$> FitnessCircle.members circle) ->
            get_circle_leaderboard circle' = board)).
Proof.
  intros board. subst board. unfold get_circle_leaderboard.
  split; [apply sorted_desc_perm|].
  split.
  { eapply StronglySorted_weaken; [|apply sorted_desc_sorted].
    intros a b. apply ranks_before_desc. }
  split; [intros k; apply sorted_desc_stable|].
  intros circle' Hperm. split.
  - by apply sorted_desc_keys_perm.
  - intros Hdistinct. by apply sorted_desc_perm_distinct.
Qed.

(** ** The notification rules *)

Lemma effective_time_run tracking w :
  effective_time tracking w = (Ok (seen_time tracking w), after_time_read tracking w).
Proof.
  unfold effective_time, seen_time, after_time_read.
  by destruct (DailyTracking.current_time tracking).
Qed.

Lemma after_time_read_agent_calls tracking w :
  agent_calls (after_time_read tracking w) = agent_calls w.
Proof. unfold after_time_read. by destruct (DailyTracking.current_time tracking). Qed.

Lemma after_time_read_agent_reply tracking w :
  agent_reply (after_time_read tracking w) = agent_reply w.
Proof. unfold after_time_read. by destruct (DailyTracking.current_time tracking). Qed.

(** Against a literal such as [time(12, 0)] a naive time compares by its
    fields and an aware time raises. *)
Lemma time_ge_literal (t : time.t) (h m s u : Z) :
  time.ge t (time.mk h m s u)
  = match time.utcoffset t with
    | None => Ok (time.geb t (time.mk h m s u))
    | Some _ => Raise TypeError
    end.
Proof. unfold time.ge. simpl. by destruct (time.utcoffset t). Qed.

Lemma time_ge_literal_Ok (t : time.t) (h m s u : Z) (b : bool) :
  time.ge t (time.mk h m s u) = Ok b
  <-> time.utcoffset t = None /\ time.geb t (time.mk h m s u) = b.
Proof.
  rewrite time_ge_literal. destruct (time.utcoffset t); split.
  - discriminate.
  - by intros [? _].
  - by intros [= <-].
  - by intros [_ <-].
Qed.

Lemma time_ge_two_ten (t : time.t) :
  time.ge t (time.mk 14 0 0 0) = Ok true -> time.ge t (time.mk 10 0 0 0) = Ok true.
Proof.
  rewrite !time_ge_literal_Ok. intros [Hnaive Htwo]. split; [exact Hnaive|].
  by apply time_geb_two_ten.
Qed.

Lemma seen_time_offset tracking w :
  time.utcoffset (seen_time tracking w) = snapshot_offset tracking.
Proof.
  unfold seen_time, snapshot_offset. by destruct (DailyTracking.current_time tracking).
Qed.

Lemma check_step_progress_run profile tracking w :
  check_step_progress profile tracking w =
  (match time.ge (seen_time tracking w) (time.mk 12 0 0 0) with
   | Raise e => Raise e
   | Ok past_noon =>
       if past_noon && bool_decide (DailyTracking.steps_taken tracking < 2000)
       then
         Ok (Some (BehavioralNotification.mk STEP_REMINDER
                     (step_message (DailyTracking.steps_taken tracking)
                        (DailyTracking.steps_goal tracking
                         - DailyTracking.steps_taken tracking)
                        (DailyTracking.steps_goal tracking))
                     "high"
                     {[ "steps_taken" := PyInt (DailyTracking.steps_taken tracking);
                        "steps_goal" := PyInt (DailyTracking.steps_goal tracking);
                        "time" := PyStr (time.str (seen_time tracking w)) ]}
                     (Some "Take a 30-minute walk or break up movement throughout the day")))
       else Ok None
   end, after_time_read tracking w).
Proof.
  unfold check_step_progress, bind at 1. rewrite effective_time_run.
  unfold bind, lift. destruct (time.ge _ _) as [past_noon|e]; [|reflexivity].
  by destruct (_ && _).
Qed.

Lemma check_meal_logging_run profile tracking w :
  check_meal_logging profile tracking w =
  (match time.ge (seen_time tracking w) (time.mk 10 0 0 0) with
   | Raise e => Raise e
   | Ok past_ten =>
       if past_ten && bool_decide ("breakfast" ∉ DailyTracking.meals_logged tracking)
       then
         Ok (Some (BehavioralNotification.mk MEAL_REMINDER breakfast_message "medium"
                     {[ "meals_logged" := PyStrList (DailyTracking.meals_logged tracking);
                        "time" := PyStr (time.str (seen_time tracking w)) ]}
                     (Some "Log your breakfast or plan your next meal")))
       else
         match time.ge (seen_time tracking w) (time.mk 14 0 0 0) with
         | Raise e => Raise e
         | Ok past_two =>
             if past_two && bool_decide ("lunch" ∉ DailyTracking.meals_logged tracking)
             then
               Ok (Some (BehavioralNotification.mk MEAL_REMINDER lunch_message "medium"
                           {[ "meals_logged" :=
                                PyStrList (DailyTracking.meals_logged tracking);
                              "time" := PyStr (time.str (seen_time tracking w)) ]}
                           (Some "Log your lunch or plan a healthy meal")))
             else Ok None
         end
   end, after_time_read tracking w).
Proof.
  unfold check_meal_logging, bind at 1. rewrite effective_time_run.
  unfold bind, lift. destruct (time.ge _ (time.mk 10 0 0 0)) as [past_ten|e]; [|reflexivity].
  destruct (_ && _); [reflexivity|].
  destruct (time.ge _ (time.mk 14 0 0 0)) as [past_two|e]; [|reflexivity].
  by destruct (_ && _).
Qed.

Lemma check_step_progress_fires profile tracking w :
  time.ge (seen_time tracking w) (time.mk 12 0 0 0) = Ok true ->
  DailyTracking.steps_taken tracking < 2000 ->
  exists n,
    check_step_progress profile tracking w = (Ok (Some n), after_time_read tracking w)
    /\ BehavioralNotification.notification_type n = STEP_REMINDER
    /\ BehavioralNotification.urgency n = "high"
    /\ BehavioralNotification.message n =
         step_message (DailyTracking.steps_taken tracking)
           (DailyTracking.steps_goal tracking - DailyTracking.steps_taken tracking)
           (DailyTracking.steps_goal tracking)
    /\ BehavioralNotification.context n !! "steps_taken"
       = Some (PyInt (DailyTracking.steps_taken tracking))
    /\ BehavioralNotification.context n !! "steps_goal"
       = Some (PyInt (DailyTracking.steps_goal tracking)).
Proof.
  intros Htime Hsteps.
  rewrite check_step_progress_run, Htime, bool_decide_eq_true_2 by done. simpl.
  eexists. split; [reflexivity|]. simpl.
  do 3 (split; [reflexivity|]). split.
  - apply lookup_insert_eq.
  - rewrite lookup_insert_ne by done. apply lookup_insert_eq.
Qed.

Lemma check_step_progress_abstains profile tracking w :
  snapshot_offset tracking = None ->
  ~ (time.ge (seen_time tracking w) (time.mk 12 0 0 0) = Ok true
     /\ DailyTracking.steps_taken tracking < 2000) ->
  check_step_progress profile tracking w = (Ok None, after_time_read tracking w).
Proof.
  intros Hnaive Hnot. rewrite check_step_progress_run.
  rewrite time_ge_literal, seen_time_offset, Hnaive in Hnot |- *.
  destruct (time.geb _ _) eqn:Htime; simpl; [|reflexivity].
  rewrite bool_decide_eq_false_2; [reflexivity|]. intros Hsteps. by apply Hnot.
Qed.

Lemma check_step_progress_aware profile tracking w :
  snapshot_offset tracking <> None ->
  check_step_progress profile tracking w = (Raise TypeError, after_time_read tracking w).
Proof.
  intros Haware. rewrite check_step_progress_run, time_ge_literal, seen_time_offset.
  by destruct (snapshot_offset tracking).
Qed.

Lemma check_meal_logging_aware profile tracking w :
  snapshot_offset tracking <> None ->
  check_meal_logging profile tracking w = (Raise TypeError, after_time_read tracking w).
Proof.
  intros Haware. rewrite check_meal_logging_run, !time_ge_literal, seen_time_offset.
  by destruct (snapshot_offset tracking).
Qed.

Lemma check_step_progress_cases profile tracking w :
  (exists n, check_step_progress profile tracking w = (Ok (Some n), after_time_read tracking w)
             /\ time.ge (seen_time tracking w) (time.mk 12 0 0 0) = Ok true
             /\ DailyTracking.steps_taken tracking < 2000)
  \/ (check_step_progress profile tracking w = (Ok None, after_time_read tracking w)
      /\ snapshot_offset tracking = None)
  \/ (check_step_progress profile tracking w = (Raise TypeError, after_time_read tracking w)
      /\ snapshot_offset tracking <> None).
Proof.
  destruct (snapshot_offset tracking) as [off|] eqn:Hoff.
  - right. right. split; [|done]. apply check_step_progress_aware. by rewrite Hoff.
  - destruct (decide (time.ge (seen_time tracking w) (time.mk 12 0 0 0) = Ok true
                      /\ DailyTracking.steps_taken tracking < 2000)) as [[Ht Hs]|Hnot].
    + left. destruct (check_step_progress_fires profile tracking w Ht Hs) as (n & Heq & _).
      by exists n.
    + right. left. split; [|done]. by apply check_step_progress_abstains.
Qed.

Lemma check_meal_logging_breakfast profile tracking w :
  time.ge (seen_time tracking w) (time.mk 10 0 0 0) = Ok true ->
  "breakfast" ∉ DailyTracking.meals_logged tracking ->
  exists n,
    check_meal_logging profile tracking w = (Ok (Some n), after_time_read tracking w)
    /\ BehavioralNotification.notification_type n = MEAL_REMINDER
    /\ BehavioralNotification.urgency n = "medium"
    /\ BehavioralNotification.message n = breakfast_message.
Proof.
  intros Htime Hmeal.
  rewrite check_meal_logging_run, Htime, bool_decide_eq_true_2 by done. simpl.
  eexists. by repeat split.
Qed.

Lemma check_meal_logging_lunch profile tracking w :
  ~ (time.ge (seen_time tracking w) (time.mk 10 0 0 0) = Ok true
     /\ "breakfast" ∉ DailyTracking.meals_logged tracking) ->
  time.ge (seen_time tracking w) (time.mk 14 0 0 0) = Ok true ->
  "lunch" ∉ DailyTracking.meals_logged tracking ->
  exists n,
    check_meal_logging profile tracking w = (Ok (Some n), after_time_read tracking w)
    /\ BehavioralNotification.notification_type n = MEAL_REMINDER
    /\ BehavioralNotification.urgency n = "medium"
    /\ BehavioralNotification.message n = lunch_message.
Proof.
  intros Hbreakfast Htime Hmeal.
  rewrite check_meal_logging_run, Htime, (time_ge_two_ten _ Htime).
  rewrite (bool_decide_eq_true_2 ("lunch" ∉ _)) by done.
  rewrite bool_decide_eq_false_2
    by (intros H; apply Hbreakfast; split; [by apply time_ge_two_ten|exact H]).
  simpl. eexists. by repeat split.
Qed.

Lemma check_meal_logging_world profile tracking w :
  exists r, check_meal_logging profile tracking w = (r, after_time_read tracking w).
Proof. rewrite check_meal_logging_run. by eexists. Qed.

Lemma check_meal_logging_naive profile tracking w :
  snapshot_offset tracking = None ->
  exists r, check_meal_logging profile tracking w = (Ok r, after_time_read tracking w).
Proof.
  intros Hnaive. rewrite check_meal_logging_run, !time_ge_literal, seen_time_offset, Hnaive.
  destruct (_ && _); [by eexists|]. destruct (_ && _); by eexists.
Qed.

Lemma check_calorie_progress_world profile tracking w :
  (check_calorie_progress profile tracking w).2 = w.
Proof.
  unfold check_calorie_progress. case_bool_decide; [|reflexivity].
  unfold bind, lift. destruct (pyfloat.int_mul _ _); [|reflexivity].
  by destruct (pyfloat.int_gt _ _).
Qed.

(** ** The selector *)

Lemma get_contextual_notification_unfold profile tracking w :
  get_contextual_notification profile tracking w =
  match check_step_progress profile tracking w with
  | (Ok (Some n), w1) => (Ok (Some n), w1)
  | (Raise e, w1) => (Raise e, w1)
  | (Ok None, w1) =>
      match check_meal_logging profile tracking w1 with
      | (Ok (Some n), w2) => (Ok (Some n), w2)
      | (Raise e, w2) => (Raise e, w2)
      | (Ok None, w2) =>
          match check_calorie_progress profile tracking w2 with
          | (Ok (Some n), w3) => (Ok (Some n), w3)
          | (Raise e, w3) => (Raise e, w3)
          | (Ok None, w3) =>
              match agent_reply w3 (length (agent_calls w3)) profile tracking with
              | Ok n =>
                  (Ok (Some n),
                   mkWorld (wall_clock w3) (clock_reads w3) (uuid_source w3)
                     (uuids_drawn w3) (agent_reply w3)
                     (agent_calls w3 ++ [(profile, tracking)]))
              | Raise e =>
                  (Raise e,
                   mkWorld (wall_clock w3) (clock_reads w3) (uuid_source w3)
                     (uuids_drawn w3) (agent_reply w3)
                     (agent_calls w3 ++ [(profile, tracking)]))
              end
          end
      end
  end.
Proof.
  unfold get_contextual_notification, bind at 1.
  destruct (check_step_progress profile tracking w) as [[[n|]|e] w1]; try reflexivity.
  unfold bind at 1.
  destruct (check_meal_logging profile tracking w1) as [[[n|]|e] w2]; try reflexivity.
  unfold bind at 1.
  destruct (check_calorie_progress profile tracking w2) as [[[n|]|e] w3]; reflexivity.
Qed.

Lemma app_singleton_neq {A : Type} (l : list A) (x : A) : l ++ [x] <> l.
Proof.
  intros Heq. apply (f_equal length) in Heq. rewrite length_app in Heq. simpl in Heq. lia.
Qed.

(** C3. Whenever the step rule's time of day (the snapshot's current_time,
    else the wall clock) is 12:00 or later, that is, its comparison with
    [time(12, 0)] yields True, and fewer than 2000 steps are taken, the
    selector returns a step reminder of urgency high whose
    context maps steps_taken to the snapshot's value, whatever the other
    fields of profile and snapshot are, and without calling the agent. For
    200 steps of a goal of 10000 the message names 200 and the 9800 steps
    that remain. *)
Theorem low_steps_after_noon
    (profile : FitnessProfile.t) (tracking : DailyTracking.t) (w : World)
    (Hsteps : DailyTracking.steps_taken tracking < 2000)
    (Htime : time.ge (seen_time tracking w) (time.mk 12 0 0 0) = Ok true) :
  exists n w',
    get_contextual_notification profile tracking w = (Ok (Some n), w')
    /\ BehavioralNotification.notification_type n = STEP_REMINDER
    /\ BehavioralNotification.urgency n = "high"
    /\ BehavioralNotification.context n !! "steps_taken"
       = Some (PyInt (DailyTracking.steps_taken tracking))
    /\ BehavioralNotification.message n =
         step_message (DailyTracking.steps_taken tracking)
           (DailyTracking.steps_goal tracking - DailyTracking.steps_taken tracking)
           (DailyTracking.steps_goal tracking)
    /\ agent_calls w' = agent_calls w
    /\ (DailyTracking.steps_taken tracking = 200 ->
        DailyTracking.steps_goal tracking = 10000 ->
          BehavioralNotification.message n
          = "🚶‍♂️ Only 200 steps by noon! You need 9800 more steps to reach your 10000 goal. A 30-minute walk could add ~3,000 steps!"
          /\ contains "200" (BehavioralNotification.message n) = true
          /\ contains "9800" (BehavioralNotification.message n) = true).
Proof.
  destruct (check_step_progress_fires profile tracking w Htime Hsteps)
    as (n & Heq & Htype & Hurgency & Hmsg & Hctx & _).
  exists n, (after_time_read tracking w).
  rewrite get_contextual_notification_unfold, Heq.
  split; [reflexivity|]. do 4 (split; [assumption|]).
  split; [apply after_time_read_agent_calls|].
  intros Htaken Hgoal. rewrite Hmsg, Htaken, Hgoal. by vm_compute.
Qed.

Lemma selector_cases profile tracking w :
  let w1 := after_time_read tracking w in
  let w2 := after_time_read tracking w1 in
  exists r1 r2 r3,
    check_step_progress profile tracking w = (r1, w1)
    /\ check_meal_logging profile tracking w1 = (r2, w2)
    /\ check_calorie_progress profile tracking w2 = (r3, w2)
    /\ (snapshot_offset tracking = None -> (exists o, r1 = Ok o) /\ (exists o, r2 = Ok o))
    /\ (snapshot_offset tracking <> None -> r1 = Raise TypeError)
    /\ get_contextual_notification profile tracking w =
       match r1 with
       | Ok (Some n) => (Ok (Some n), w1)
       | Raise e => (Raise e, w1)
       | Ok None =>
           match r2 with
           | Ok (Some n) => (Ok (Some n), w2)
           | Raise e => (Raise e, w2)
           | Ok None =>
               match r3 with
               | Ok (Some n) => (Ok (Some n), w2)
               | Raise e => (Raise e, w2)
               | Ok None =>
                   match agent_reply w2 (length (agent_calls w2)) profile tracking with
                   | Ok n =>
                       (Ok (Some n),
                        mkWorld (wall_clock w2) (clock_reads w2) (uuid_source w2)
                          (uuids_drawn w2) (agent_reply w2)
                          (agent_calls w2 ++ [(profile, tracking)]))
                   | Raise e =>
                       (Raise e,
                        mkWorld (wall_clock w2) (clock_reads w2) (uuid_source w2)
                          (uuids_drawn w2) (agent_reply w2)
                          (agent_calls w2 ++ [(profile, tracking)]))
                   end
               end
           end
       end.
Proof.
  intros w1 w2. subst w1 w2. rewrite get_contextual_notification_unfold.
  destruct (check_meal_logging_world profile tracking (after_time_read tracking w))
    as [r2 Hmeal].
  pose proof (check_calorie_progress_world profile tracking
                (after_time_read tracking (after_time_read tracking w))) as Hcal.
  destruct (check_calorie_progress profile tracking
              (after_time_read tracking (after_time_read tracking w))) as [r3 w3] eqn:Hcal3.
  simpl in Hcal. subst w3.
  assert (Hr2 : snapshot_offset tracking = None -> exists o, r2 = Ok o).
  { intros Hnaive.
    destruct (check_meal_logging_naive profile tracking (after_time_read tracking w) Hnaive)
      as [o Ho]. rewrite Hmeal in Ho. injection Ho as ->. by exists o. }
  destruct (check_step_progress_cases profile tracking w)
    as [(n & Hstep & _)|[[Hstep Hnaive]|[Hstep Haware]]]; rewrite Hstep.
  - eexists _, r2, r3. split; [reflexivity|]. split; [exact Hmeal|].
    split; [reflexivity|]. split; [intros Hn; split; [by eexists|by apply Hr2]|].
    split; [|reflexivity].
    intros Haware. rewrite (check_step_progress_aware _ _ _ Haware) in Hstep. discriminate.
  - rewrite Hmeal. eexists _, r2, r3. split; [reflexivity|]. split; [reflexivity|].
    split; [reflexivity|]. split; [intros Hn; split; [by eexists|by apply Hr2]|].
    split; [done|].
    destruct r2 as [[n2|]|e2]; try reflexivity. rewrite Hcal3.
    by destruct r3 as [[n3|]|e3].
  - eexists _, r2, r3. split; [reflexivity|]. split; [exact Hmeal|].
    split; [reflexivity|]. split; [done|]. split; reflexivity.
Qed.

(** C2. The selector returns what the first rule that fires returns, the
    rules being tried in the order step, meal, calorie, each in the runtime
    its predecessor left; it calls the generative agent exactly when all
    three rules return None, and then passes the agent's answer on. Inside
    the meal rule the breakfast check comes first and shuts out the lunch
    check. The times of day are compared as the code compares them, with
    [>=] against [time(10, 0)], [time(12, 0)] and [time(14, 0)]. So a
    snapshot that satisfies the step condition gets the step
    reminder whatever its meals, and one seen at 14:00 or later with
    neither breakfast nor lunch logged, the step rule returning None, gets
    the breakfast reminder and not the lunch reminder. *)
Theorem selector_priority_chain
    (profile : FitnessProfile.t) (tracking : DailyTracking.t) (w : World) :
  let selected := get_contextual_notification profile tracking w in
  let step := check_step_progress profile tracking w in
  let meal := check_meal_logging profile tracking step.2 in
  let calorie := check_calorie_progress profile tracking meal.2 in
  let all_abstain := step.1 = Ok None /\ meal.1 = Ok None /\ calorie.1 = Ok None in
  (forall n, step.1 = Ok (Some n) -> selected = (Ok (Some n), step.2))
  /\ (forall n, step.1 = Ok None -> meal.1 = Ok (Some n) ->
        selected = (Ok (Some n), meal.2))
  /\ (forall n, step.1 = Ok None -> meal.1 = Ok None -> calorie.1 = Ok (Some n) ->
        selected = (Ok (Some n), calorie.2))
  /\ (agent_calls selected.2 = agent_calls w ++ [(profile, tracking)] <-> all_abstain)
  /\ (agent_calls selected.2 = agent_calls w <-> ~ all_abstain)
  /\ (all_abstain ->
        selected.1 =
          match agent_reply w (length (agent_calls w)) profile tracking with
          | Ok n => Ok (Some n)
          | Raise e => Raise e
          end)
  /\ (forall v : World,
        (time.ge (seen_time tracking v) (time.mk 10 0 0 0) = Ok true ->
         "breakfast" ∉ DailyTracking.meals_logged tracking ->
           exists n,
             (check_meal_logging profile tracking v).1 = Ok (Some n)
             /\ BehavioralNotification.message n = breakfast_message)
        /\ (~ (time.ge (seen_time tracking v) (time.mk 10 0 0 0) = Ok true
               /\ "breakfast" ∉ DailyTracking.meals_logged tracking) ->
            time.ge (seen_time tracking v) (time.mk 14 0 0 0) = Ok true ->
            "lunch" ∉ DailyTracking.meals_logged tracking ->
              exists n,
                (check_meal_logging profile tracking v).1 = Ok (Some n)
                /\ BehavioralNotification.message n = lunch_message))
  /\ (time.ge (seen_time tracking w) (time.mk 12 0 0 0) = Ok true ->
      DailyTracking.steps_taken tracking < 2000 ->
        exists n,
          selected = (Ok (Some n), step.2)
          /\ BehavioralNotification.notification_type n = STEP_REMINDER)
  /\ (step.1 = Ok None ->
      time.ge (seen_time tracking step.2) (time.mk 14 0 0 0) = Ok true ->
      "breakfast" ∉ DailyTracking.meals_logged tracking ->
      "lunch" ∉ DailyTracking.meals_logged tracking ->
        exists n,
          selected = (Ok (Some n), meal.2)
          /\ BehavioralNotification.notification_type n = MEAL_REMINDER
          /\ BehavioralNotification.message n = breakfast_message
          /\ BehavioralNotification.message n <> lunch_message).
Proof.
  intros selected step meal calorie all_abstain.
  destruct (selector_cases profile tracking w)
    as (r1 & r2 & r3 & Hstep & Hmeal & Hcal & _ & _ & Hsel).
  subst selected step meal calorie all_abstain.
  rewrite Hstep. cbn [fst snd]. rewrite Hmeal. cbn [fst snd]. rewrite Hcal.
  cbn [fst snd]. rewrite Hsel. clear Hsel.
  set (w1 := after_time_read tracking w) in *.
  set (w2 := after_time_read tracking w1) in *.
  assert (Hcalls : agent_calls w2 = agent_calls w).
  { subst w2 w1. by rewrite !after_time_read_agent_calls. }
  assert (Hreply : agent_reply w2 = agent_reply w).
  { subst w2 w1. by rewrite !after_time_read_agent_reply. }
  assert (Hcalls1 : agent_calls w1 = agent_calls w).
  { subst w1. by rewrite !after_time_read_agent_calls. }
  split; [by intros n ->|].
  split; [by intros n -> ->|].
  split; [by intros n -> -> ->|].
  assert (Hlog :
    forall out : Exc (option BehavioralNotification.t) * World,
      out =
       match r1 with
       | Ok (Some n) => (Ok (Some n), w1)
       | Raise e => (Raise e, w1)
       | Ok None =>
           match r2 with
           | Ok (Some n) => (Ok (Some n), w2)
           | Raise e => (Raise e, w2)
           | Ok None =>
               match r3 with
               | Ok (Some n) => (Ok (Some n), w2)
               | Raise e => (Raise e, w2)
               | Ok None =>
                   match agent_reply w2 (length (agent_calls w2)) profile tracking with
                   | Ok n =>
                       (Ok (Some n),
                        mkWorld (wall_clock w2) (clock_reads w2) (uuid_source w2)
                          (uuids_drawn w2) (agent_reply w2)
                          (agent_calls w2 ++ [(profile, tracking)]))
                   | Raise e =>
                       (Raise e,
                        mkWorld (wall_clock w2) (clock_reads w2) (uuid_source w2)
                          (uuids_drawn w2) (agent_reply w2)
                          (agent_calls w2 ++ [(profile, tracking)]))
                   end
               end
           end
       end ->
      (r1 = Ok None /\ r2 = Ok None /\ r3 = Ok None ->
         agent_calls out.2 = agent_calls w ++ [(profile, tracking)]
         /\ out.1 = match agent_reply w (length (agent_calls w)) profile tracking with
                    | Ok n => Ok (Some n)
                    | Raise e => Raise e
                    end)
      /\ (~ (r1 = Ok None /\ r2 = Ok None /\ r3 = Ok None) ->
            agent_calls out.2 = agent_calls w)).
  { intros out ->. split.
    - intros (-> & -> & ->). rewrite Hreply, Hcalls.
      by destruct (agent_reply w _ profile tracking).
    - intros Hnot. destruct r1 as [[n1|]|e1]; [exact Hcalls1| |exact Hcalls1].
      destruct r2 as [[n2|]|e2]; [exact Hcalls| |exact Hcalls].
      destruct r3 as [[n3|]|e3]; [exact Hcalls| |exact Hcalls].
      exfalso. by apply Hnot. }
  destruct (Hlog _ eq_refl) as [Hlog_yes Hlog_no]. clear Hlog.
  split; [|split; [|split; [|split; [|split]]]].
  - split; [|by intros Hall; apply Hlog_yes].
    intros Hgrew.
    destruct r1 as [[n1|]|e1], r2 as [[n2|]|e2], r3 as [[n3|]|e3];
      try done;
      (rewrite Hlog_no in Hgrew by (intros (? & ? & ?); discriminate);
       symmetry in Hgrew; by apply app_singleton_neq in Hgrew).
  - split; [|exact Hlog_no].
    intros Hsame Hall. destruct (Hlog_yes Hall) as [Hgrew _].
    rewrite Hsame in Hgrew. symmetry in Hgrew. by apply app_singleton_neq in Hgrew.
  - intros Hall. by apply Hlog_yes.
  - intros v. split.
    + intros Ht Hb. destruct (check_meal_logging_breakfast profile tracking v Ht Hb)
        as (n & -> & _ & _ & Hmsg). by exists n.
    + intros Hnb Ht Hl.
      destruct (check_meal_logging_lunch profile tracking v Hnb Ht Hl)
        as (n & -> & _ & _ & Hmsg). by exists n.
  - intros Ht Hs. destruct (check_step_progress_fires profile tracking w Ht Hs)
      as (n & Heq & Htype & _).
    rewrite Hstep in Heq. injection Heq as ->. by exists n.
  - intros -> Ht Hb Hl.
    destruct (check_meal_logging_breakfast profile tracking w1
                (time_ge_two_ten _ Ht) Hb) as (n & Heq & Htype & _ & Hmsg).
    rewrite Hmeal in Heq. injection Heq as ->.
    exists n. split; [reflexivity|]. split; [exact Htype|]. split; [exact Hmsg|].
    rewrite Hmsg. by vm_compute.
Qed.

(** ** The calorie rule *)

Lemma int_gt_floor (c : Z) (x : PyFloat) :
  pyfloat.is_finite x = true -> pyfloat.int_gt c x = (pyfloat.floor x <? c).
Proof.
  destruct x as [s|s| |s m e]; simpl; try discriminate; [reflexivity|].
  intros _. destruct (0 <=? e) eqn:He; [reflexivity|].
  apply Z.leb_gt in He.
  assert (Hpow : 0 < 2 ^ (- e)) by (apply Z.pow_pos_nonneg; lia).
  set (v := if s then Z.neg m else Z.pos m). set (d := 2 ^ (- e)) in *.
  apply eq_iff_eq_true. rewrite !Z.ltb_lt. split.
  - intros Hlt. apply Z.div_lt_upper_bound; lia.
  - intros Hlt. pose proof (Z.mul_succ_div_gt v d Hpow). nia.
Qed.

Lemma threshold_exact_from_spec (n : nat) :
  forall g, threshold_exact_from n g = true ->
  forall k, g <= k < g + Z.of_nat n -> threshold_exact k = true.
Proof.
  induction n as [|n IH]; intros g Hall k Hk; [lia|].
  simpl in Hall. apply andb_true_iff in Hall as [Hg Hrest].
  destruct (decide (k = g)) as [->|Hne]; [exact Hg|].
  apply (IH (g + 1) Hrest). lia.
Qed.

(** For calorie goals up to 20000 the float product decides as the exact
    fraction 4/5 does. *)
Lemma threshold_exact_range (g : Z) : 0 <= g <= 20000 -> threshold_exact g = true.
Proof.
  intros Hg. apply (threshold_exact_from_spec (Z.to_nat 20001) 0); [|lia].
  vm_compute. reflexivity.
Qed.

Lemma threshold_exact_gt (g c : Z) :
  threshold_exact g = true ->
  exists threshold,
    pyfloat.int_mul g pyfloat.lit_0_8 = Ok threshold
    /\ (pyfloat.int_gt c threshold = true <-> 4 * g < 5 * c).
Proof.
  unfold threshold_exact. destruct (pyfloat.int_mul g pyfloat.lit_0_8) as [f|e]; [|done].
  intros [Hfin Hfloor]%andb_true_iff. apply Z.eqb_eq in Hfloor.
  exists f. split; [reflexivity|].
  rewrite int_gt_floor, Z.ltb_lt, Hfloor by done.
  pose proof (Z.div_mod (4 * g) 5). pose proof (Z.mod_pos_bound (4 * g) 5). lia.
Qed.

(** The literal 0.8 is the quotient 4/5 as binary64 division rounds it. *)
Lemma lit_0_8_is_four_fifths :
  pyfloat.lit_0_8 = SFdiv pyfloat.prec pyfloat.emax (float_of_Z 4) (float_of_Z 5).
Proof. vm_compute. reflexivity. Qed.

Lemma check_calorie_progress_weight_loss profile tracking w :
  FitnessProfile.fitness_goal profile = WEIGHT_LOSS ->
  check_calorie_progress profile tracking w =
  match pyfloat.int_mul (DailyTracking.calories_goal tracking) pyfloat.lit_0_8 with
  | Raise e => (Raise e, w)
  | Ok threshold =>
      if pyfloat.int_gt (DailyTracking.calories_consumed tracking) threshold
      then
        (Ok (Some (BehavioralNotification.mk CALORIE_WARNING
                     (calorie_message (DailyTracking.calories_consumed tracking)
                        (DailyTracking.calories_goal tracking
                         - DailyTracking.calories_consumed tracking))
                     "high"
                     {[ "calories_consumed" := PyInt (DailyTracking.calories_consumed tracking);
                        "calories_goal" := PyInt (DailyTracking.calories_goal tracking) ]}
                     (Some "Choose lower-calorie options for remaining meals"))),
         w)
      else (Ok None, w)
  end.
Proof.
  intros Hgoal. unfold check_calorie_progress. rewrite bool_decide_eq_true_2 by done.
  unfold bind, lift. destruct (pyfloat.int_mul _ _); [|reflexivity].
  by destruct (pyfloat.int_gt _ _).
Qed.

Lemma check_calorie_progress_other_goal profile tracking w :
  FitnessProfile.fitness_goal profile <> WEIGHT_LOSS ->
  check_calorie_progress profile tracking w = (Ok None, w).
Proof.
  intros Hgoal. unfold check_calorie_progress. by rewrite bool_decide_eq_false_2.
Qed.

(** C4. The calorie rule returns a notification only for a profile whose
    fitness goal is weight_loss and a snapshot with
    [calories_consumed > calories_goal * 0.8], the product taken in
    floating point as the code takes it; it then returns a calorie warning
    of urgency high whose message is the warning text with the calories
    consumed and the calories left, [calories_goal - calories_consumed],
    written out in decimal. For every other
    fitness goal the rule returns None, on the same snapshot too. For goals
    from 0 to 20000 the floating-point test is the exact one,
    [5 * calories_consumed > 4 * calories_goal]. *)
Theorem calorie_rule (profile : FitnessProfile.t) (tracking : DailyTracking.t) (w : World) :
  let consumed := DailyTracking.calories_consumed tracking in
  let goal := DailyTracking.calories_goal tracking in
  let outcome := check_calorie_progress profile tracking w in
  (forall n, outcome.1 = Ok (Some n) ->
     FitnessProfile.fitness_goal profile = WEIGHT_LOSS
     /\ (exists threshold,
           pyfloat.int_mul goal pyfloat.lit_0_8 = Ok threshold
           /\ pyfloat.int_gt consumed threshold = true)
     /\ BehavioralNotification.notification_type n = CALORIE_WARNING
     /\ BehavioralNotification.urgency n = "high"
     /\ BehavioralNotification.message n
        = "⚠️ You've consumed " +:+ str_int consumed +:+ " calories today. Only "
          +:+ str_int (goal - consumed)
          +:+ " calories left to stay within your weight loss target!"
     /\ BehavioralNotification.context n !! "calories_consumed" = Some (PyInt consumed)
     /\ BehavioralNotification.context n !! "calories_goal" = Some (PyInt goal))
  /\ (FitnessProfile.fitness_goal profile = WEIGHT_LOSS ->
      forall threshold,
        pyfloat.int_mul goal pyfloat.lit_0_8 = Ok threshold ->
        pyfloat.int_gt consumed threshold = true ->
        exists n, outcome = (Ok (Some n), w))
  /\ (forall profile' : FitnessProfile.t,
        FitnessProfile.fitness_goal profile' <> WEIGHT_LOSS ->
        check_calorie_progress profile' tracking w = (Ok None, w))
  /\ (0 <= goal <= 20000 ->
        ((exists n, outcome.1 = Ok (Some n))
         <-> FitnessProfile.fitness_goal profile = WEIGHT_LOSS /\ 5 * consumed > 4 * goal)).
Proof.
  intros consumed goal outcome. subst outcome.
  split; [|split; [|split]].
  - intros n Hn.
    destruct (decide (FitnessProfile.fitness_goal profile = WEIGHT_LOSS)) as [Hgoal|Hgoal].
    + rewrite (check_calorie_progress_weight_loss _ _ _ Hgoal) in Hn.
      fold goal consumed in Hn.
      destruct (pyfloat.int_mul goal pyfloat.lit_0_8) as [threshold|e]; [|done].
      destruct (pyfloat.int_gt consumed threshold) eqn:Hgt; [|done].
      simpl in Hn. injection Hn as <-. simpl.
      split; [exact Hgoal|]. split; [by exists threshold|].
      do 3 (split; [reflexivity|]). split.
      * apply lookup_insert_eq.
      * rewrite lookup_insert_ne by done. apply lookup_singleton_eq.
    + by rewrite (check_calorie_progress_other_goal _ _ _ Hgoal) in Hn.
  - intros Hgoal threshold Hmul Hgt.
    rewrite (check_calorie_progress_weight_loss _ _ _ Hgoal).
    fold goal consumed. rewrite Hmul, Hgt. by eexists.
  - intros profile' Hgoal. by apply check_calorie_progress_other_goal.
  - intros Hrange.
    destruct (threshold_exact_gt goal consumed (threshold_exact_range goal Hrange))
      as (threshold & Hmul & Hexact).
    destruct (decide (FitnessProfile.fitness_goal profile = WEIGHT_LOSS)) as [Hgoal|Hgoal].
    + rewrite (check_calorie_progress_weight_loss _ _ _ Hgoal).
      fold goal consumed. rewrite Hmul.
      destruct (pyfloat.int_gt consumed threshold) eqn:Hgt; simpl.
      * split; [|by eexists]. intros _. split; [exact Hgoal|].
        apply Z.lt_gt, Hexact. reflexivity.
      * split; [by intros [n Hn]|]. intros [_ Hlt]. apply Z.gt_lt, Hexact in Hlt.
        discriminate.
    + rewrite (check_calorie_progress_other_goal _ _ _ Hgoal). simpl.
      split; [by intros [n Hn]|]. by intros [Hwl _].
Qed.

(** * The properties at work, and where the specification overreaches *)

(** ** Instances *)

(** Zed, of influencer rank, gets a post for a circle. *)
Lemma create_influencer_post_gate_witness :
  FitnessProfile.circle_rank zed ∈ influencer_ranks
  /\ exists post w',
       create_influencer_post zed ada_circle "Keep going" "motivation" [] example_world
         = (Ok (Some post), w')
       /\ InfluencerPost.influencer_id post = "Zed".
Proof.
  assert (Hin : FitnessProfile.circle_rank zed ∈ influencer_ranks) by (simpl; left).
  split; [exact Hin|].
  destruct (proj1 (proj2 (create_influencer_post_gate zed ada_circle "Keep going"
                             "motivation" [] example_world)) Hin)
    as (post & w' & Heq & Hid & _).
  exists post, w'. split; [exact Heq|exact Hid].
Defined.

(** Scenario 1 of [example_usage]: 200 steps at noon. *)
Lemma low_steps_after_noon_witness :
  exists n w',
    get_contextual_notification tunde tracking_1 example_world = (Ok (Some n), w')
    /\ BehavioralNotification.notification_type n = STEP_REMINDER
    /\ BehavioralNotification.urgency n = "high"
    /\ BehavioralNotification.message n
       = "🚶‍♂️ Only 200 steps by noon! You need 9800 more steps to reach your 10000 goal. A 30-minute walk could add ~3,000 steps!".
Proof.
  assert (Hsteps : DailyTracking.steps_taken tracking_1 < 2000) by (simpl; lia).
  assert (Htime : time.ge (seen_time tracking_1 example_world) (time.mk 12 0 0 0) = Ok true)
    by reflexivity.
  destruct (low_steps_after_noon tunde tracking_1 example_world Hsteps Htime)
    as (n & w' & Heq & Htype & Hurgency & _ & _ & _ & Hmsg).
  exists n, w'. split; [exact Heq|]. split; [exact Htype|]. split; [exact Hurgency|].
  exact (proj1 (Hmsg eq_refl eq_refl)).
Defined.

(** Scenario 2 of [example_usage]: lunch not logged at 14:00; the step rule
    returns None and the meal rule decides. *)
Lemma selector_priority_chain_witness :
  exists n,
    (check_step_progress tunde tracking_2 example_world).1 = Ok None
    /\ (check_meal_logging tunde tracking_2 example_world).1 = Ok (Some n)
    /\ get_contextual_notification tunde tracking_2 example_world
       = (Ok (Some n), example_world)
    /\ BehavioralNotification.message n = lunch_message.
Proof.
  pose proof (selector_priority_chain tunde tracking_2 example_world) as Hchain.
  destruct Hchain as (_ & Hsecond & _).
  eexists. split; [reflexivity|]. split; [reflexivity|].
  split; [|reflexivity]. apply Hsecond; reflexivity.
Defined.

(** Scenario 3 of [example_usage]: 1300 of 1500 calories on a weight-loss
    profile. *)
Lemma calorie_rule_witness :
  exists n,
    (check_calorie_progress tunde tracking_3 example_world).1 = Ok (Some n)
    /\ BehavioralNotification.notification_type n = CALORIE_WARNING
    /\ BehavioralNotification.urgency n = "high"
    /\ BehavioralNotification.message n
       = "⚠️ You've consumed 1300 calories today. Only 200 calories left to stay within your weight loss target!".
Proof.
  pose proof (calorie_rule tunde tracking_3 example_world) as (Honly & _).
  eexists. split; [reflexivity|].
  destruct (Honly _ eq_refl) as (_ & _ & Htype & Hurgency & Hmsg & _).
  split; [exact Htype|]. split; [exact Hurgency|]. rewrite Hmsg. reflexivity.
Defined.

(** Bola, a Follower with a streak of 9 and 1200 points, becomes a Member,
    not a Leader. *)
Lemma update_member_progress_rank_policy_witness :
  find_member (FitnessCircle.members ada_circle) "Bola" = Some (1%nat, bola_member)
  /\ exists circle' w' m',
       update_member_progress ada_circle "Bola" 4000 900 1 example_world
         = (Ok (true, circle'), w')
       /\ find_member (FitnessCircle.members circle') "Bola" = Some (1%nat, m')
       /\ CircleMember.rank m' = MEMBER.
Proof.
  assert (Hfind : find_member (FitnessCircle.members ada_circle) "Bola"
                  = Some (1%nat, bola_member)) by reflexivity.
  split; [exact Hfind|].
  destruct (update_member_progress_rank_policy ada_circle "Bola" 4000 900 1
              example_world 1 bola_member Hfind)
    as (circle' & w' & m' & Heq & _ & Hfound & _ & Hfollower & _).
  exists circle', w', m'. split; [exact Heq|]. split; [exact Hfound|].
  apply Hfollower; [reflexivity|simpl; lia].
Defined.

(** Tunde cannot join a circle of two whose capacity is two. *)
Lemma join_circle_spec_witness :
  FitnessCircle.max_members (example_circle [ada_member; bola_member] 2)
    <= Z.of_nat (length (FitnessCircle.members (example_circle [ada_member; bola_member] 2)))
  /\ join_circle tunde (example_circle [ada_member; bola_member] 2) example_world
     = (Ok (false, tunde, example_circle [ada_member; bola_member] 2), example_world).
Proof.
  assert (Hfull :
    FitnessCircle.max_members (example_circle [ada_member; bola_member] 2)
    <= Z.of_nat (length (FitnessCircle.members (example_circle [ada_member; bola_member] 2))))
    by (simpl; lia).
  split; [exact Hfull|].
  apply (proj1 (join_circle_spec tunde (example_circle [ada_member; bola_member] 2)
                  example_world)).
  left. exact Hfull.
Defined.

(** Ada, a Leader of her circle, gets a one-week challenge. *)
Lemma privileged_gates_witness :
  actor_privileged ada ada_circle
  /\ end_date_representable example_world 7
  /\ exists ch w',
       create_circle_challenge ada ada_circle "Walk" "Walk daily" "steps" 10000 7 50
         example_world = (Ok (Some ch), w')
       /\ CircleChallenge.participants ch = ["Ada"; "Bola"].
Proof.
  assert (Hpriv : actor_privileged ada ada_circle).
  { exists 0%nat, ada_member. split; [reflexivity|]. simpl. left. }
  assert (Hdate : end_date_representable example_world 7).
  { unfold end_date_representable, timedelta.max_days, datetime.max_ordinal. simpl. lia. }
  split; [exact Hpriv|]. split; [exact Hdate|].
  destruct (privileged_gates ada ada_circle "Walk" "Walk daily" "steps" 10000 7 50
              [] "" "" example_world) as (_ & _ & _ & _ & _ & Hchallenge).
  destruct (Hchallenge Hpriv Hdate) as (ch & w' & Heq & _ & _ & Hparts).
  exists ch, w'. split; [exact Heq|exact Hparts].
Defined.

(** Ada's circle: 1500 points before 1200 points. *)
Lemma leaderboard_order_witness :
  NoDup (leaderboard_key <$> FitnessCircle.members ada_circle)
  /\ get_circle_leaderboard (example_circle [bola_member; ada_member] 10)
     = get_circle_leaderboard ada_circle.
Proof.
  assert (Hdistinct : NoDup (leaderboard_key <$> FitnessCircle.members ada_circle)).
  { simpl. apply NoDup_cons. split.
    - intros Hin. apply list_elem_of_singleton in Hin. discriminate.
    - apply NoDup_singleton. }
  split; [exact Hdistinct|].
  destruct (leaderboard_order ada_circle) as (_ & _ & _ & Hperm).
  apply (Hperm (example_circle [bola_member; ada_member] 10)); [|exact Hdistinct].
  simpl. apply Permutation_swap.
Defined.

(** Tunde joins Ada's circle, then Bola reports progress. *)
Lemma ranks_monotone_without_promote_witness :
  Forall (λ op, is_promote op = false) [Join tunde; UpdateProgress "Bola" 4000 900 1]
  /\ exists circle' w',
       run_ops [Join tunde; UpdateProgress "Bola" 4000 900 1] ada_circle example_world
         = (Ok circle', w')
       /\ ranks_never_decreased ada_circle circle'.
Proof.
  assert (Hops : Forall (λ op, is_promote op = false)
                   [Join tunde; UpdateProgress "Bola" 4000 900 1]).
  { apply Forall_cons. split; [reflexivity|].
    apply Forall_cons. split; [reflexivity|]. apply Forall_nil_2. }
  split; [exact Hops|].
  exact (proj1 (ranks_monotone_without_promote _ ada_circle example_world Hops)).
Defined.

(** A join that fails writes nothing. *)
Lemma mutation_frame_witness :
  exists w',
    join_circle ada ada_circle example_world = (Ok (false, ada, ada_circle), w')
    /\ w' = example_world.
Proof.
  destruct (mutation_frame ada ada_circle example_world)
    as ((ok & profile' & circle' & w' & Heq & Hfail & _) & _).
  assert (Hrun : join_circle ada ada_circle example_world
                 = (Ok (false, ada, ada_circle), example_world)) by reflexivity.
  rewrite Hrun in Heq. injection Heq as <- <- <- <-.
  exists example_world. split; [reflexivity|].
  exact (proj2 (proj2 (Hfail eq_refl))).
Defined.

(** ** Counterexamples to the claims as the specification words them *)

(** C1 as stated fails: Zed has no member record in Ada's circle and yet
    obtains a post; Ada's member record is of rank Leader and she obtains a
    post too. The gate reads the profile's rank, not the circle. *)
Lemma influencer_post_without_membership :
  find_member (FitnessCircle.members ada_circle) (FitnessProfile.name zed) = None
  /\ (create_influencer_post zed ada_circle "Keep going" "motivation" [] example_world).1
     = Ok (Some (InfluencerPost.mk "uuid-0" "Zed" "circle-1" "Keep going" "motivation" []
                   0 [] (datetime.mk 739000 (time.mk 9 0 0 0)) false))
  /\ find_member (FitnessCircle.members ada_circle) (FitnessProfile.name ada)
     = Some (0%nat, ada_member)
  /\ CircleMember.rank ada_member = LEADER
  /\ (create_influencer_post ada ada_circle "Keep going" "motivation" [] example_world).1
     = Ok (Some (InfluencerPost.mk "uuid-0" "Ada" "circle-1" "Keep going" "motivation" []
                   0 [] (datetime.mk 739000 (time.mk 9 0 0 0)) false)).
Proof. repeat split. Qed.

(** C7 as stated fails: Ada is a privileged member, and a challenge of
    1000000000 days raises OverflowError instead of returning a challenge
    (so does one of 3652059 days, whose end date lies beyond year 9999). *)
Lemma challenge_end_date_overflow :
  actor_privileged ada ada_circle
  /\ (create_circle_challenge ada ada_circle "Walk" "Walk daily" "steps" 10000
        1000000000 50 example_world).1 = Raise OverflowError
  /\ (create_circle_challenge ada ada_circle "Walk" "Walk daily" "steps" 10000
        3652059 50 example_world).1 = Raise OverflowError.
Proof.
  split; [|split; reflexivity].
  exists 0%nat, ada_member. split; [reflexivity|]. simpl. left.
Qed.

(** C8 as stated fails: Chi and Dayo have the same points and streak, and
    the leaderboard shows them in the order in which the circle stores
    them. *)
Lemma leaderboard_depends_on_stored_order :
  [dayo_member; chi_member] ≡ₚ [chi_member; dayo_member]
  /\ get_circle_leaderboard (example_circle [chi_member; dayo_member] 10)
     = [chi_member; dayo_member]
  /\ get_circle_leaderboard (example_circle [dayo_member; chi_member] 10)
     = [dayo_member; chi_member]
  /\ get_circle_leaderboard (example_circle [dayo_member; chi_member] 10)
     <> get_circle_leaderboard (example_circle [chi_member; dayo_member] 10).
Proof.
  split; [apply Permutation_swap|]. split; [reflexivity|]. split; [reflexivity|].
  discriminate.
Qed.

(** C9 as stated fails: promoting Ada, a Leader, to Follower lowers her
    rank. *)
Lemma promote_lowers_rank :
  exists circle' w',
    run_ops [Promote "Ada" FOLLOWER] ada_circle example_world = (Ok circle', w')
    /\ FitnessCircle.members ada_circle !! 0%nat = Some ada_member
    /\ FitnessCircle.members circle' !! 0%nat
       = Some (CircleMember.set_rank FOLLOWER ada_member)
    /\ ~ ranks_never_decreased ada_circle circle'.
Proof.
  eexists _, _. split; [reflexivity|]. split; [reflexivity|]. split; [reflexivity|].
  intros Hmono. destruct (Hmono 0%nat ada_member eq_refl) as (m' & Hm' & _ & Hle).
  simpl in Hm'. injection Hm' as <-. simpl in Hle. lia.
Qed.

(** C10 as stated fails: a successful join appends the circle's id to the
    profile's circles_joined, and so does circle creation. *)
Lemma join_writes_to_profile :
  (exists profile' circle' w',
     join_circle tunde ada_circle example_world = (Ok (true, profile', circle'), w')
     /\ FitnessProfile.circles_joined tunde = []
     /\ FitnessProfile.circles_joined profile' = ["circle-1"]
     /\ profile' <> tunde)
  /\ (exists created profile' w',
        create_fitness_circle tunde "Evening runners" "Run at six" WEIGHT_LOSS 100 true []
          example_world = (Ok (created, profile'), w')
        /\ FitnessProfile.circles_joined profile' = ["uuid-0"]
        /\ profile' <> tunde).
Proof.
  split.
  - eexists _, _, _. split; [vm_compute; reflexivity|].
    split; [reflexivity|]. split; [reflexivity|].
    intros Heq. apply (f_equal FitnessProfile.circles_joined) in Heq. discriminate.
  - eexists _, _, _. split; [vm_compute; reflexivity|]. split; [reflexivity|].
    intros Heq. apply (f_equal FitnessProfile.circles_joined) in Heq. discriminate.
Qed.

(** * Further properties of the code *)

(** ** Joining and creating circles *)

Lemma join_circle_refused profile circle w :
  FitnessCircle.max_members circle <= Z.of_nat (length (FitnessCircle.members circle))
  \/ FitnessProfile.name profile ∈ member_ids (FitnessCircle.members circle) ->
  join_circle profile circle w = (Ok (false, profile, circle), w).
Proof.
  intros Hwhy. unfold join_circle. case_bool_decide; [reflexivity|].
  destruct Hwhy as [?|Hin]; [done|]. by rewrite bool_decide_eq_true_2.
Qed.

Lemma join_circle_joined profile circle w :
  Z.of_nat (length (FitnessCircle.members circle)) < FitnessCircle.max_members circle ->
  FitnessProfile.name profile ∉ member_ids (FitnessCircle.members circle) ->
  join_circle profile circle w
  = (Ok (true,
         FitnessProfile.set_circles_joined
           (FitnessProfile.circles_joined profile ++ [FitnessCircle.circle_id circle])
           profile,
         FitnessCircle.set_last_activity (wall_clock w (S (clock_reads w)))
           (FitnessCircle.set_members
              (FitnessCircle.members circle
               ++ [joined_member profile (wall_clock w (clock_reads w))])
              circle)),
     after_clock_reads 2 w).
Proof.
  intros Hroom Hnew. unfold join_circle.
  rewrite bool_decide_eq_false_2 by lia. by rewrite bool_decide_eq_false_2.
Qed.

Lemma member_ids_app members members' :
  member_ids (members ++ members') = member_ids members ++ member_ids members'.
Proof. unfold member_ids. apply fmap_app. Qed.

Lemma member_ids_insert members i m m' :
  members !! i = Some m ->
  CircleMember.user_id m' = CircleMember.user_id m ->
  member_ids (<[i := m']> members) = member_ids members.
Proof.
  intros Hi Hid. unfold member_ids. rewrite list_fmap_insert, Hid.
  apply list_insert_id. by rewrite list_lookup_fmap, Hi.
Qed.

Lemma find_member_snoc members m :
  CircleMember.user_id m ∉ member_ids members ->
  find_member (members ++ [m]) (CircleMember.user_id m) = Some (length members, m).
Proof.
  intros Hnew. unfold find_member. apply list_find_Some.
  split; [by apply list_lookup_middle|]. split; [reflexivity|].
  intros j y Hj Hlt Hid. apply Hnew. rewrite <- Hid.
  rewrite lookup_app_l in Hj by done.
  unfold member_ids. apply list_elem_of_fmap. exists y. split; [done|].
  by eapply list_elem_of_lookup_2.
Qed.

Lemma not_privileged_rank profile circle i m :
  find_member (FitnessCircle.members circle) (FitnessProfile.name profile) = Some (i, m) ->
  CircleMember.rank m ∉ privileged_ranks ->
  ~ actor_privileged profile circle.
Proof.
  intros Hfind Hrank (i' & m' & Hfind' & Hin). congruence.
Qed.

(** X1. After a successful join the new member is the last of the list and
    is the record its name finds; a second join by the same profile is
    refused and changes nothing; and the new member, whatever the rank of
    its profile, is not privileged: challenge creation and accountability
    checks return None for it. *)
Theorem join_then_member
    (profile : FitnessProfile.t) (circle : FitnessCircle.t) (w : World)
    (Hroom : Z.of_nat (length (FitnessCircle.members circle))
             < FitnessCircle.max_members circle)
    (Hnew : FitnessProfile.name profile ∉ member_ids (FitnessCircle.members circle)) :
  exists profile' circle' w' new_member,
    join_circle profile circle w = (Ok (true, profile', circle'), w')
    /\ FitnessCircle.members circle' = FitnessCircle.members circle ++ [new_member]
    /\ find_member (FitnessCircle.members circle') (FitnessProfile.name profile)
       = Some (length (FitnessCircle.members circle), new_member)
    /\ (forall v, join_circle profile' circle' v = (Ok (false, profile', circle'), v))
    /\ ~ actor_privileged profile' circle'
    /\ (forall title description challenge_type target_value duration_days points_reward v,
          create_circle_challenge profile' circle' title description challenge_type
            target_value duration_days points_reward v = (Ok None, v))
    /\ (forall target_members message check_type v,
          initiate_accountability_check profile' circle' target_members message
            check_type v = (Ok None, v)).
Proof.
  eexists _, _, _, (joined_member profile (wall_clock w (clock_reads w))).
  split; [by apply join_circle_joined|]. simpl.
  split; [reflexivity|].
  assert (Hfind : find_member
                    (FitnessCircle.members circle
                     ++ [joined_member profile (wall_clock w (clock_reads w))])
                    (FitnessProfile.name profile)
                  = Some (length (FitnessCircle.members circle),
                          joined_member profile (wall_clock w (clock_reads w)))).
  { by apply (find_member_snoc _ (joined_member profile _)). }
  split; [exact Hfind|].
  split.
  { intros v. apply join_circle_refused. right. simpl.
    rewrite member_ids_app. apply elem_of_app. right. simpl. left. }
  assert (Hnot : ~ actor_privileged
                   (FitnessProfile.set_circles_joined
                      (FitnessProfile.circles_joined profile
                       ++ [FitnessCircle.circle_id circle]) profile)
                   (FitnessCircle.set_last_activity (wall_clock w (S (clock_reads w)))
                      (FitnessCircle.set_members
                         (FitnessCircle.members circle
                          ++ [joined_member profile (wall_clock w (clock_reads w))])
                         circle))).
  { eapply not_privileged_rank; [exact Hfind|]. simpl.
    case_bool_decide; compute_done. }
  split; [exact Hnot|]. split.
  - intros. by apply create_circle_challenge_unauthorized.
  - intros. by apply initiate_accountability_check_unauthorized.
Qed.

(** X2. The circle that [create_fitness_circle] returns holds one member,
    its creator, who is the record the creator's name finds. The creator is
    privileged in the new circle exactly when the creating profile is of an
    influencer tier: any other creator gets None from challenge creation
    and from accountability checks in the circle just created. And the
    creator can never join the new circle: every such join is refused. *)
Theorem creator_standing
    (profile : FitnessProfile.t) (name description : string) (circle_goal : FitnessGoal)
    (max_members : Z) (is_public : bool) (tags : list string) (w : World) :
  exists circle profile' w' creator,
    create_fitness_circle profile name description circle_goal max_members is_public
      tags w = (Ok (circle, profile'), w')
    /\ FitnessCircle.members circle = [creator]
    /\ FitnessCircle.created_by circle = FitnessProfile.name profile
    /\ find_member (FitnessCircle.members circle) (FitnessProfile.name profile')
       = Some (0%nat, creator)
    /\ (actor_privileged profile' circle
        <-> FitnessProfile.circle_rank profile ∈ influencer_ranks)
    /\ (FitnessProfile.circle_rank profile ∉ influencer_ranks ->
        forall title text challenge_type target_value duration_days points_reward
               target_members message check_type v,
          create_circle_challenge profile' circle title text challenge_type
            target_value duration_days points_reward v = (Ok None, v)
          /\ initiate_accountability_check profile' circle target_members message
               check_type v = (Ok None, v))
    /\ (forall v, join_circle profile' circle v = (Ok (false, profile', circle), v)).
Proof.
  destruct (create_fitness_circle_outcome profile name description circle_goal
              max_members is_public tags w)
    as (circle & Heq & Hcid & Hmax & creator & Hmembers & Hid & Hrank).
  eexists circle, _, _, creator. split; [exact Heq|].
  split; [exact Hmembers|].
  split.
  { revert Heq. unfold create_fitness_circle. py_simpl. by intros [= <-]. }
  assert (Hfind : find_member (FitnessCircle.members circle) (FitnessProfile.name profile)
                  = Some (0%nat, creator)).
  { rewrite Hmembers. unfold find_member. simpl.
    by rewrite decide_True. }
  split; [exact Hfind|].
  assert (Hpriv : actor_privileged
                    (FitnessProfile.set_circles_joined
                       (FitnessProfile.circles_joined profile
                        ++ [FitnessCircle.circle_id circle]) profile) circle
                  <-> FitnessProfile.circle_rank profile ∈ influencer_ranks).
  { split.
    - intros (i & m & Hfind' & Hin). simpl in Hfind'. rewrite Hfind in Hfind'.
      injection Hfind' as <- <-. rewrite Hrank in Hin.
      case_bool_decide; [done|]. revert Hin. compute_done.
    - intros Hin. exists 0%nat, creator. split; [exact Hfind|].
      rewrite Hrank, bool_decide_eq_true_2 by done. compute_done. }
  split; [exact Hpriv|]. split.
  - intros Hout title text challenge_type target_value duration_days points_reward
      target_members message check_type v.
    assert (Hnot : ~ actor_privileged
                     (FitnessProfile.set_circles_joined
                        (FitnessProfile.circles_joined profile
                         ++ [FitnessCircle.circle_id circle]) profile) circle)
      by (by rewrite Hpriv).
    split; [by apply create_circle_challenge_unauthorized
           |by apply initiate_accountability_check_unauthorized].
  - intros v. apply join_circle_refused. right. simpl. rewrite Hmembers.
    simpl. rewrite Hid. left.
Qed.

(** X3. The created circle holds its creator whatever [max_members] is: it
    is within its capacity exactly when [max_members] is at least 1, and
    when [max_members] is 1 or less (zero and negative values included)
    nobody can ever join it. *)
Theorem created_circle_capacity
    (profile : FitnessProfile.t) (name description : string) (circle_goal : FitnessGoal)
    (max_members : Z) (is_public : bool) (tags : list string) (w : World) :
  exists circle profile' w',
    create_fitness_circle profile name description circle_goal max_members is_public
      tags w = (Ok (circle, profile'), w')
    /\ length (FitnessCircle.members circle) = 1%nat
    /\ FitnessCircle.max_members circle = max_members
    /\ (circle_wf circle <-> 1 <= max_members)
    /\ (max_members <= 1 ->
        forall joiner v, join_circle joiner circle v = (Ok (false, joiner, circle), v)).
Proof.
  destruct (create_fitness_circle_outcome profile name description circle_goal
              max_members is_public tags w)
    as (circle & Heq & Hcid & Hmax & creator & Hmembers & Hid & Hrank).
  eexists circle, _, _. split; [exact Heq|].
  split; [by rewrite Hmembers|]. split; [exact Hmax|]. split.
  - unfold circle_wf. rewrite Hmembers, Hmax. simpl. split; [intros [_ ?]; lia|].
    intros Hle. split; [apply NoDup_singleton|lia].
  - intros Hle joiner v. apply join_circle_refused. left.
    rewrite Hmembers, Hmax. simpl. lia.
Qed.

(** ** Invariants of the registry *)

Lemma run_op_keeps_wf op circle w :
  circle_wf circle ->
  exists circle' w',
    run_op op circle w = (Ok circle', w')
    /\ circle_wf circle'
    /\ FitnessCircle.max_members circle' = FitnessCircle.max_members circle
    /\ FitnessCircle.circle_id circle' = FitnessCircle.circle_id circle
    /\ member_ids (FitnessCircle.members circle)
         `prefix_of` member_ids (FitnessCircle.members circle').
Proof.
  intros [Hdistinct Hcap].
  assert (Hsame : forall a ms,
            member_ids ms = member_ids (FitnessCircle.members circle) ->
            length ms = length (FitnessCircle.members circle) ->
            let circle' :=
              FitnessCircle.set_last_activity a (FitnessCircle.set_members ms circle) in
            circle_wf circle'
            /\ FitnessCircle.max_members circle' = FitnessCircle.max_members circle
            /\ FitnessCircle.circle_id circle' = FitnessCircle.circle_id circle
            /\ member_ids (FitnessCircle.members circle)
                 `prefix_of` member_ids (FitnessCircle.members circle')).
  { intros a ms Hids Hlen circle'. subst circle'. unfold circle_wf.
    cbn [FitnessCircle.members FitnessCircle.set_last_activity FitnessCircle.set_members
         FitnessCircle.max_members FitnessCircle.circle_id].
    rewrite Hids, Hlen. by repeat split. }
  destruct op as [profile|member_id new_rank|member_id steps cal workouts];
    cbn [run_op]; unfold bind.
  - destruct (decide (FitnessCircle.max_members circle
                      <= Z.of_nat (length (FitnessCircle.members circle))
                      \/ FitnessProfile.name profile
                         ∈ member_ids (FitnessCircle.members circle))) as [Hno|Hyes].
    + rewrite (join_circle_refused _ _ _ Hno). eexists _, _.
      split; [reflexivity|]. by repeat split.
    + rewrite join_circle_joined by (lia || tauto). eexists _, _.
      split; [reflexivity|]. unfold circle_wf.
      cbn [ret fst snd FitnessCircle.members FitnessCircle.set_last_activity
           FitnessCircle.set_members FitnessCircle.max_members FitnessCircle.circle_id].
      rewrite member_ids_app, length_app.
      split; [|split; [done|split; [done|by eexists]]].
      split.
      * apply NoDup_app. split; [done|]. split.
        -- intros x Hx Hx'. apply list_elem_of_singleton in Hx'. subst x. tauto.
        -- apply NoDup_singleton.
      * simpl. lia.
  - destruct (find_member (FitnessCircle.members circle) member_id) as [[i m]|] eqn:Hfind.
    + rewrite (promote_member_rank_found _ _ _ _ _ _ Hfind).
      apply find_member_Some in Hfind as [Hi _].
      eexists _, _. split; [reflexivity|]. apply Hsame.
      * by apply (member_ids_insert _ _ m).
      * apply length_insert.
    + rewrite (promote_member_rank_missing _ _ _ _ Hfind).
      eexists _, _. split; [reflexivity|]. by repeat split.
  - destruct (find_member (FitnessCircle.members circle) member_id) as [[i m]|] eqn:Hfind.
    + rewrite (update_member_progress_found _ _ _ _ _ _ _ _ Hfind).
      apply find_member_Some in Hfind as [Hi _].
      eexists _, _. split; [reflexivity|]. apply Hsame.
      * by apply (member_ids_insert _ _ m).
      * apply length_insert.
    + rewrite (update_member_progress_missing _ _ _ _ _ _ Hfind).
      eexists _, _. split; [reflexivity|]. by repeat split.
Qed.

(** X4. A circle whose user ids are pairwise distinct and whose members
    number at most [max_members] stays so under every sequence of join,
    promote and update_progress; no such sequence raises, changes
    [max_members] or the circle id, or removes or renames a member: the
    list of user ids only grows at its end. *)
Theorem registry_keeps_invariants
    (ops : list RegistryOp) (circle : FitnessCircle.t) (w : World)
    (Hwf : circle_wf circle) :
  exists circle' w',
    run_ops ops circle w = (Ok circle', w')
    /\ circle_wf circle'
    /\ FitnessCircle.max_members circle' = FitnessCircle.max_members circle
    /\ FitnessCircle.circle_id circle' = FitnessCircle.circle_id circle
    /\ member_ids (FitnessCircle.members circle)
         `prefix_of` member_ids (FitnessCircle.members circle').
Proof.
  revert circle w Hwf. induction ops as [|op ops IH]; intros circle w Hwf.
  - exists circle, w. split; [reflexivity|]. split; [exact Hwf|]. by repeat split.
  - destruct (run_op_keeps_wf op circle w Hwf)
      as (c1 & w1 & Hrun & Hwf1 & Hmax1 & Hid1 & Hpre1).
    destruct (IH c1 w1 Hwf1) as (c2 & w2 & Hrest & Hwf2 & Hmax2 & Hid2 & Hpre2).
    exists c2, w2. split; [simpl; unfold bind; by rewrite Hrun|].
    split; [exact Hwf2|]. split; [congruence|]. split; [congruence|].
    by etrans.
Qed.

(** ** Repeated progress updates *)

Lemma rank_after_succ n r streak points :
  rank_after (S n) r streak points = rank_after n (next_rank r streak points) streak points.
Proof.
  unfold rank_after. induction n as [|n IH]; [reflexivity|].
  simpl in *. by rewrite IH.
Qed.

Lemma next_rank_settled r streak points :
  next_rank (rank_after 2 r streak points) streak points = rank_after 2 r streak points.
Proof.
  unfold rank_after. simpl. unfold next_rank.
  repeat case_bool_decide; try reflexivity;
    repeat match goal with
           | H : _ /\ _ |- _ => destruct H
           | H : ~ (_ /\ _) |- _ => apply not_and_l in H as [?|?]
           end; try congruence; try lia.
Qed.

Lemma rank_after_settles n r streak points :
  (2 <= n)%nat -> rank_after n r streak points = rank_after 2 r streak points.
Proof.
  induction 1 as [|n Hle IH]; [reflexivity|].
  unfold rank_after in *. simpl in *. rewrite IH. apply next_rank_settled.
Qed.

Lemma repeat_update_progress_rank n :
  forall circle member_id steps cal workouts w i m,
    find_member (FitnessCircle.members circle) member_id = Some (i, m) ->
    exists circle' w' m',
      repeat_update_progress n circle member_id steps cal workouts w = (Ok circle', w')
      /\ find_member (FitnessCircle.members circle') member_id = Some (i, m')
      /\ CircleMember.rank m' =
           rank_after n (CircleMember.rank m) (CircleMember.current_streak m)
             (CircleMember.total_points m)
      /\ CircleMember.current_streak m' = CircleMember.current_streak m
      /\ CircleMember.total_points m' = CircleMember.total_points m.
Proof.
  induction n as [|n IH]; intros circle member_id steps cal workouts w i m Hfind.
  - exists circle, w, m. by repeat split.
  - cbn [repeat_update_progress]. unfold bind at 1.
    rewrite (update_member_progress_found _ _ _ _ _ _ _ _ Hfind). cbn [snd].
    edestruct (IH (FitnessCircle.set_last_activity (wall_clock w (S (clock_reads w)))
                     (FitnessCircle.set_members
                        (<[i := progressed (wall_clock w (clock_reads w)) m]>
                           (FitnessCircle.members circle)) circle))
                 member_id steps cal workouts (after_clock_reads 2 w) i
                 (progressed (wall_clock w (clock_reads w)) m))
      as (c' & w' & m' & Hrun & Hfound & Hrank & Hstreak & Hpoints).
    { simpl. by eapply find_member_insert_same_id. }
    exists c', w', m'. split; [exact Hrun|]. split; [exact Hfound|].
    split; [|split; [exact Hstreak|exact Hpoints]].
    rewrite Hrank, rank_after_succ. reflexivity.
Qed.

(** X5. Calling [update_member_progress] again and again on the same member
    settles its rank after two calls: from the second call on the rank is
    the Rank Policy applied twice. So a Follower with a streak of 7 and
    1000 points is a Leader after two calls, not one; a Follower whose
    streak is below 7 stays a Follower whatever its points; and Leaders and
    the influencer tiers are never changed. *)
Theorem progress_settles_in_two_calls
    (n : nat) (circle : FitnessCircle.t) (member_id : string) (steps cal workouts : Z)
    (w : World) (i : nat) (m : CircleMember.t)
    (Hfind : find_member (FitnessCircle.members circle) member_id = Some (i, m))
    (Hn : (2 <= n)%nat) :
  exists circle' w' m',
    repeat_update_progress n circle member_id steps cal workouts w = (Ok circle', w')
    /\ find_member (FitnessCircle.members circle') member_id = Some (i, m')
    /\ CircleMember.rank m' =
         next_rank
           (next_rank (CircleMember.rank m) (CircleMember.current_streak m)
              (CircleMember.total_points m))
           (CircleMember.current_streak m) (CircleMember.total_points m)
    /\ (CircleMember.rank m = FOLLOWER -> 7 <= CircleMember.current_streak m ->
        1000 <= CircleMember.total_points m -> CircleMember.rank m' = LEADER)
    /\ (CircleMember.rank m = FOLLOWER -> 7 <= CircleMember.current_streak m ->
        CircleMember.total_points m < 1000 -> CircleMember.rank m' = MEMBER)
    /\ (CircleMember.rank m = FOLLOWER -> CircleMember.current_streak m < 7 ->
        CircleMember.rank m' = FOLLOWER)
    /\ ((2 <= rank_level (CircleMember.rank m))%nat ->
        CircleMember.rank m' = CircleMember.rank m).
Proof.
  destruct (repeat_update_progress_rank n circle member_id steps cal workouts w i m Hfind)
    as (circle' & w' & m' & Hrun & Hfound & Hrank & _).
  rewrite rank_after_settles in Hrank by exact Hn.
  exists circle', w', m'. split; [exact Hrun|]. split; [exact Hfound|].
  split; [exact Hrank|]. rewrite Hrank. unfold rank_after. simpl. unfold next_rank.
  split; [|split; [|split]].
  - intros Hr Hs Hp. rewrite Hr.
    repeat case_bool_decide; try reflexivity; exfalso; intuition (congruence || lia).
  - intros Hr Hs Hp. rewrite Hr.
    repeat case_bool_decide; try reflexivity; exfalso; intuition (congruence || lia).
  - intros Hr Hs. rewrite Hr.
    repeat case_bool_decide; try reflexivity; exfalso; intuition (congruence || lia).
  - intros Hlevel. destruct (CircleMember.rank m); simpl in Hlevel; try lia;
      repeat case_bool_decide; try reflexivity; exfalso; intuition (congruence || lia).
Qed.

(** ** Promotion and the gates *)

(** X6. What [promote_member_rank] writes decides the gates from then on,
    whatever the member's rank, streak and points were: after a promotion
    to Leader or an influencer tier the member gets an accountability
    check; after one to Follower or Member both challenge creation and
    accountability checks return None. *)
Theorem promotion_decides_the_gates
    (profile : FitnessProfile.t) (circle : FitnessCircle.t) (new_rank : CircleRank)
    (w : World) (i : nat) (m : CircleMember.t)
    (Hfind : find_member (FitnessCircle.members circle) (FitnessProfile.name profile)
             = Some (i, m)) :
  exists circle' w',
    promote_member_rank circle (FitnessProfile.name profile) new_rank w
      = (Ok (true, circle'), w')
    /\ (actor_privileged profile circle' <-> new_rank ∈ privileged_ranks)
    /\ (new_rank ∈ privileged_ranks ->
        forall target_members message check_type v,
        exists chk v',
          initiate_accountability_check profile circle' target_members message
            check_type v = (Ok (Some chk), v'))
    /\ (new_rank ∉ privileged_ranks ->
        forall title description challenge_type target_value duration_days points_reward
               target_members message check_type v,
          create_circle_challenge profile circle' title description challenge_type
            target_value duration_days points_reward v = (Ok None, v)
          /\ initiate_accountability_check profile circle' target_members message
               check_type v = (Ok None, v)).
Proof.
  eexists _, _. split; [by apply promote_member_rank_found|].
  set (circle' := FitnessCircle.set_last_activity _ _).
  assert (Hfind' : find_member (FitnessCircle.members circle') (FitnessProfile.name profile)
                   = Some (i, CircleMember.set_rank new_rank m)).
  { subst circle'. simpl. by eapply find_member_insert_same_id. }
  assert (Hpriv : actor_privileged profile circle' <-> new_rank ∈ privileged_ranks).
  { split.
    - intros (i' & m' & Heq & Hin). rewrite Hfind' in Heq. by injection Heq as <- <-.
    - intros Hin. by exists i, (CircleMember.set_rank new_rank m). }
  split; [exact Hpriv|]. split.
  - intros Hin target_members message check_type v.
    unfold initiate_accountability_check. rewrite Hfind'. simpl.
    rewrite bool_decide_eq_false_2 by (intros Hout; by apply Hout).
    py_simpl. by eexists _, _.
  - intros Hout title description challenge_type target_value duration_days points_reward
      target_members message check_type v.
    assert (Hnot : ~ actor_privileged profile circle') by (by rewrite Hpriv).
    split; [by apply create_circle_challenge_unauthorized
           |by apply initiate_accountability_check_unauthorized].
Qed.

(** ** More on the leaderboard *)

Lemma insert_desc_front {A : Type} (key : A -> Z * Z) (x : A) (l : list A) :
  Forall (desc_by key x) l -> insert_desc key x l = x :: l.
Proof.
  destruct 1 as [|y l Hxy _]; [reflexivity|]. simpl.
  unfold desc_by in Hxy. by rewrite Hxy.
Qed.

Lemma sorted_desc_fixed {A : Type} (key : A -> Z * Z) (l : list A) :
  StronglySorted (desc_by key) l -> sorted_desc key l = l.
Proof.
  induction 1 as [|x l Hl IH Hx]; [reflexivity|].
  unfold sorted_desc in *. simpl. rewrite IH. by apply insert_desc_front.
Qed.

(** X7. The leaderboard has as many entries as the circle has members and
    is empty only for an empty circle; its first entry has the most points
    of all members and, among those with as many points, the longest
    streak; and a circle stored in leaderboard order has itself as
    leaderboard. *)
Theorem leaderboard_top_and_fixpoint (circle : FitnessCircle.t) :
  let board := get_circle_leaderboard circle in
  length board = length (FitnessCircle.members circle)
  /\ (board = [] <-> FitnessCircle.members circle = [])
  /\ (forall top rest, board = top :: rest ->
      forall m, m ∈ FitnessCircle.members circle ->
        CircleMember.total_points m < CircleMember.total_points top
        \/ (CircleMember.total_points m = CircleMember.total_points top
            /\ CircleMember.current_streak m <= CircleMember.current_streak top))
  /\ get_circle_leaderboard (FitnessCircle.set_members board circle) = board.
Proof.
  intros board. subst board. unfold get_circle_leaderboard.
  pose proof (sorted_desc_perm leaderboard_key (FitnessCircle.members circle)) as Hperm.
  pose proof (sorted_desc_sorted leaderboard_key (FitnessCircle.members circle)) as Hsorted.
  split; [by apply Permutation_length|].
  split.
  { split; intros Hnil.
    - rewrite Hnil in Hperm. symmetry. by apply Permutation_nil_l.
    - by rewrite Hnil. }
  split.
  - intros top rest Hboard m Hm. rewrite <- Hperm, Hboard in Hm.
    rewrite Hboard in Hsorted. apply StronglySorted_inv in Hsorted as [_ Hrest].
    apply elem_of_cons in Hm as [->|Hm]; [right; split; [reflexivity|lia]|].
    rewrite Forall_forall in Hrest. specialize (Hrest m Hm).
    apply ranks_before_desc in Hrest. unfold ranks_before in Hrest.
    destruct Hrest as [?|[? ?]]; [by left|right; split; [congruence|lia]].
  - simpl. by apply sorted_desc_fixed.
Qed.

(** ** Accountability checks and challenges *)

Lemma actor_privileged_member_id profile circle :
  actor_privileged profile circle ->
  FitnessProfile.name profile ∈ member_ids (FitnessCircle.members circle).
Proof.
  intros (i & m & Hfind & _). apply find_member_is_Some. by eexists.
Qed.

(** X8. The targets of an accountability check are listed in the order of
    the circle's member list, not of the request: they form a sublist of
    the member ids, so there are never more targets than members; in a
    circle with pairwise distinct user ids no target occurs twice, however
    often the request names it; and a request that names no member still
    yields a check, with no targets. *)
Theorem accountability_targets
    (profile : FitnessProfile.t) (circle : FitnessCircle.t)
    (target_members : list string) (message check_type : string) (w : World)
    (Hpriv : actor_privileged profile circle) :
  exists chk w',
    initiate_accountability_check profile circle target_members message check_type w
      = (Ok (Some chk), w')
    /\ AccountabilityCheck.target_members chk
         `sublist_of` member_ids (FitnessCircle.members circle)
    /\ (length (AccountabilityCheck.target_members chk)
        <= length (FitnessCircle.members circle))%nat
    /\ (NoDup (member_ids (FitnessCircle.members circle)) ->
        NoDup (AccountabilityCheck.target_members chk))
    /\ ((forall x, x ∈ target_members -> x ∉ member_ids (FitnessCircle.members circle)) ->
        AccountabilityCheck.target_members chk = [])
    /\ AccountabilityCheck.responses chk = ∅
    /\ AccountabilityCheck.is_completed chk = false.
Proof.
  destruct Hpriv as (i & m & Hfind & Hin).
  unfold initiate_accountability_check. rewrite Hfind.
  rewrite bool_decide_eq_false_2 by (intros Hout; by apply Hout).
  py_simpl. eexists _, _. split; [reflexivity|]. simpl.
  set (valid := CircleMember.user_id <$> filter _ (FitnessCircle.members circle)).
  assert (Hsub : valid `sublist_of` member_ids (FitnessCircle.members circle)).
  { subst valid. unfold member_ids. apply fmap_sublist, sublist_filter. }
  split; [exact Hsub|]. split.
  { apply sublist_length in Hsub. unfold member_ids in Hsub.
    by rewrite length_fmap in Hsub. }
  split; [intros Hdistinct; by eapply sublist_NoDup|].
  split; [|by split].
  intros Hnone. destruct valid as [|x valid'] eqn:Hvalid; [reflexivity|].
  exfalso. assert (Hx : x ∈ valid) by (rewrite Hvalid; left).
  subst valid. apply valid_targets_spec in Hx as [Hreq Hmem]. by apply (Hnone x).
Qed.

(** X9. A challenge's start date is the first clock reading of the call
    and its end date is the second reading moved by [duration_days] days,
    the time of day kept: the two dates are [duration_days] days apart
    only when both readings fall on the same day. The creator is among the
    participants, who are all the members. No bound below is put on
    [duration_days]: zero and negative durations yield an active challenge
    that ends no later than the day it was created. *)
Theorem challenge_dates
    (profile : FitnessProfile.t) (circle : FitnessCircle.t)
    (title description challenge_type : string)
    (target_value duration_days points_reward : Z) (w : World)
    (Hpriv : actor_privileged profile circle)
    (Hdate : end_date_representable w duration_days) :
  let first := wall_clock w (clock_reads w) in
  let second := wall_clock w (S (clock_reads w)) in
  exists ch w',
    create_circle_challenge profile circle title description challenge_type
      target_value duration_days points_reward w = (Ok (Some ch), w')
    /\ CircleChallenge.start_date ch = first
    /\ CircleChallenge.end_date ch
       = datetime.mk (datetime.ordinal second + duration_days) (datetime.time_of_day second)
    /\ (datetime.ordinal second = datetime.ordinal first ->
        datetime.ordinal (CircleChallenge.end_date ch)
        = datetime.ordinal (CircleChallenge.start_date ch) + duration_days)
    /\ (duration_days <= 0 ->
        CircleChallenge.is_active ch = true
        /\ datetime.ordinal (CircleChallenge.end_date ch) <= datetime.ordinal second)
    /\ FitnessProfile.name profile ∈ CircleChallenge.participants ch
    /\ length (CircleChallenge.participants ch) = length (FitnessCircle.members circle)
    /\ CircleChallenge.completed_by ch = []
    /\ clock_reads w' = S (S (clock_reads w))
    /\ uuids_drawn w' = S (uuids_drawn w).
Proof.
  intros first second. destruct Hdate as [Hdays Hrange].
  rewrite create_circle_challenge_authorized by done. py_simpl.
  unfold timedelta.of_days. rewrite bool_decide_eq_true_2 by exact Hdays. simpl.
  unfold datetime.add. simpl. rewrite bool_decide_eq_true_2 by exact Hrange.
  eexists _, _. split; [reflexivity|]. simpl.
  split; [reflexivity|]. split; [reflexivity|].
  split; [intros Hsame; subst first second; simpl in *; lia|].
  split; [intros Hneg; split; [reflexivity|subst second; simpl; lia]|].
  split; [by apply actor_privileged_member_id|].
  split; [unfold member_ids; by rewrite length_fmap|]. by repeat split.
Qed.

(** ** More on the selector and its rules *)

Lemma check_calorie_progress_value profile tracking w w' :
  (check_calorie_progress profile tracking w).1
  = (check_calorie_progress profile tracking w').1.
Proof.
  unfold check_calorie_progress. case_bool_decide; [|reflexivity].
  unfold bind, lift. destruct (pyfloat.int_mul _ _); [|reflexivity].
  by destruct (pyfloat.int_gt _ _).
Qed.

Lemma check_calorie_progress_raises profile tracking w e :
  (check_calorie_progress profile tracking w).1 = Raise e <->
  FitnessProfile.fitness_goal profile = WEIGHT_LOSS
  /\ pyfloat.int_mul (DailyTracking.calories_goal tracking) pyfloat.lit_0_8 = Raise e.
Proof.
  destruct (decide (FitnessProfile.fitness_goal profile = WEIGHT_LOSS)) as [Hgoal|Hgoal].
  - rewrite (check_calorie_progress_weight_loss _ _ _ Hgoal).
    destruct (pyfloat.int_mul _ _) as [f|e']; simpl.
    + destruct (pyfloat.int_gt _ _); simpl; split; (discriminate || intros [_ ?]; discriminate).
    + split; [by intros [= ->]|by intros [_ [= ->]]].
  - rewrite (check_calorie_progress_other_goal _ _ _ Hgoal). simpl.
    split; [discriminate|by intros [? _]].
Qed.

(** X10. The selector never returns None: it returns a notification or it
    raises. It raises in three cases only: with TypeError when the
    snapshot's own current_time is aware, since the step rule compares it
    with the naive [time(12, 0)] before anything else, and then nothing is
    read or called; where the calorie rule raises (a weight-loss profile
    whose calorie goal is too large to convert to a float); or where the
    generative agent fails. If none of the three can happen, a notification
    is returned for every profile and snapshot. *)
Theorem selector_never_none
    (profile : FitnessProfile.t) (tracking : DailyTracking.t) (w : World) :
  let selected := get_contextual_notification profile tracking w in
  selected.1 <> Ok None
  /\ (forall e, selected.1 = Raise e ->
        (e = TypeError /\ snapshot_offset tracking <> None)
        \/ (FitnessProfile.fitness_goal profile = WEIGHT_LOSS
            /\ pyfloat.int_mul (DailyTracking.calories_goal tracking) pyfloat.lit_0_8
               = Raise e)
        \/ agent_reply w (length (agent_calls w)) profile tracking = Raise e)
  /\ (snapshot_offset tracking <> None -> selected = (Raise TypeError, w))
  /\ (snapshot_offset tracking = None ->
      (FitnessProfile.fitness_goal profile <> WEIGHT_LOSS
       \/ exists f, pyfloat.int_mul (DailyTracking.calories_goal tracking) pyfloat.lit_0_8
                    = Ok f) ->
      (exists reply, agent_reply w (length (agent_calls w)) profile tracking = Ok reply) ->
      exists n, selected.1 = Ok (Some n)).
Proof.
  intros selected. subst selected.
  destruct (selector_cases profile tracking w)
    as (r1 & r2 & r3 & _ & _ & Hcal & Hnaive & Haware & ->).
  set (w2 := after_time_read tracking (after_time_read tracking w)) in *.
  assert (Hcalls : agent_calls w2 = agent_calls w).
  { subst w2. by rewrite !after_time_read_agent_calls. }
  assert (Hreply : agent_reply w2 = agent_reply w).
  { subst w2. by rewrite !after_time_read_agent_reply. }
  assert (Hr3 : forall e, r3 = Raise e <->
            FitnessProfile.fitness_goal profile = WEIGHT_LOSS
            /\ pyfloat.int_mul (DailyTracking.calories_goal tracking) pyfloat.lit_0_8
               = Raise e).
  { intros e. rewrite <- (check_calorie_progress_raises profile tracking w2 e).
    by rewrite Hcal. }
  rewrite Hreply, Hcalls.
  destruct (snapshot_offset tracking) as [off|] eqn:Hoff.
  - rewrite Haware by done.
    assert (Hsame : after_time_read tracking w = w).
    { unfold after_time_read. unfold snapshot_offset in Hoff.
      by destruct (DailyTracking.current_time tracking). }
    rewrite Hsame. split; [done|]. split; [intros e [= <-]; by left|].
    split; [done|]. done.
  - destruct (Hnaive eq_refl) as [[o1 ->] [o2 ->]]. clear Hnaive Haware.
    destruct o1 as [n1|]; [by repeat split; eauto|].
    destruct o2 as [n2|]; [by repeat split; eauto|].
    destruct r3 as [[n3|]|e3]; simpl.
    + by repeat split; eauto.
    + destruct (agent_reply w _ profile tracking) as [reply|e] eqn:Hagent; simpl.
      * by repeat split; eauto.
      * split; [done|]. split; [intros e' [= ->]; right; by right|].
        split; [done|]. intros _ _ [reply ?]. discriminate.
    + split; [done|]. split; [intros e' [= ->]; right; left; by apply Hr3|].
      split; [done|]. intros _ [Hgoal|[f Hf]] _.
      * exfalso. by destruct (proj1 (Hr3 e3) eq_refl).
      * exfalso. destruct (proj1 (Hr3 e3) eq_refl) as [_ Hraise]. congruence.
Qed.

Lemma time_ltb_hour (t : time.t) (h : Z) :
  time_fields_nonneg t -> (time.ltb t (time.mk h 0 0 0) = true <-> time.hour t < h).
Proof.
  intros (Hm & Hs & Hu). unfold time.ltb. destruct t as [th tm ts tu]. simpl in *.
  rewrite !orb_true_iff, !andb_true_iff, !orb_true_iff, !andb_true_iff,
    !orb_true_iff, !andb_true_iff, !Z.ltb_lt, !Z.eqb_eq. lia.
Qed.

(** X11. On a snapshot whose own current_time is aware the meal rule
    raises TypeError, whatever meals are logged: the comparison with the
    naive [time(10, 0)] comes first. Otherwise it does not raise, and it
    returns None exactly when it is before 10:00, or breakfast is logged
    and either it is before 14:00 or lunch is logged too. Whatever it
    returns is a meal reminder of urgency medium with the breakfast or the
    lunch text, carrying the logged meals in its context: no other meal is
    ever asked for. The rule does not look at the profile; and for a time
    of day with proper fields, being before 10:00 or 14:00 is a matter of
    the hour alone. *)
Theorem meal_rule_table
    (profile : FitnessProfile.t) (tracking : DailyTracking.t) (w : World) :
  let t := seen_time tracking w in
  let meals := DailyTracking.meals_logged tracking in
  let outcome := (check_meal_logging profile tracking w).1 in
  (forall e, outcome = Raise e <-> e = TypeError /\ snapshot_offset tracking <> None)
  /\ (outcome = Ok None <->
       snapshot_offset tracking = None
       /\ (time.ltb t (time.mk 10 0 0 0) = true
           \/ ("breakfast" ∈ meals
               /\ (time.ltb t (time.mk 14 0 0 0) = true \/ "lunch" ∈ meals))))
  /\ (forall n, outcome = Ok (Some n) ->
        snapshot_offset tracking = None
        /\ BehavioralNotification.notification_type n = MEAL_REMINDER
        /\ BehavioralNotification.urgency n = "medium"
        /\ (BehavioralNotification.message n
            = "🍳 Haven't logged breakfast yet? Starting your day with a balanced meal helps maintain your metabolism and energy levels!"
            \/ BehavioralNotification.message n
               = "🥗 Time for lunch! Don't skip meals - it can lead to overeating later. Aim for protein and veggies to stay on track with your goals.")
        /\ BehavioralNotification.context n !! "meals_logged" = Some (PyStrList meals))
  /\ (forall profile' : FitnessProfile.t,
        check_meal_logging profile' tracking w = check_meal_logging profile tracking w)
  /\ (time_fields_nonneg t ->
        (time.ltb t (time.mk 10 0 0 0) = true <-> time.hour t < 10)
        /\ (time.ltb t (time.mk 14 0 0 0) = true <-> time.hour t < 14)).
Proof.
  intros t meals outcome. subst outcome.
  pose proof (check_meal_logging_run profile tracking w) as Hrun.
  rewrite !time_ge_literal, seen_time_offset in Hrun. fold t meals in Hrun.
  assert (Hmono : time.ltb t (time.mk 10 0 0 0) = true ->
                  time.ltb t (time.mk 14 0 0 0) = true).
  { intros Hten. destruct (time.ltb t (time.mk 14 0 0 0)) eqn:Htwo; [done|].
    pose proof (time_geb_two_ten t) as Hgeb. unfold time.geb in Hgeb.
    rewrite Htwo, Hten in Hgeb. simpl in Hgeb. by specialize (Hgeb eq_refl). }
  split; [|split; [|split; [|split]]].
  - intros e. rewrite Hrun. cbn [fst].
    destruct (snapshot_offset tracking) as [off|].
    + split; [by intros [= <-]|by intros [-> _]].
    + split; [|by intros [_ ?]].
      destruct (_ && _); [discriminate|]. by destruct (_ && _).
  - rewrite Hrun. cbn [fst].
    destruct (snapshot_offset tracking) as [off|]; [split; [discriminate|by intros [? _]]|].
    unfold time.geb. destruct (time.ltb t (time.mk 10 0 0 0)) eqn:Hten; simpl.
    + rewrite (Hmono eq_refl). simpl. split; [intros _; split; [done|by left]|done].
    + destruct (decide ("breakfast" ∈ meals)) as [Hb|Hb].
      * rewrite (bool_decide_eq_false_2 ("breakfast" ∉ meals))
          by (intros Hout; by apply Hout).
        destruct (time.ltb t (time.mk 14 0 0 0)) eqn:Htwo; simpl.
        -- split; [intros _; split; [done|]; right; split; [done|by left]|done].
        -- destruct (decide ("lunch" ∈ meals)) as [Hl|Hl].
           ++ rewrite bool_decide_eq_false_2 by (intros Hout; by apply Hout). simpl.
              split; [intros _; split; [done|]; right; split; [done|by right]|done].
           ++ rewrite bool_decide_eq_true_2 by done. simpl.
              split; [discriminate|]. intros [_ [?|[_ [?|?]]]]; done.
      * rewrite bool_decide_eq_true_2 by done. simpl.
        split; [discriminate|]. intros [_ [?|[? _]]]; done.
  - intros n. rewrite Hrun. cbn [fst].
    destruct (snapshot_offset tracking) as [off|]; [discriminate|].
    destruct (_ && _); simpl.
    + intros [= <-]. simpl. split; [done|]. split; [done|]. split; [done|].
      split; [by left|]. apply lookup_insert_eq.
    + destruct (_ && _); simpl; [|discriminate].
      intros [= <-]. simpl. split; [done|]. split; [done|]. split; [done|].
      split; [by right|]. apply lookup_insert_eq.
  - reflexivity.
  - intros Hfields. split; by apply time_ltb_hour.
Qed.

Lemma check_step_progress_value profile tracking w w' :
  seen_time tracking w = seen_time tracking w' ->
  (check_step_progress profile tracking w).1 = (check_step_progress profile tracking w').1.
Proof.
  intros Hseen. rewrite !check_step_progress_run. cbn [fst]. by rewrite Hseen.
Qed.

Lemma check_meal_logging_value profile tracking w w' :
  seen_time tracking w = seen_time tracking w' ->
  (check_meal_logging profile tracking w).1 = (check_meal_logging profile tracking w').1.
Proof.
  intros Hseen. rewrite !check_meal_logging_run. cbn [fst]. by rewrite Hseen.
Qed.

Lemma after_time_read_clock tracking w :
  wall_clock (after_time_read tracking w) = wall_clock w
  /\ uuids_drawn (after_time_read tracking w) = uuids_drawn w
  /\ clock_reads (after_time_read tracking w)
     = match DailyTracking.current_time tracking with
       | Some _ => clock_reads w
       | None => S (clock_reads w)
       end.
Proof. unfold after_time_read. by destruct (DailyTracking.current_time tracking). Qed.

(** X12. The selector draws no UUID. With a snapshot that carries its
    current_time it does not read the clock either, and what it returns is
    the same in any two runtimes whose agent would answer alike. With a
    snapshot that carries none, each rule that runs reads the clock for
    itself: once if the step rule fires, otherwise twice, the meal rule
    working with the second reading. *)
Theorem selector_clock_use
    (profile : FitnessProfile.t) (tracking : DailyTracking.t) (w : World) :
  let selected := get_contextual_notification profile tracking w in
  uuids_drawn selected.2 = uuids_drawn w
  /\ wall_clock selected.2 = wall_clock w
  /\ (forall t, DailyTracking.current_time tracking = Some t ->
        clock_reads selected.2 = clock_reads w
        /\ forall w' : World,
             agent_reply w' (length (agent_calls w')) profile tracking
             = agent_reply w (length (agent_calls w)) profile tracking ->
             (get_contextual_notification profile tracking w').1 = selected.1)
  /\ (DailyTracking.current_time tracking = None ->
        (check_meal_logging profile tracking (check_step_progress profile tracking w).2).1
        = (check_meal_logging profile tracking (after_clock_reads 1 w)).1
        /\ clock_reads selected.2
           = if time.geb (datetime.time (wall_clock w (clock_reads w))) (time.mk 12 0 0 0)
                && bool_decide (DailyTracking.steps_taken tracking < 2000)
             then S (clock_reads w) else S (S (clock_reads w))).
Proof.
  intros selected. subst selected.
  destruct (selector_cases profile tracking w)
    as (r1 & r2 & r3 & Hstep & Hmeal & Hcal & _ & _ & Hsel).
  rewrite Hsel.
  set (w1 := after_time_read tracking w) in *.
  set (w2 := after_time_read tracking w1) in *.
  destruct (after_time_read_clock tracking w) as (Hc1 & Hu1 & Hr1).
  destruct (after_time_read_clock tracking w1) as (Hc2 & Hu2 & Hr2).
  fold w1 in Hc1, Hu1, Hr1. fold w2 in Hc2, Hu2, Hr2.
  assert (Hfinal : forall (out : Exc (option BehavioralNotification.t) * World),
            out =
                  match r1 with
                  | Ok (Some n) => (Ok (Some n), w1)
                  | Raise e => (Raise e, w1)
                  | Ok None =>
                      match r2 with
                      | Ok (Some n) => (Ok (Some n), w2)
                      | Raise e => (Raise e, w2)
                      | Ok None =>
                          match r3 with
                          | Ok (Some n) => (Ok (Some n), w2)
                          | Raise e => (Raise e, w2)
                          | Ok None =>
                              match agent_reply w2 (length (agent_calls w2)) profile tracking with
                              | Ok n =>
                                  (Ok (Some n),
                                   mkWorld (wall_clock w2) (clock_reads w2) (uuid_source w2)
                                     (uuids_drawn w2) (agent_reply w2)
                                     (agent_calls w2 ++ [(profile, tracking)]))
                              | Raise e =>
                                  (Raise e,
                                   mkWorld (wall_clock w2) (clock_reads w2) (uuid_source w2)
                                     (uuids_drawn w2) (agent_reply w2)
                                     (agent_calls w2 ++ [(profile, tracking)]))
                              end
                          end
                      end
                  end ->
            uuids_drawn out.2 = uuids_drawn w
            /\ wall_clock out.2 = wall_clock w
            /\ clock_reads out.2 = match r1 with
                                   | Ok None => clock_reads w2
                                   | _ => clock_reads w1
                                   end).
  { intros out ->. destruct r1 as [[n1|]|e1]; [cbn [snd]; by rewrite Hu1, Hc1| |
                                               cbn [snd]; by rewrite Hu1, Hc1].
    destruct r2 as [[n2|]|e2]; [cbn [snd]; by rewrite Hu2, Hc2, Hu1, Hc1| |
                                cbn [snd]; by rewrite Hu2, Hc2, Hu1, Hc1].
    destruct r3 as [[n3|]|e3]; cbn [snd]; try (by rewrite Hu2, Hc2, Hu1, Hc1).
    destruct (agent_reply w2 _ profile tracking);
      cbn [snd uuids_drawn wall_clock clock_reads]; by rewrite Hu2, Hc2, Hu1, Hc1. }
  destruct (Hfinal _ eq_refl) as (Hu & Hc & Hr). clear Hfinal.
  split; [exact Hu|]. split; [exact Hc|]. split.
  - intros t Ht. split; [rewrite Hr, Hr2, Hr1, Ht; by destruct r1 as [[?|]|?]|].
    intros w' Hagent.
    destruct (selector_cases profile tracking w')
      as (r1' & r2' & r3' & Hstep' & Hmeal' & Hcal' & _ & _ & ->).
    assert (Hseen : forall v v', seen_time tracking v = seen_time tracking v').
    { intros v v'. unfold seen_time. by rewrite Ht. }
    clear Hc1 Hu1 Hr1 Hc2 Hu2 Hr2 Hu Hc Hr Hsel. subst w1 w2.
    unfold after_time_read in Hstep', Hmeal', Hcal', Hstep, Hmeal, Hcal |- *.
    rewrite Ht in Hstep', Hmeal', Hcal', Hstep, Hmeal, Hcal |- *.
    assert (r1' = r1) as ->.
    { pose proof (check_step_progress_value profile tracking w' w (Hseen _ _)) as Hv.
      rewrite Hstep, Hstep' in Hv. simpl in Hv. congruence. }
    assert (r2' = r2) as ->.
    { pose proof (check_meal_logging_value profile tracking w' w (Hseen _ _)) as Hv.
      rewrite Hmeal, Hmeal' in Hv. simpl in Hv. congruence. }
    assert (r3' = r3) as ->.
    { pose proof (check_calorie_progress_value profile tracking w' w) as Hv.
      by rewrite Hcal, Hcal' in Hv. }
    destruct r1 as [[n1|]|e1]; try reflexivity.
    destruct r2 as [[n2|]|e2]; try reflexivity.
    destruct r3 as [[n3|]|e3]; try reflexivity.
    rewrite Hagent. by destruct (agent_reply w _ profile tracking).
  - intros Hnone. split.
    + rewrite Hstep. cbn [snd]. subst w1. unfold after_time_read. by rewrite Hnone.
    + rewrite Hr.
      assert (Hoff : snapshot_offset tracking = None).
      { unfold snapshot_offset. by rewrite Hnone. }
      pose proof (check_step_progress_run profile tracking w) as Hrun.
      rewrite time_ge_literal, seen_time_offset, Hoff, Hstep in Hrun.
      apply (f_equal fst) in Hrun. cbn [fst] in Hrun. subst r1.
      rewrite Hr2, Hr1, Hnone. unfold seen_time. rewrite Hnone. clear.
      by destruct (_ && _).
Qed.

Lemma int_gt_mono (c c' : Z) (x : PyFloat) :
  c <= c' -> pyfloat.int_gt c x = true -> pyfloat.int_gt c' x = true.
Proof.
  intros Hle. destruct x as [s|s| |s m e]; simpl; try done.
  - rewrite !Z.ltb_lt. lia.
  - destruct (0 <=? e) eqn:He; rewrite !Z.ltb_lt; [lia|].
    apply Z.leb_gt in He.
    assert (0 < 2 ^ (- e)) by (apply Z.pow_pos_nonneg; lia). nia.
Qed.

(** X13. The calorie rule is monotone in the calories consumed: on a
    snapshot that gets the warning, any larger count of calories consumed
    gets it too, everything else the same; whether the rule raises does not
    depend on the calories consumed at all. *)
Theorem calorie_rule_monotone
    (profile : FitnessProfile.t) (tracking : DailyTracking.t) (more : Z) (w : World)
    (Hmore : DailyTracking.calories_consumed tracking <= more) :
  let outcome := (check_calorie_progress profile tracking w).1 in
  let outcome' :=
    (check_calorie_progress profile (with_calories_consumed more tracking) w).1 in
  ((exists n, outcome = Ok (Some n)) ->
     exists n',
       outcome' = Ok (Some n')
       /\ BehavioralNotification.notification_type n' = CALORIE_WARNING
       /\ BehavioralNotification.message n'
          = calorie_message more (DailyTracking.calories_goal tracking - more))
  /\ (outcome' = Ok None -> outcome = Ok None)
  /\ (forall e, outcome = Raise e <-> outcome' = Raise e).
Proof.
  intros outcome outcome'. subst outcome outcome'.
  destruct (decide (FitnessProfile.fitness_goal profile = WEIGHT_LOSS)) as [Hgoal|Hgoal].
  - rewrite !(check_calorie_progress_weight_loss _ _ _ Hgoal). simpl.
    destruct (pyfloat.int_mul _ _) as [threshold|e]; simpl.
    + destruct (pyfloat.int_gt (DailyTracking.calories_consumed tracking) threshold)
        eqn:Hgt; simpl.
      * rewrite (int_gt_mono _ _ _ Hmore Hgt). simpl.
        split; [intros _; by eexists|]. split; [discriminate|]. by split.
      * split; [by intros [n ?]|]. split; [done|].
        intros e. destruct (pyfloat.int_gt more threshold); by split.
    + split; [by intros [n ?]|]. split; [discriminate|]. by split.
  - rewrite !(check_calorie_progress_other_goal _ _ _ Hgoal). simpl.
    split; [by intros [n ?]|]. split; [done|]. by split.
Qed.

Lemma selector_never_none_aux profile tracking w :
  (get_contextual_notification profile tracking w).1 <> Ok None.
Proof.
  destruct (selector_cases profile tracking w)
    as (r1 & r2 & r3 & _ & _ & _ & _ & _ & ->).
  destruct r1 as [[n1|]|e1]; [done| |done]. destruct r2 as [[n2|]|e2]; [done| |done].
  destruct r3 as [[n3|]|e3]; [done| |done].
  by destruct (agent_reply _ _ profile tracking).
Qed.

(** ** The circle-aware notification *)

Lemma string_append_empty_r (s : string) : s +:+ "" = s.
Proof.
  induction s as [|c s IH]; [reflexivity|].
  change (String c s +:+ "") with (String c (s +:+ "")). by rewrite IH.
Qed.

Lemma set_notification_message_same (n : BehavioralNotification.t) :
  set_notification_message (BehavioralNotification.message n) n = n.
Proof. by destruct n. Qed.

(** X14. The circle-aware selector does what the plain selector does (same
    runtime afterwards, same failure when that one raises) and then at most
    appends one line to the message: type, urgency, context and suggested
    action are those of the plain notification. The line is the follower
    line when the profile's member record in the circle is of an influencer
    tier, even if it has a streak; else the streak line when the streak is
    positive; and nothing is appended without a circle, for a profile that
    is not a member, or for a streak of zero or less. *)
Theorem circle_enhancer_only_appends
    (profile : FitnessProfile.t) (tracking : DailyTracking.t)
    (circle : option FitnessCircle.t) (w : World) :
  let base := get_contextual_notification profile tracking w in
  let out := get_contextual_notification_with_circle profile tracking circle w in
  out.2 = base.2
  /\ (forall e, base.1 = Raise e -> out.1 = Raise e)
  /\ (forall n, base.1 = Ok (Some n) ->
      exists suffix,
        out.1 = Ok (Some (set_notification_message
                            (BehavioralNotification.message n +:+ suffix) n))
        /\ suffix =
           match circle with
           | None => ""
           | Some c =>
               match find_member (FitnessCircle.members c) (FitnessProfile.name profile) with
               | None => ""
               | Some (_, member) =>
                   if bool_decide (CircleMember.rank member ∈ influencer_ranks)
                   then influencer_line (CircleRank_value (CircleMember.rank member))
                          (length (FitnessProfile.followers profile))
                   else if bool_decide (0 < CircleMember.current_streak member)
                   then streak_line (CircleMember.current_streak member)
                   else ""
               end
           end
        /\ (suffix = "" -> out.1 = Ok (Some n)))
  /\ (circle = None -> out = base)
  /\ (forall c, circle = Some c ->
        FitnessProfile.name profile ∉ member_ids (FitnessCircle.members c) -> out = base).
Proof.
  intros base out. subst base out.
  unfold get_contextual_notification_with_circle, bind.
  pose proof (selector_never_none_aux profile tracking w) as Hsome.
  destruct (get_contextual_notification profile tracking w) as [[[n|]|e] w'] eqn:Hbase;
    [|by destruct Hsome|].
  - assert (Hplain : @Ok (option BehavioralNotification.t) (Some n)
                     = Ok (Some (set_notification_message
                                   (BehavioralNotification.message n +:+ "") n))).
    { by rewrite string_append_empty_r, set_notification_message_same. }
    destruct circle as [c|]; simpl.
    + destruct (find_member (FitnessCircle.members c) (FitnessProfile.name profile))
        as [[i member]|] eqn:Hfind.
      * destruct (bool_decide (CircleMember.rank member ∈ influencer_ranks)) eqn:Hinf;
          [|destruct (bool_decide (0 < CircleMember.current_streak member)) eqn:Hstreak];
          simpl.
        -- split; [reflexivity|]. split; [discriminate|]. split.
           ++ intros n0 [= <-]. eexists. split; [reflexivity|]. split; [reflexivity|].
              intros Hempty. by rewrite Hempty, string_append_empty_r,
                               set_notification_message_same.
           ++ split; [discriminate|]. intros c0 [= <-] Hout.
              apply find_member_None in Hout. congruence.
        -- split; [reflexivity|]. split; [discriminate|]. split.
           ++ intros n0 [= <-]. eexists. split; [reflexivity|]. split; [reflexivity|].
              intros Hempty. by rewrite Hempty, string_append_empty_r,
                               set_notification_message_same.
           ++ split; [discriminate|]. intros c0 [= <-] Hout.
              apply find_member_None in Hout. congruence.
        -- split; [reflexivity|]. split; [discriminate|]. split.
           ++ intros n0 [= <-]. exists "". split; [exact Hplain|].
              split; [reflexivity|]. intros _. reflexivity.
           ++ split; [discriminate|]. by intros c0 [= <-] Hout.
      * split; [reflexivity|]. split; [discriminate|]. split.
        -- intros n0 [= <-]. exists "". split; [exact Hplain|].
           split; [reflexivity|]. intros _. reflexivity.
        -- split; [discriminate|]. by intros c0 [= <-] Hout.
    + split; [reflexivity|]. split; [discriminate|]. split.
      * intros n0 [= <-]. exists "". split; [exact Hplain|].
        split; [reflexivity|]. intros _. reflexivity.
      * by split.
  - simpl. split; [reflexivity|]. split; [by intros e0 [= <-]|].
    split; [discriminate|]. by split.
Qed.

(** ** Enumerations *)

Lemma enum_of_value_Some {E : Type} (members : list E) (value : E -> string) s x :
  enum_of_value members value s = Some x -> value x = s /\ x ∈ members.
Proof.
  unfold enum_of_value. destruct (list_find _ members) as [[i y]|] eqn:Hfind; [|done].
  simpl. intros [= <-]. apply list_find_Some in Hfind as (Hi & Hv & _).
  split; [exact Hv|]. by eapply list_elem_of_lookup_2.
Qed.

(** X15. For each enumeration of models.py, looking a member up by its
    value gives the member back, and a lookup that succeeds returns a
    member carrying the string looked up; so no two members share a value.
    The value is not always the member's name in lower case: ADVANCED
    carries "expert", which is what a lookup must use. *)
Theorem enum_value_round_trip :
  (forall x, enum_of_value ActivityLevel_members ActivityLevel_value
               (ActivityLevel_value x) = Some x)
  /\ (forall x, enum_of_value CookingSkillLevel_members CookingSkillLevel_value
                  (CookingSkillLevel_value x) = Some x)
  /\ (forall x, enum_of_value FitnessGoal_members FitnessGoal_value
                  (FitnessGoal_value x) = Some x)
  /\ (forall x, enum_of_value CircleRank_members CircleRank_value
                  (CircleRank_value x) = Some x)
  /\ (forall x, enum_of_value NotificationType_members NotificationType_value
                  (NotificationType_value x) = Some x)
  /\ (forall x, enum_of_value SkippedMeal_members SkippedMeal_value
                  (SkippedMeal_value x) = Some x)
  /\ (forall s x, enum_of_value ActivityLevel_members ActivityLevel_value s = Some x ->
                  ActivityLevel_value x = s)
  /\ (forall s x, enum_of_value CookingSkillLevel_members CookingSkillLevel_value s = Some x ->
                  CookingSkillLevel_value x = s)
  /\ (forall s x, enum_of_value FitnessGoal_members FitnessGoal_value s = Some x ->
                  FitnessGoal_value x = s)
  /\ (forall s x, enum_of_value CircleRank_members CircleRank_value s = Some x ->
                  CircleRank_value x = s)
  /\ (forall s x, enum_of_value NotificationType_members NotificationType_value s = Some x ->
                  NotificationType_value x = s)
  /\ (forall s x, enum_of_value SkippedMeal_members SkippedMeal_value s = Some x ->
                  SkippedMeal_value x = s)
  /\ enum_of_value CookingSkillLevel_members CookingSkillLevel_value "advanced" = None
  /\ enum_of_value CookingSkillLevel_members CookingSkillLevel_value "expert" = Some ADVANCED.
Proof.
  repeat match goal with |- _ /\ _ => split end;
    try (intros []; reflexivity);
    try (intros s x Hx; by apply enum_of_value_Some in Hx as [? _]);
    reflexivity.
Qed.

(** ** test_utils.py *)

(** X16. In every runtime [example_usage] prints the same three lines, the
    step reminder, the lunch reminder and the calorie warning: each of its
    snapshots is settled by a rule, so the generative agent is never
    called; the clock is read three times, for the dates of the snapshots
    only. *)
Theorem example_usage_output (w : World) :
  exists w',
    example_usage w
    = (Ok ["Scenario 1 - Low steps by noon: 🚶‍♂️ Only 200 steps by noon! You need 9800 more steps to reach your 10000 goal. A 30-minute walk could add ~3,000 steps!";
           "Scenario 2 - No lunch logged: 🥗 Time for lunch! Don't skip meals - it can lead to overeating later. Aim for protein and veggies to stay on track with your goals.";
           "Scenario 3 - High calorie intake: ⚠️ You've consumed 1300 calories today. Only 200 calories left to stay within your weight loss target!"],
       w')
    /\ agent_calls w' = agent_calls w
    /\ clock_reads w' = S (S (S (clock_reads w)))
    /\ uuids_drawn w' = uuids_drawn w.
Proof.
  eexists. split; [vm_compute; reflexivity|]. by repeat split.
Qed.

(** ** The step rule *)

Lemma str_int_negative (z : Z) : z < 0 -> exists digits, str_int z = "-" +:+ digits.
Proof.
  destruct z as [|p|p]; [lia|lia|]. intros _. unfold str_int. simpl. by eexists.
Qed.

(** X17. On a snapshot whose own current_time is aware the step rule
    raises TypeError, even when 2000 steps or more are taken: the
    comparison with the naive [time(12, 0)] comes first. Otherwise it does
    not raise, and it returns None exactly when it is before 12:00 or at
    least 2000 steps are taken; it looks neither at the profile nor at the
    step goal. So it also fires for a snapshot whose goal is already
    reached, and its text then reports steps remaining that are zero or
    negative, a negative count being written with its minus sign. For a
    time of day with proper fields, being before 12:00 is a matter of the
    hour alone. *)
Theorem step_rule_table
    (profile : FitnessProfile.t) (tracking : DailyTracking.t) (w : World) :
  let t := seen_time tracking w in
  let taken := DailyTracking.steps_taken tracking in
  let goal := DailyTracking.steps_goal tracking in
  let outcome := (check_step_progress profile tracking w).1 in
  (forall e, outcome = Raise e <-> e = TypeError /\ snapshot_offset tracking <> None)
  /\ (outcome = Ok None <->
       snapshot_offset tracking = None
       /\ (time.ltb t (time.mk 12 0 0 0) = true \/ 2000 <= taken))
  /\ (forall n, outcome = Ok (Some n) ->
        snapshot_offset tracking = None
        /\ BehavioralNotification.notification_type n = STEP_REMINDER
        /\ BehavioralNotification.message n
           = "🚶‍♂️ Only " +:+ str_int taken +:+ " steps by noon! You need "
            +:+ str_int (goal - taken) +:+ " more steps to reach your "
            +:+ str_int goal +:+ " goal. A 30-minute walk could add ~3,000 steps!"
        /\ BehavioralNotification.context n !! "time" = Some (PyStr (time.str t)))
  /\ (forall profile' : FitnessProfile.t,
        check_step_progress profile' tracking w = check_step_progress profile tracking w)
  /\ (snapshot_offset tracking = None ->
      time.ltb t (time.mk 12 0 0 0) = false -> taken < 2000 -> goal <= taken ->
        exists n,
          outcome = Ok (Some n)
          /\ BehavioralNotification.message n
             = "🚶‍♂️ Only " +:+ str_int taken +:+ " steps by noon! You need "
            +:+ str_int (goal - taken) +:+ " more steps to reach your "
            +:+ str_int goal +:+ " goal. A 30-minute walk could add ~3,000 steps!"
          /\ goal - taken <= 0
          /\ (goal < taken -> exists digits, str_int (goal - taken) = "-" +:+ digits))
  /\ (time_fields_nonneg t -> (time.ltb t (time.mk 12 0 0 0) = true <-> time.hour t < 12)).
Proof.
  intros t taken goal outcome. subst outcome.
  pose proof (check_step_progress_run profile tracking w) as Hrun.
  rewrite time_ge_literal, seen_time_offset in Hrun. fold t taken goal in Hrun.
  apply (f_equal fst) in Hrun. cbn [fst] in Hrun. rewrite Hrun. clear Hrun.
  unfold time.geb.
  split; [|split; [|split; [|split; [|split]]]].
  - intros e. destruct (snapshot_offset tracking) as [off|].
    + split; [by intros [= <-]|by intros [-> _]].
    + split; [|by intros [_ ?]]. by destruct (_ && _).
  - destruct (snapshot_offset tracking) as [off|]; [split; [discriminate|by intros [? _]]|].
    destruct (time.ltb t (time.mk 12 0 0 0)); simpl;
      [split; [intros _; split; [done|by left]|done]|].
    case_bool_decide; simpl; [|split; [intros _; split; [done|]; right; lia|done]].
    split; [discriminate|]. intros [_ [?|?]]; [done|lia].
  - intros n. destruct (snapshot_offset tracking) as [off|]; [discriminate|].
    destruct (_ && _); [|discriminate]. intros [= <-]. simpl.
    split; [reflexivity|]. split; [reflexivity|]. split; [reflexivity|].
    rewrite !lookup_insert_ne by done. apply lookup_singleton_eq.
  - reflexivity.
  - intros -> Hnoon Htaken Hgoal. rewrite Hnoon, bool_decide_eq_true_2 by done. simpl.
    eexists. split; [reflexivity|]. simpl. split; [reflexivity|]. split; [lia|].
    intros Hover. apply str_int_negative. lia.
  - intros Hfields. by apply time_ltb_hour.
Qed.

(** ** Streaks and points *)

Lemma same_counters_refl members : same_counters members members.
Proof. unfold same_counters. apply Forall2_same_length_lookup. split; [done|].
  intros i m m' Hm Hm'. rewrite Hm in Hm'. by injection Hm' as <-. Qed.

Lemma same_counters_insert members i m m' :
  members !! i = Some m ->
  CircleMember.user_id m' = CircleMember.user_id m ->
  CircleMember.current_streak m' = CircleMember.current_streak m ->
  CircleMember.total_points m' = CircleMember.total_points m ->
  same_counters members (<[i := m']> members).
Proof.
  intros Hi Hid Hs Hp. unfold same_counters. apply Forall2_same_length_lookup.
  split; [by rewrite length_insert|].
  intros j x y Hx Hy. destruct (decide (j = i)) as [->|Hne].
  - rewrite list_lookup_insert_eq in Hy by (by eapply lookup_lt_Some).
    injection Hy as <-. rewrite Hi in Hx. by injection Hx as <-.
  - rewrite list_lookup_insert_ne in Hy by done. rewrite Hx in Hy. by injection Hy as <-.
Qed.

Lemma same_counters_trans l1 l2 l3 :
  same_counters l1 l2 -> same_counters l2 l3 -> same_counters l1 l3.
Proof.
  unfold same_counters. intros H12 H23. revert l3 H23.
  induction H12 as [|x y l1 l2 (Hid & Hs & Hp) _ IH]; intros l3 H23.
  - by inversion H23.
  - inversion H23 as [|y' z l2' l3' (Hid' & Hs' & Hp') Hrest]; subst.
    constructor; [|by apply IH]. split; [congruence|]. split; congruence.
Qed.

Lemma run_op_same_counters op circle w :
  is_join op = false ->
  exists circle' w',
    run_op op circle w = (Ok circle', w')
    /\ same_counters (FitnessCircle.members circle) (FitnessCircle.members circle').
Proof.
  destruct op as [profile|member_id new_rank|member_id steps cal workouts];
    [discriminate| |]; intros _; cbn [run_op]; unfold bind.
  - destruct (find_member (FitnessCircle.members circle) member_id) as [[i m]|] eqn:Hfind.
    + rewrite (promote_member_rank_found _ _ _ _ _ _ Hfind).
      apply find_member_Some in Hfind as [Hi _].
      eexists _, _. split; [reflexivity|]. simpl. by eapply same_counters_insert.
    + rewrite (promote_member_rank_missing _ _ _ _ Hfind).
      eexists _, _. split; [reflexivity|]. apply same_counters_refl.
  - destruct (find_member (FitnessCircle.members circle) member_id) as [[i m]|] eqn:Hfind.
    + rewrite (update_member_progress_found _ _ _ _ _ _ _ _ Hfind).
      apply find_member_Some in Hfind as [Hi _].
      eexists _, _. split; [reflexivity|]. simpl. by eapply same_counters_insert.
    + rewrite (update_member_progress_missing _ _ _ _ _ _ Hfind).
      eexists _, _. split; [reflexivity|]. apply same_counters_refl.
Qed.

Lemma run_ops_same_counters ops circle w :
  Forall (λ op, is_join op = false) ops ->
  exists circle' w',
    run_ops ops circle w = (Ok circle', w')
    /\ same_counters (FitnessCircle.members circle) (FitnessCircle.members circle').
Proof.
  intros Hops. revert circle w. induction Hops as [|op ops Hop _ IH]; intros circle w.
  - exists circle, w. split; [reflexivity|apply same_counters_refl].
  - destruct (run_op_same_counters op circle w Hop) as (c1 & w1 & Hrun & Hsame).
    destruct (IH c1 w1) as (c2 & w2 & Hrest & Hsame').
    exists c2, w2. split; [simpl; unfold bind; by rewrite Hrun|].
    by eapply same_counters_trans.
Qed.

Lemma sorted_desc_related {A : Type} (key : A -> Z * Z) (R : A -> A -> Prop) :
  (forall x y, R x y -> key y = key x) ->
  forall l l', Forall2 R l l' -> Forall2 R (sorted_desc key l) (sorted_desc key l').
Proof.
  intros Hkey.
  assert (Hins : forall x y l l', R x y -> Forall2 R l l' ->
                   Forall2 R (insert_desc key x l) (insert_desc key y l')).
  { intros x y l l' Hxy Hl. induction Hl as [|a b l l' Hab Hl IH]; simpl.
    - by repeat constructor.
    - rewrite (Hkey _ _ Hxy), (Hkey _ _ Hab).
      destruct (key_ltb (key x) (key a)); by repeat constructor. }
  intros l l' Hl. induction Hl as [|x y l l' Hxy Hl IH]; [constructor|].
  unfold sorted_desc in *. simpl. by apply Hins.
Qed.

(** X18. No promote and no update_progress ever writes a streak or a point
    count: after any sequence of them every member has the user id, the
    streak and the points it had, at the place it had. The leaderboard
    therefore lists the same user ids in the same order before and after:
    reporting progress or promoting someone moves nobody up or down. *)
Theorem counters_and_leaderboard_fixed
    (ops : list RegistryOp) (circle : FitnessCircle.t) (w : World)
    (Hops : Forall (λ op, is_join op = false) ops) :
  exists circle' w',
    run_ops ops circle w = (Ok circle', w')
    /\ same_counters (FitnessCircle.members circle) (FitnessCircle.members circle')
    /\ member_ids (FitnessCircle.members circle') = member_ids (FitnessCircle.members circle)
    /\ member_ids (get_circle_leaderboard circle')
       = member_ids (get_circle_leaderboard circle)
    /\ leaderboard_key <$> get_circle_leaderboard circle'
       = leaderboard_key <$> get_circle_leaderboard circle.
Proof.
  destruct (run_ops_same_counters ops circle w Hops) as (circle' & w' & Hrun & Hsame).
  exists circle', w'. split; [exact Hrun|]. split; [exact Hsame|].
  assert (Hids : forall l l', same_counters l l' -> member_ids l' = member_ids l).
  { intros l l' H. unfold member_ids. induction H as [|x y l l' (Hid & _) _ IH];
      [reflexivity|]. csimpl. by rewrite Hid, IH. }
  assert (Hkeys : forall l l', same_counters l l' ->
                    leaderboard_key <$> l' = leaderboard_key <$> l).
  { intros l l' H. induction H as [|x y l l' (_ & Hs & Hp) _ IH]; [reflexivity|].
    csimpl. rewrite IH. unfold leaderboard_key. by rewrite Hs, Hp. }
  assert (Hboard : same_counters (get_circle_leaderboard circle)
                     (get_circle_leaderboard circle')).
  { unfold get_circle_leaderboard, same_counters.
    apply sorted_desc_related; [|exact Hsame].
    intros x y (_ & Hs & Hp). unfold leaderboard_key. by rewrite Hs, Hp. }
  split; [by apply Hids|]. split; [by apply Hids|by apply Hkeys].
Qed.

(** ** Ranks without promotion *)

Lemma next_rank_idle r streak points :
  streak < 7 -> points < 1000 -> next_rank r streak points = r.
Proof.
  intros Hs Hp. unfold next_rank.
  rewrite !bool_decide_eq_false_2; [reflexivity| |]; intros [_ ?]; lia.
Qed.

Lemma idle_step_refl circle :
  Forall idle (FitnessCircle.members circle) -> idle_step circle circle.
Proof.
  intros Hidle. split; [exact Hidle|]. split.
  - intros i m Hm. by exists m.
  - intros i m' Hm' Hlen. apply lookup_lt_Some in Hm'. lia.
Qed.

Lemma idle_step_trans c1 c2 c3 :
  idle_step c1 c2 -> idle_step c2 c3 -> idle_step c1 c3.
Proof.
  intros (Hidle2 & Hold1 & Hnew1) (Hidle3 & Hold2 & Hnew2).
  split; [exact Hidle3|]. split.
  - intros i m Hm. destruct (Hold1 i m Hm) as (m1 & Hm1 & Hr1 & Hid1 & Hs1 & Hp1).
    destruct (Hold2 i m1 Hm1) as (m2 & Hm2 & Hr2 & Hid2 & Hs2 & Hp2).
    exists m2. split; [exact Hm2|]. repeat split; congruence.
  - intros i m' Hm' Hlen.
    destruct (decide (length (FitnessCircle.members c2) <= i)%nat) as [Hge|Hlt].
    + by apply (Hnew2 i m').
    + destruct (lookup_lt_is_Some_2 (FitnessCircle.members c2) i) as [m1 Hm1]; [lia|].
      destruct (Hold2 i m1 Hm1) as (m2 & Hm2 & Hr2 & _ & Hs2 & Hp2).
      rewrite Hm' in Hm2. injection Hm2 as <-.
      destruct (Hnew1 i m1 Hm1 Hlen) as (Hrank & Hs & Hp).
      rewrite Hr2, Hs2, Hp2. by repeat split.
Qed.

Lemma run_op_idle op circle w :
  is_promote op = false ->
  Forall idle (FitnessCircle.members circle) ->
  exists circle' w', run_op op circle w = (Ok circle', w') /\ idle_step circle circle'.
Proof.
  intros Hop Hidle.
  destruct op as [profile|member_id new_rank|member_id steps cal workouts];
    [|discriminate|]; cbn [run_op]; unfold bind.
  - destruct (decide (FitnessCircle.max_members circle
                      <= Z.of_nat (length (FitnessCircle.members circle))
                      \/ FitnessProfile.name profile
                         ∈ member_ids (FitnessCircle.members circle))) as [Hno|Hyes].
    + rewrite (join_circle_refused _ _ _ Hno). eexists _, _.
      split; [reflexivity|]. by apply idle_step_refl.
    + rewrite join_circle_joined by (lia || tauto). eexists _, _.
      split; [reflexivity|]. unfold idle_step. cbn [ret fst snd FitnessCircle.members
        FitnessCircle.set_last_activity FitnessCircle.set_members].
      split; [|split].
      * apply Forall_app. split; [exact Hidle|]. apply Forall_singleton.
        unfold idle. simpl. lia.
      * intros i m Hm. exists m. split; [by apply lookup_app_l_Some|done].
      * intros i m' Hm' Hlen. apply lookup_app_Some in Hm' as [Hm'|[_ Hm']].
        -- apply lookup_lt_Some in Hm'. lia.
        -- apply list_lookup_singleton_Some in Hm' as [_ <-]. simpl.
           split; [case_bool_decide; [by right|by left]|done].
  - destruct (find_member (FitnessCircle.members circle) member_id) as [[i m]|] eqn:Hfind.
    + rewrite (update_member_progress_found _ _ _ _ _ _ _ _ Hfind).
      apply find_member_Some in Hfind as [Hi _].
      assert (Hm : idle m).
      { rewrite Forall_forall in Hidle. apply Hidle. by eapply list_elem_of_lookup_2. }
      assert (Hrank : CircleMember.rank (progressed (wall_clock w (clock_reads w)) m)
                      = CircleMember.rank m).
      { destruct Hm. simpl. by apply next_rank_idle. }
      eexists _, _. split; [reflexivity|]. unfold idle_step.
      cbn [ret fst snd FitnessCircle.members FitnessCircle.set_last_activity
           FitnessCircle.set_members].
      split; [|split].
      * apply Forall_insert; [exact Hidle|]. exact Hm.
      * intros j mj Hj. destruct (decide (j = i)) as [->|Hne].
        -- rewrite Hi in Hj. injection Hj as <-. eexists.
           split; [apply list_lookup_insert_eq; by eapply lookup_lt_Some|].
           by repeat split.
        -- exists mj. by rewrite list_lookup_insert_ne.
      * intros j m' Hm' Hlen. apply lookup_lt_Some in Hm'.
        rewrite length_insert in Hm'. lia.
    + rewrite (update_member_progress_missing _ _ _ _ _ _ Hfind). eexists _, _.
      split; [reflexivity|]. by apply idle_step_refl.
Qed.

Lemma run_ops_idle ops :
  Forall (λ op, is_promote op = false) ops ->
  forall circle w,
  Forall idle (FitnessCircle.members circle) ->
  exists circle' w', run_ops ops circle w = (Ok circle', w') /\ idle_step circle circle'.
Proof.
  induction 1 as [|op ops Hop _ IH]; intros circle w Hidle.
  - exists circle, w. split; [reflexivity|by apply idle_step_refl].
  - destruct (run_op_idle op circle w Hop Hidle) as (c1 & w1 & Hrun & Hstep1).
    destruct (IH c1 w1 (proj1 Hstep1)) as (c2 & w2 & Hrest & Hstep2).
    exists c2, w2. split; [simpl; unfold bind; by rewrite Hrun|].
    by eapply idle_step_trans.
Qed.

(** X19. Progress updates promote nobody whose streak is below 7 and whose
    points are below 1000, and no operation ever raises those counters. So
    in a circle of such members, any sequence of joins and progress updates
    leaves every member the rank it had, and every member that joins on the
    way stays the Follower or Member that joining made it, with streak 0
    and 0 points. *)
Theorem idle_members_keep_their_rank
    (ops : list RegistryOp) (circle : FitnessCircle.t) (w : World)
    (Hidle : Forall idle (FitnessCircle.members circle))
    (Hops : Forall (λ op, is_promote op = false) ops) :
  exists circle' w',
    run_ops ops circle w = (Ok circle', w')
    /\ Forall idle (FitnessCircle.members circle')
    /\ (forall i m, FitnessCircle.members circle !! i = Some m ->
          exists m', FitnessCircle.members circle' !! i = Some m'
                     /\ CircleMember.rank m' = CircleMember.rank m
                     /\ CircleMember.user_id m' = CircleMember.user_id m)
    /\ (forall i m', FitnessCircle.members circle' !! i = Some m' ->
          (length (FitnessCircle.members circle) <= i)%nat ->
          (CircleMember.rank m' = FOLLOWER \/ CircleMember.rank m' = MEMBER)
          /\ CircleMember.current_streak m' = 0 /\ CircleMember.total_points m' = 0).
Proof.
  destruct (run_ops_idle ops Hops circle w Hidle)
    as (circle' & w' & Hrun & Hidle' & Hold & Hnew).
  exists circle', w'. split; [exact Hrun|]. split; [exact Hidle'|].
  split; [|exact Hnew].
  intros i m Hm. destruct (Hold i m Hm) as (m' & Hm' & Hr & Hid & _).
  by exists m'.
Qed.

(** X20. In a circle made by [create_fitness_circle] and changed only by
    joins and progress updates, nobody is ever promoted: the creator keeps
    the rank it was created with and every other member is a Follower or a
    Member. So whoever is privileged in such a circle is its creator, and
    the creator's profile was of an influencer tier: without
    [promote_member_rank], nobody else can ever create a challenge or
    initiate an accountability check. *)
Theorem only_an_influencer_creator_is_privileged
    (profile : FitnessProfile.t) (name description : string) (circle_goal : FitnessGoal)
    (max_members : Z) (is_public : bool) (tags : list string)
    (ops : list RegistryOp) (w : World)
    (Hops : Forall (λ op, is_promote op = false) ops) :
  exists circle profile' w1 circle' w',
    create_fitness_circle profile name description circle_goal max_members is_public
      tags w = (Ok (circle, profile'), w1)
    /\ run_ops ops circle w1 = (Ok circle', w')
    /\ (exists creator,
          FitnessCircle.members circle' !! 0%nat = Some creator
          /\ CircleMember.user_id creator = FitnessProfile.name profile
          /\ CircleMember.rank creator =
               (if bool_decide (FitnessProfile.circle_rank profile ∈ influencer_ranks)
                then LEADER else MEMBER))
    /\ (forall i m, FitnessCircle.members circle' !! i = Some m -> (1 <= i)%nat ->
          CircleMember.rank m = FOLLOWER \/ CircleMember.rank m = MEMBER)
    /\ (forall actor : FitnessProfile.t,
          actor_privileged actor circle' ->
          FitnessProfile.name actor = FitnessProfile.name profile
          /\ FitnessProfile.circle_rank profile ∈ influencer_ranks).
Proof.
  destruct (create_fitness_circle_outcome profile name description circle_goal
              max_members is_public tags w)
    as (circle & Heq & _ & _ & creator & Hmembers & Hid & Hrank).
  assert (Hcounters : CircleMember.current_streak creator = 0
                      /\ CircleMember.total_points creator = 0).
  { revert Heq Hmembers. unfold create_fitness_circle. py_simpl.
    intros [= <-]. simpl. by intros [= <-]. }
  assert (Hidle : Forall idle (FitnessCircle.members circle)).
  { rewrite Hmembers. apply Forall_singleton. unfold idle.
    destruct Hcounters as [-> ->]. lia. }
  destruct (run_ops_idle ops Hops circle
              (mkWorld (wall_clock w) (3 + clock_reads w) (uuid_source w)
                 (S (uuids_drawn w)) (agent_reply w) (agent_calls w)) Hidle)
    as (circle' & w' & Hrun & _ & Hold & Hnew).
  eexists circle, _, _, circle', w'. split; [exact Heq|]. split; [exact Hrun|].
  assert (Hcreator : exists creator',
            FitnessCircle.members circle' !! 0%nat = Some creator'
            /\ CircleMember.user_id creator' = FitnessProfile.name profile
            /\ CircleMember.rank creator' =
                 (if bool_decide (FitnessProfile.circle_rank profile ∈ influencer_ranks)
                  then LEADER else MEMBER)).
  { destruct (Hold 0%nat creator) as (creator' & H0 & Hr & Hi & _);
      [by rewrite Hmembers|].
    exists creator'. split; [exact H0|]. split; congruence. }
  assert (Hothers : forall i m, FitnessCircle.members circle' !! i = Some m ->
                      (1 <= i)%nat ->
                      CircleMember.rank m = FOLLOWER \/ CircleMember.rank m = MEMBER).
  { intros i m Hm Hi. apply (Hnew i m Hm). by rewrite Hmembers. }
  split; [exact Hcreator|]. split; [exact Hothers|].
  intros actor (i & m & Hfind & Hpriv).
  apply find_member_Some in Hfind as [Hm Hname].
  destruct i as [|i].
  - destruct Hcreator as (creator' & H0 & Hi & Hr). rewrite Hm in H0.
    injection H0 as ->. split; [congruence|].
    rewrite Hr in Hpriv. case_bool_decide; [done|]. revert Hpriv. compute_done.
  - exfalso. destruct (Hothers (S i) m Hm) as [Hr|Hr]; [lia| |];
      rewrite Hr in Hpriv; revert Hpriv; compute_done.
Qed.

(** ** Filling a circle *)

(** X21. Joins are served in order until the circle is full: when profiles
    with pairwise distinct names, none of them a member yet, join one after
    the other, exactly the first [max_members - len(members)] of them
    become members, in that order, and the others are refused. *)
Theorem joins_fill_to_capacity
    (profiles : list FitnessProfile.t) (circle : FitnessCircle.t) (w : World)
    (Hcap : Z.of_nat (length (FitnessCircle.members circle))
            <= FitnessCircle.max_members circle)
    (Hdistinct : NoDup (member_ids (FitnessCircle.members circle)
                        ++ (FitnessProfile.name <$> profiles))) :
  exists circle' w',
    run_ops (Join <$> profiles) circle w = (Ok circle', w')
    /\ member_ids (FitnessCircle.members circle')
       = member_ids (FitnessCircle.members circle)
         ++ take (Z.to_nat (FitnessCircle.max_members circle
                            - Z.of_nat (length (FitnessCircle.members circle))))
                 (FitnessProfile.name <$> profiles)
    /\ Z.of_nat (length (FitnessCircle.members circle'))
       = Z.min (FitnessCircle.max_members circle)
               (Z.of_nat (length (FitnessCircle.members circle) + length profiles)).
Proof.
  revert circle w Hcap Hdistinct.
  induction profiles as [|p ps IH]; intros circle w Hcap Hdistinct.
  - exists circle, w. split; [reflexivity|]. csimpl. rewrite take_nil, app_nil_r.
    split; [reflexivity|]. lia.
  - csimpl in Hdistinct.
    assert (Hnew : FitnessProfile.name p ∉ member_ids (FitnessCircle.members circle)).
    { apply NoDup_app in Hdistinct as (_ & Hdisj & _). intros Hin.
      apply (Hdisj _ Hin). left. }
    csimpl. unfold bind at 1. cbn [run_op]. unfold bind at 1.
    destruct (decide (Z.of_nat (length (FitnessCircle.members circle))
                      < FitnessCircle.max_members circle)) as [Hroom|Hfull].
    + rewrite (join_circle_joined _ _ _ Hroom Hnew). cbn [ret fst snd].
      set (c1 := FitnessCircle.set_last_activity _ _).
      assert (Hids1 : member_ids (FitnessCircle.members c1)
                      = member_ids (FitnessCircle.members circle) ++ [FitnessProfile.name p]).
      { subst c1. cbn [FitnessCircle.members FitnessCircle.set_last_activity
                       FitnessCircle.set_members]. by rewrite member_ids_app. }
      assert (Hlen1 : length (FitnessCircle.members c1)
                      = S (length (FitnessCircle.members circle))).
      { subst c1. cbn [FitnessCircle.members FitnessCircle.set_last_activity
                       FitnessCircle.set_members]. rewrite length_app. simpl. lia. }
      destruct (IH c1 (after_clock_reads 2 w)) as (c' & w' & Hrun & Hids & Hlen).
      { rewrite Hlen1. subst c1. simpl. lia. }
      { rewrite Hids1, <- app_assoc. exact Hdistinct. }
      exists c', w'. split; [exact Hrun|].
      assert (Hmax : FitnessCircle.max_members c1 = FitnessCircle.max_members circle)
        by reflexivity.
      rewrite Hmax, Hlen1 in Hids, Hlen. split.
      * rewrite Hids, Hids1, <- app_assoc. f_equal.
        replace (Z.to_nat (FitnessCircle.max_members circle
                           - Z.of_nat (length (FitnessCircle.members circle))))
          with (S (Z.to_nat (FitnessCircle.max_members circle
                             - Z.of_nat (S (length (FitnessCircle.members circle))))))
          by lia.
        reflexivity.
      * rewrite Hlen. simpl. lia.
    + rewrite join_circle_refused by (left; lia). cbn [ret fst snd].
      destruct (IH circle w) as (c' & w' & Hrun & Hids & Hlen); [lia| |].
      { apply NoDup_app in Hdistinct as (Hd1 & Hdisj & Hd2).
        apply NoDup_app. split; [exact Hd1|]. split.
        - intros x Hx Hx'. apply (Hdisj x Hx). by right.
        - by apply NoDup_cons in Hd2 as [_ ?]. }
      exists c', w'. split; [exact Hrun|].
      replace (Z.to_nat (FitnessCircle.max_members circle
                         - Z.of_nat (length (FitnessCircle.members circle))))
        with 0%nat in * by lia.
      split; [by rewrite Hids|]. rewrite Hlen. simpl. lia.
Qed.

(** ** The circle-aware notification in circles without promotion *)

Lemma circle_enhancer_plain profile tracking circle w :
  (forall i m,
     find_member (FitnessCircle.members circle) (FitnessProfile.name profile) = Some (i, m) ->
     (CircleMember.rank m ∉ influencer_ranks) /\ CircleMember.current_streak m <= 0) ->
  get_contextual_notification_with_circle profile tracking (Some circle) w
  = get_contextual_notification profile tracking w.
Proof.
  intros Hplain. unfold get_contextual_notification_with_circle, bind.
  destruct (get_contextual_notification profile tracking w) as [[[n|]|e] w'];
    try reflexivity.
  destruct (find_member _ _) as [[i m]|] eqn:Hfind; [|reflexivity].
  destruct (Hplain i m eq_refl) as [Hrank Hstreak].
  rewrite bool_decide_eq_false_2 by (intros Hin; by apply Hrank).
  rewrite bool_decide_eq_false_2 by lia. reflexivity.
Qed.

(** X22. In a circle made by [create_fitness_circle] and changed only by
    joins and progress updates, the circle-aware selector never appends
    anything: no member record is of an influencer tier and every streak
    is 0, so for every profile and snapshot it returns exactly what the
    plain selector returns. *)
Theorem circle_enhancer_silent_without_promotion
    (profile : FitnessProfile.t) (name description : string) (circle_goal : FitnessGoal)
    (max_members : Z) (is_public : bool) (tags : list string)
    (ops : list RegistryOp) (w : World)
    (Hops : Forall (λ op, is_promote op = false) ops) :
  exists circle profile' w1 circle' w',
    create_fitness_circle profile name description circle_goal max_members is_public
      tags w = (Ok (circle, profile'), w1)
    /\ run_ops ops circle w1 = (Ok circle', w')
    /\ Forall (λ m, CircleMember.current_streak m = 0
                    /\ CircleMember.rank m ∉ influencer_ranks)
              (FitnessCircle.members circle')
    /\ (forall (who : FitnessProfile.t) (tracking : DailyTracking.t) (v : World),
          get_contextual_notification_with_circle who tracking (Some circle') v
          = get_contextual_notification who tracking v).
Proof.
  destruct (create_fitness_circle_outcome profile name description circle_goal
              max_members is_public tags w)
    as (circle & Heq & _ & _ & creator & Hmembers & Hid & Hrank).
  assert (Hcounters : CircleMember.current_streak creator = 0
                      /\ CircleMember.total_points creator = 0).
  { revert Heq Hmembers. unfold create_fitness_circle. py_simpl.
    intros [= <-]. simpl. by intros [= <-]. }
  assert (Hidle : Forall idle (FitnessCircle.members circle)).
  { rewrite Hmembers. apply Forall_singleton. unfold idle.
    destruct Hcounters as [-> ->]. lia. }
  destruct (run_ops_idle ops Hops circle
              (mkWorld (wall_clock w) (3 + clock_reads w) (uuid_source w)
                 (S (uuids_drawn w)) (agent_reply w) (agent_calls w)) Hidle)
    as (circle' & w' & Hrun & _ & Hold & Hnew).
  eexists circle, _, _, circle', w'. split; [exact Heq|]. split; [exact Hrun|].
  assert (Hall : Forall (λ m, CircleMember.current_streak m = 0
                              /\ CircleMember.rank m ∉ influencer_ranks)
                   (FitnessCircle.members circle')).
  { apply Forall_lookup. intros i m Hm. destruct i as [|i].
    - destruct (Hold 0%nat creator) as (m0 & H0 & Hr & _ & Hs & _);
        [by rewrite Hmembers|].
      rewrite Hm in H0. injection H0 as ->.
      split; [by rewrite Hs; apply Hcounters|].
      rewrite Hr, Hrank. case_bool_decide; compute_done.
    - destruct (Hnew (S i) m Hm) as (Hr & Hs & _); [rewrite Hmembers; simpl; lia|].
      split; [exact Hs|]. destruct Hr as [-> | ->]; compute_done. }
  split; [exact Hall|].
  intros who tracking v. apply circle_enhancer_plain.
  intros i m Hfind. apply find_member_Some in Hfind as [Hm _].
  rewrite Forall_lookup in Hall. destruct (Hall i m Hm) as [Hs Hr].
  split; [exact Hr|lia].
Qed.

(** ** Instances of the further properties *)

(** Tunde joins Ada's circle and is not privileged there. *)
Lemma join_then_member_witness :
  Z.of_nat (length (FitnessCircle.members ada_circle)) < FitnessCircle.max_members ada_circle
  /\ (FitnessProfile.name tunde ∉ member_ids (FitnessCircle.members ada_circle))
  /\ exists profile' circle' w',
       join_circle tunde ada_circle example_world = (Ok (true, profile', circle'), w')
       /\ ~ actor_privileged profile' circle'.
Proof.
  assert (Hroom : Z.of_nat (length (FitnessCircle.members ada_circle))
                  < FitnessCircle.max_members ada_circle) by (simpl; lia).
  assert (Hnew : FitnessProfile.name tunde ∉ member_ids (FitnessCircle.members ada_circle))
    by compute_done.
  split; [exact Hroom|]. split; [exact Hnew|].
  destruct (join_then_member tunde ada_circle example_world Hroom Hnew)
    as (profile' & circle' & w' & new_member & Heq & _ & _ & _ & Hnot & _).
  by exists profile', circle', w'.
Defined.

(** Ada's circle stays well formed through a join, a promotion and a
    progress update. *)
Lemma registry_keeps_invariants_witness :
  circle_wf ada_circle
  /\ exists circle' w',
       run_ops [Join tunde; Promote "Bola" LEADER; UpdateProgress "Ada" 0 0 0]
         ada_circle example_world = (Ok circle', w')
       /\ circle_wf circle'.
Proof.
  assert (Hwf : circle_wf ada_circle).
  { split; [compute_done|simpl; lia]. }
  split; [exact Hwf|].
  destruct (registry_keeps_invariants
              [Join tunde; Promote "Bola" LEADER; UpdateProgress "Ada" 0 0 0]
              ada_circle example_world Hwf) as (circle' & w' & Hrun & Hwf' & _).
  by exists circle', w'.
Defined.

(** Bola, with a streak of 9 and 1200 points, is a Leader after three
    progress updates. *)
Lemma progress_settles_in_two_calls_witness :
  find_member (FitnessCircle.members ada_circle) "Bola" = Some (1%nat, bola_member)
  /\ (2 <= 3)%nat
  /\ exists circle' w' m',
       repeat_update_progress 3 ada_circle "Bola" 4000 900 1 example_world
         = (Ok circle', w')
       /\ find_member (FitnessCircle.members circle') "Bola" = Some (1%nat, m')
       /\ CircleMember.rank m' = LEADER.
Proof.
  assert (Hfind : find_member (FitnessCircle.members ada_circle) "Bola"
                  = Some (1%nat, bola_member)) by reflexivity.
  assert (Hn : (2 <= 3)%nat) by lia.
  split; [exact Hfind|]. split; [exact Hn|].
  destruct (progress_settles_in_two_calls 3 ada_circle "Bola" 4000 900 1 example_world
              1 bola_member Hfind Hn)
    as (circle' & w' & m' & Hrun & Hfound & _ & Hleader & _).
  exists circle', w', m'. split; [exact Hrun|]. split; [exact Hfound|].
  apply Hleader; [reflexivity|simpl; lia|simpl; lia].
Defined.

(** Bola, once promoted to Leader, gets an accountability check. *)
Lemma promotion_decides_the_gates_witness :
  find_member (FitnessCircle.members ada_circle)
    (FitnessProfile.name (example_profile "Bola" FOLLOWER)) = Some (1%nat, bola_member)
  /\ exists circle' w' chk v',
       promote_member_rank ada_circle "Bola" LEADER example_world = (Ok (true, circle'), w')
       /\ initiate_accountability_check (example_profile "Bola" FOLLOWER) circle'
            ["Ada"] "How was your week?" "weekly" w' = (Ok (Some chk), v').
Proof.
  assert (Hfind : find_member (FitnessCircle.members ada_circle)
                    (FitnessProfile.name (example_profile "Bola" FOLLOWER))
                  = Some (1%nat, bola_member)) by reflexivity.
  split; [exact Hfind|].
  destruct (promotion_decides_the_gates (example_profile "Bola" FOLLOWER) ada_circle
              LEADER example_world 1 bola_member Hfind)
    as (circle' & w' & Hrun & _ & Hcheck & _).
  assert (Hin : LEADER ∈ privileged_ranks) by (simpl; left).
  destruct (Hcheck Hin ["Ada"] "How was your week?" "weekly" w') as (chk & v' & Hchk).
  by exists circle', w', chk, v'.
Defined.

(** Ada asks after Bola twice and after Zed, who is no member: one target. *)
Lemma accountability_targets_witness :
  actor_privileged ada ada_circle
  /\ exists chk w',
       initiate_accountability_check ada ada_circle ["Bola"; "Zed"; "Bola"]
         "How was your week?" "weekly" example_world = (Ok (Some chk), w')
       /\ NoDup (AccountabilityCheck.target_members chk).
Proof.
  assert (Hpriv : actor_privileged ada ada_circle).
  { exists 0%nat, ada_member. split; [reflexivity|]. simpl. left. }
  split; [exact Hpriv|].
  destruct (accountability_targets ada ada_circle ["Bola"; "Zed"; "Bola"]
              "How was your week?" "weekly" example_world Hpriv)
    as (chk & w' & Heq & _ & _ & Hnodup & _).
  exists chk, w'. split; [exact Heq|]. apply Hnodup. compute_done.
Defined.

(** Ada's one-week challenge ends seven days after the second clock
    reading. *)
Lemma challenge_dates_witness :
  actor_privileged ada ada_circle
  /\ end_date_representable example_world 7
  /\ exists ch w',
       create_circle_challenge ada ada_circle "Walk" "Walk daily" "steps" 10000 7 50
         example_world = (Ok (Some ch), w')
       /\ CircleChallenge.end_date ch = datetime.mk 739007 (time.mk 9 0 1 0).
Proof.
  assert (Hpriv : actor_privileged ada ada_circle).
  { exists 0%nat, ada_member. split; [reflexivity|]. simpl. left. }
  assert (Hdate : end_date_representable example_world 7).
  { unfold end_date_representable, timedelta.max_days, datetime.max_ordinal. simpl. lia. }
  split; [exact Hpriv|]. split; [exact Hdate|].
  destruct (challenge_dates ada ada_circle "Walk" "Walk daily" "steps" 10000 7 50
              example_world Hpriv Hdate) as (ch & w' & Heq & _ & Hend & _).
  exists ch, w'. split; [exact Heq|exact Hend].
Defined.

(** Scenario 3 of [example_usage] with 1400 calories instead of 1300. *)
Lemma calorie_rule_monotone_witness :
  DailyTracking.calories_consumed tracking_3 <= 1400
  /\ exists n',
       (check_calorie_progress tunde (with_calories_consumed 1400 tracking_3)
          example_world).1 = Ok (Some n')
       /\ BehavioralNotification.notification_type n' = CALORIE_WARNING.
Proof.
  assert (Hmore : DailyTracking.calories_consumed tracking_3 <= 1400) by (simpl; lia).
  split; [exact Hmore|].
  destruct (calorie_rule_monotone tunde tracking_3 1400 example_world Hmore)
    as (Hfires & _).
  destruct Hfires as (n' & Heq & Htype & _); [by eexists|].
  by exists n'.
Defined.

(** Promoting Bola and updating Ada leaves the leaderboard as it was. *)
Lemma counters_and_leaderboard_fixed_witness :
  Forall (λ op, is_join op = false) [Promote "Bola" LEADER; UpdateProgress "Ada" 1 1 1]
  /\ exists circle' w',
       run_ops [Promote "Bola" LEADER; UpdateProgress "Ada" 1 1 1] ada_circle example_world
         = (Ok circle', w')
       /\ member_ids (get_circle_leaderboard circle')
          = member_ids (get_circle_leaderboard ada_circle).
Proof.
  assert (Hops : Forall (λ op, is_join op = false)
                   [Promote "Bola" LEADER; UpdateProgress "Ada" 1 1 1]).
  { apply Forall_cons. split; [reflexivity|].
    apply Forall_cons. split; [reflexivity|]. apply Forall_nil_2. }
  split; [exact Hops|].
  destruct (counters_and_leaderboard_fixed _ ada_circle example_world Hops)
    as (circle' & w' & Hrun & _ & _ & Hboard & _).
  by exists circle', w'.
Defined.

(** Chi, with a streak of 3 and 100 points, stays a Follower. *)
Lemma idle_members_keep_their_rank_witness :
  Forall idle (FitnessCircle.members (example_circle [chi_member; dayo_member] 10))
  /\ Forall (λ op, is_promote op = false) [Join tunde; UpdateProgress "Chi" 9000 2000 2]
  /\ exists circle' w' m',
       run_ops [Join tunde; UpdateProgress "Chi" 9000 2000 2]
         (example_circle [chi_member; dayo_member] 10) example_world = (Ok circle', w')
       /\ FitnessCircle.members circle' !! 0%nat = Some m'
       /\ CircleMember.rank m' = FOLLOWER.
Proof.
  assert (Hidle : Forall idle
                    (FitnessCircle.members (example_circle [chi_member; dayo_member] 10))).
  { simpl. apply Forall_cons. split; [unfold idle; simpl; lia|].
    apply Forall_cons. split; [unfold idle; simpl; lia|]. apply Forall_nil_2. }
  assert (Hops : Forall (λ op, is_promote op = false)
                   [Join tunde; UpdateProgress "Chi" 9000 2000 2]).
  { apply Forall_cons. split; [reflexivity|].
    apply Forall_cons. split; [reflexivity|]. apply Forall_nil_2. }
  split; [exact Hidle|]. split; [exact Hops|].
  destruct (idle_members_keep_their_rank _ _ example_world Hidle Hops)
    as (circle' & w' & Hrun & _ & Hold & _).
  destruct (Hold 0%nat chi_member eq_refl) as (m' & Hm' & Hrank & _).
  by exists circle', w', m'.
Defined.

(** Tunde creates a circle, Ada joins: nobody is privileged in it. *)
Lemma only_an_influencer_creator_is_privileged_witness :
  Forall (λ op, is_promote op = false) [Join ada; UpdateProgress "Tunde" 0 0 0]
  /\ exists circle profile' w1 circle' w',
       create_fitness_circle tunde "Evening runners" "Run at six" WEIGHT_LOSS 100 true []
         example_world = (Ok (circle, profile'), w1)
       /\ run_ops [Join ada; UpdateProgress "Tunde" 0 0 0] circle w1 = (Ok circle', w')
       /\ forall actor, ~ actor_privileged actor circle'.
Proof.
  assert (Hops : Forall (λ op, is_promote op = false)
                   [Join ada; UpdateProgress "Tunde" 0 0 0]).
  { apply Forall_cons. split; [reflexivity|].
    apply Forall_cons. split; [reflexivity|]. apply Forall_nil_2. }
  split; [exact Hops|].
  destruct (only_an_influencer_creator_is_privileged tunde "Evening runners" "Run at six"
              WEIGHT_LOSS 100 true [] _ example_world Hops)
    as (circle & profile' & w1 & circle' & w' & Hmake & Hrun & _ & _ & Honly).
  exists circle, profile', w1, circle', w'. split; [exact Hmake|]. split; [exact Hrun|].
  intros actor Hpriv. destruct (Honly actor Hpriv) as [_ Hinf].
  revert Hinf. compute_done.
Defined.

(** Tunde and Zed ask to join a circle of two with three places: Tunde
    gets the place. *)
Lemma joins_fill_to_capacity_witness :
  Z.of_nat (length (FitnessCircle.members (example_circle [ada_member; bola_member] 3)))
    <= FitnessCircle.max_members (example_circle [ada_member; bola_member] 3)
  /\ NoDup (member_ids (FitnessCircle.members (example_circle [ada_member; bola_member] 3))
            ++ (FitnessProfile.name <$> [tunde; zed]))
  /\ exists circle' w',
       run_ops (Join <$> [tunde; zed]) (example_circle [ada_member; bola_member] 3)
         example_world = (Ok circle', w')
       /\ member_ids (FitnessCircle.members circle') = ["Ada"; "Bola"; "Tunde"].
Proof.
  assert (Hcap : Z.of_nat (length (FitnessCircle.members
                                     (example_circle [ada_member; bola_member] 3)))
                 <= FitnessCircle.max_members (example_circle [ada_member; bola_member] 3))
    by (simpl; lia).
  assert (Hdistinct : NoDup (member_ids (FitnessCircle.members
                                           (example_circle [ada_member; bola_member] 3))
                             ++ (FitnessProfile.name <$> [tunde; zed])))
    by compute_done.
  split; [exact Hcap|]. split; [exact Hdistinct|].
  destruct (joins_fill_to_capacity [tunde; zed] (example_circle [ada_member; bola_member] 3)
              example_world Hcap Hdistinct) as (circle' & w' & Hrun & Hids & _).
  exists circle', w'. split; [exact Hrun|exact Hids].
Defined.

(** In the circle Tunde made and Ada joined, Ada's notification is the
    plain one. *)
Lemma circle_enhancer_silent_without_promotion_witness :
  Forall (λ op, is_promote op = false) [Join ada; UpdateProgress "Tunde" 0 0 0]
  /\ exists circle profile' w1 circle' w',
       create_fitness_circle tunde "Evening runners" "Run at six" WEIGHT_LOSS 100 true []
         example_world = (Ok (circle, profile'), w1)
       /\ run_ops [Join ada; UpdateProgress "Tunde" 0 0 0] circle w1 = (Ok circle', w')
       /\ get_contextual_notification_with_circle ada tracking_1 (Some circle') w'
          = get_contextual_notification ada tracking_1 w'.
Proof.
  assert (Hops : Forall (λ op, is_promote op = false)
                   [Join ada; UpdateProgress "Tunde" 0 0 0]).
  { apply Forall_cons. split; [reflexivity|].
    apply Forall_cons. split; [reflexivity|]. apply Forall_nil_2. }
  split; [exact Hops|].
  destruct (circle_enhancer_silent_without_promotion tunde "Evening runners" "Run at six"
              WEIGHT_LOSS 100 true [] _ example_world Hops)
    as (circle & profile' & w1 & circle' & w' & Hmake & Hrun & _ & Hsilent).
  exists circle, profile', w1, circle', w'. split; [exact Hmake|]. split; [exact Hrun|].
  apply Hsilent.
Defined.

(** With a time of day given in UTC the selector raises TypeError and
    leaves the runtime as it was. *)
Lemma selector_never_none_witness :
  get_contextual_notification tunde tracking_utc example_world
  = (Raise TypeError, example_world).
Proof.
  destruct (selector_never_none tunde tracking_utc example_world) as (_ & _ & Haware & _).
  apply Haware. discriminate.
Defined.

(** With a time of day given in UTC the meal rule raises TypeError although
    breakfast and lunch are logged. *)
Lemma meal_rule_table_witness :
  (check_meal_logging tunde tracking_utc example_world).1 = Raise TypeError.
Proof.
  destruct (meal_rule_table tunde tracking_utc example_world) as (Hraise & _).
  apply Hraise. split; [reflexivity|discriminate].
Defined.

(** With a time of day given in UTC the step rule raises TypeError although
    5000 steps are taken. *)
Lemma step_rule_table_witness :
  (check_step_progress tunde tracking_utc example_world).1 = Raise TypeError.
Proof.
  destruct (step_rule_table tunde tracking_utc example_world) as (Hraise & _).
  apply Hraise. split; [reflexivity|discriminate].
Defined.
